(** * scipy.interpolate.fitpack2: the spline wrapper classes

    A shallow embedding of [scipy/interpolate/fitpack2.py].  The module is
    glue around the FITPACK routines of [dfitpack] and [fitpack]: it checks
    arguments, calls a fitting routine, stores what came back on the object
    and interprets the status code [ier].

    Modelling choices.
    - Array elements are [num]: exact rationals extended with the two
      infinities and NaN.  Rounding is not modelled; the NaN and infinity
      rules of comparison, subtraction, [min] and [max] are.
    - Where the module subtracts elements of an array of the caller
      ([np.diff], the knot test), the result depends on the element type:
      the array comes with its [dtype], a floating type or an integer type
      of a given width, whose subtraction wraps around.  Other element
      types (bool, complex, object) are outside the model.
    - Python integers are [Z]; sequences are lists; [None] is [option].
    - The routines of [dfitpack] and [fitpack] are the fields of a record
      [curfit_lib] or [surfit_lib]: every definition is parametrised by it,
      so a theorem holds for whatever those routines return.  They are total
      functions of their arguments: every statement about a method that
      calls one is a statement about the runs in which the routine returns,
      and an exception raised inside the extension module is outside the
      model.
    - Methods run in a monad that threads the object ([self]) and a trace of
      the observable events (library calls and warnings) and may raise. *)

From Stdlib Require Import ZArith QArith Qround String List Bool Lia.
Import ListNotations.

Set Implicit Arguments.

Local Open Scope Z_scope.

(** ** Numbers *)

Inductive num : Type :=
| Fin (q : Q)
| PInf
| NInf
| NaN.

Definition Qltb (p q : Q) : bool :=
  match Qcompare p q with Lt => true | _ => false end.

(** [a < b]; false as soon as one side is NaN. *)
Definition num_ltb (a b : num) : bool :=
  match a, b with
  | Fin p, Fin q => Qltb p q
  | NInf, Fin _ | NInf, PInf | Fin _, PInf => true
  | _, _ => false
  end.

Definition num_gtb (a b : num) : bool := num_ltb b a.

(** [a == b]; false as soon as one side is NaN. *)
Definition num_eqb (a b : num) : bool :=
  match a, b with
  | Fin p, Fin q => Qeq_bool p q
  | PInf, PInf | NInf, NInf => true
  | _, _ => false
  end.

(** [a >= b]. *)
Definition num_geb (a b : num) : bool := num_gtb a b || num_eqb a b.

(** [a <= b]. *)
Definition num_leb (a b : num) : bool := num_ltb a b || num_eqb a b.

(** [a - b]. *)
Definition num_sub (a b : num) : num :=
  match a, b with
  | NaN, _ | _, NaN => NaN
  | Fin p, Fin q => Fin (p - q)
  | PInf, PInf | NInf, NInf => NaN
  | PInf, _ | _, NInf => PInf
  | NInf, _ | _, PInf => NInf
  end.

Definition num_isnan (a : num) : bool :=
  match a with NaN => true | _ => false end.

(** [np.isfinite]. *)
Definition isfinite (a : num) : bool :=
  match a with Fin _ => true | _ => false end.

Definition num_of_Z (z : Z) : num := Fin (inject_Z z).

Definition zero : num := Fin 0.

(** The element type of an array: a floating type, or an integer type of
    [bits] bits, unsigned or signed. *)
Inductive dtype : Type :=
| Float
| Unsigned (bits : positive)
| Signed (bits : positive).

(** The representative of an integer in an integer type: arithmetic on
    such a type is modulo [2^bits]. *)
Definition wrap (d : dtype) (z : Z) : Z :=
  match d with
  | Float => z
  | Unsigned w => z mod 2 ^ Z.pos w
  | Signed w => (z + 2 ^ (Z.pos w - 1)) mod 2 ^ Z.pos w - 2 ^ (Z.pos w - 1)
  end.

(** [a - b] for two elements of an array of type [d]; the elements of an
    integer array are integers. *)
Definition dtype_sub (d : dtype) (a b : num) : num :=
  match d, a, b with
  | Float, _, _ => num_sub a b
  | _, Fin p, Fin q => num_of_Z (wrap d (Qfloor (p - q)))
  | _, _, _ => num_sub a b
  end.

(** [np.pi], the double nearest to pi. *)
Definition np_pi : Q := 884279719003555 # 281474976710656.

(** ** Python sequences *)

Definition len {A} (l : list A) : Z := Z.of_nat (length l).

(** A bound of a slice, as [PySlice_AdjustIndices] does for step 1: a
    negative index counts from the end, then the index is clamped into
    [0, len]. *)
Definition adjust_index (n i : Z) : Z :=
  if i <? 0 then Z.max 0 (i + n) else Z.min i n.

(** [l[lo:hi]]; [None] is an omitted bound. *)
Definition py_slice {A} (l : list A) (lo hi : option Z) : list A :=
  let n := len l in
  let a := match lo with Some i => adjust_index n i | None => 0 end in
  let b := match hi with Some i => adjust_index n i | None => n end in
  firstn (Z.to_nat (b - a)) (skipn (Z.to_nat a) l).

(** [l[i]]; [None] stands for IndexError. *)
Definition py_index {A} (l : list A) (i : Z) : option A :=
  let n := len l in
  let j := if i <? 0 then i + n else i in
  if (0 <=? j) && (j <? n) then nth_error l (Z.to_nat j) else None.

(** [[v] * n]. *)
Definition py_repeat {A} (v : A) (n : Z) : list A := repeat v (Z.to_nat n).

(** ** numpy arrays *)

Definition shape_t : Type := list nat.

Definition shape_size (s : shape_t) : nat := fold_right Nat.mul 1%nat s.

Record ndarray : Type := mk_ndarray {
  shape : shape_t;
  data : list num
}.

(** [a.size] *)
Definition size (a : ndarray) : nat := shape_size (shape a).

(** [np.asarray] of a flat sequence. *)
Definition array1 (l : list num) : ndarray := mk_ndarray [length l] l.

(** [a.ravel()] *)
Definition ravel (a : ndarray) : ndarray := mk_ndarray [size a] (data a).

(** [a.reshape(s)] *)
Definition reshape (a : ndarray) (s : shape_t) : ndarray := mk_ndarray s (data a).

(** [np.zeros(s)] *)
Definition np_zeros (s : shape_t) : ndarray :=
  mk_ndarray s (repeat zero (shape_size s)).

(** [minimum.reduce]: the accumulator is kept when it is smaller or NaN, so
    a NaN anywhere in the array is the result. *)
Definition np_min (l : list num) : option num :=
  match l with
  | [] => None
  | a :: r =>
      Some (fold_left (fun acc b => if num_ltb acc b || num_isnan acc then acc else b) r a)
  end.

(** [maximum.reduce], likewise. *)
Definition np_max (l : list num) : option num :=
  match l with
  | [] => None
  | a :: r =>
      Some (fold_left (fun acc b => if num_geb acc b || num_isnan acc then acc else b) r a)
  end.

(** [np.diff] of a 1-d array of type [d]. *)
Fixpoint np_diff (d : dtype) (l : list num) : list num :=
  match l with
  | a :: (b :: _) as r => dtype_sub d b a :: np_diff d r
  | _ => []
  end.

(** [np.all(l > 0)] *)
Definition all_positive (l : list num) : bool :=
  forallb (fun d => num_gtb d zero) l.

(** [np.isfinite(l).all()] *)
Definition all_finite (l : list num) : bool := forallb isfinite l.

(** [a - b] for 1-d arrays of type [d] under numpy broadcasting: equal
    lengths subtract pointwise, a length-1 side is stretched, anything else
    is a shape mismatch ([None]). *)
Definition np_sub1 (d : dtype) (a b : list num) : option (list num) :=
  if (length a =? length b)%nat
  then Some (map (fun p => dtype_sub d (fst p) (snd p)) (combine a b))
  else match a, b with
       | [u], _ => Some (map (fun v => dtype_sub d u v) b)
       | _, [v] => Some (map (fun u => dtype_sub d u v) a)
       | _, _ => None
       end.

(** [np.resize(a, n)] for a 1-d array: [a] repeated cyclically up to length
    [n], zeros when [a] is empty; a negative [n] is numpy's ValueError
    ([None]). *)
Definition np_resize {A} (z : A) (a : list A) (n : Z) : option (list A) :=
  if n <? 0 then None
  else
    let m := Z.to_nat n in
    Some match a with
         | [] => repeat z m
         | _ => firstn m (concat (repeat a m))
         end.

(** The broadcast of two shapes, written on the reversed shapes (trailing
    dimension first); [None] is "shape mismatch". *)
Fixpoint broadcast_rev (s1 s2 : shape_t) : option shape_t :=
  match s1, s2 with
  | [], s | s, [] => Some s
  | d1 :: r1, d2 :: r2 =>
      match broadcast_rev r1 r2 with
      | None => None
      | Some r =>
          if (d1 =? d2)%nat then Some (d1 :: r)
          else if (d1 =? 1)%nat then Some (d2 :: r)
          else if (d2 =? 1)%nat then Some (d1 :: r)
          else None
      end
  end.

Definition broadcast_shapes (s1 s2 : shape_t) : option shape_t :=
  option_map (@rev nat) (broadcast_rev (rev s1) (rev s2)).

(** Cut [d] into consecutive rows of [n] elements. *)
Fixpoint chunks (rows n : nat) (d : list num) : list (list num) :=
  match rows with
  | O => []
  | S r => firstn n d :: chunks r n (skipn n d)
  end.

(** The elements of an array of shape [src] read at shape [tgt] of the same
    rank, a dimension of length 1 being repeated. *)
Fixpoint stretch (src tgt : shape_t) (d : list num) : list num :=
  match src, tgt with
  | s :: src', t :: tgt' =>
      let rows := map (stretch src' tgt') (chunks s (shape_size src') d) in
      if (s =? t)%nat then concat rows else concat (repeat (concat rows) t)
  | _, _ => d
  end.

(** [np.broadcast_to(a, s)], for [s] a broadcast of [shape a]. *)
Definition broadcast_to (a : ndarray) (s : shape_t) : ndarray :=
  let pad := repeat 1%nat (length s - length (shape a)) in
  mk_ndarray s (stretch (pad ++ shape a) s (data a)).

(** [np.broadcast_arrays(x, y)]; [None] is the ValueError of a shape
    mismatch. *)
Definition broadcast_arrays (x y : ndarray) : option (ndarray * ndarray) :=
  match broadcast_shapes (shape x) (shape y) with
  | Some s => Some (broadcast_to x s, broadcast_to y s)
  | None => None
  end.

(** ** Python dictionaries

    A dict literal is its list of entries; a later entry with an equal key
    wins, and assignment replaces the entry in place or appends it. *)

Section Dict.
Variables K V : Type.
Variable eqb : K -> K -> bool.

Fixpoint dict_get (d : list (K * V)) (k : K) : option V :=
  match d with
  | [] => None
  | (k', v) :: r =>
      match dict_get r k with
      | Some v' => Some v'
      | None => if eqb k' k then Some v else None
      end
  end.

(** [d.get(k, default)] *)
Definition dict_get_default (d : list (K * V)) (k : K) (default : V) : V :=
  match dict_get d k with Some v => v | None => default end.

(** [d[k] = v] *)
Fixpoint dict_set (d : list (K * V)) (k : K) (v : V) : list (K * V) :=
  match d with
  | [] => [(k, v)]
  | (k', v') :: r => if eqb k' k then (k', v) :: r else (k', v') :: dict_set r k v
  end.
End Dict.

(** ** Messages, exceptions, events *)

(** The key of [_extrap_modes]: an int or a str. *)
Inductive ext_key : Type :=
| KInt (z : Z)
| KStr (s : string).

Definition ext_key_eqb (a b : ext_key) : bool :=
  match a, b with
  | KInt x, KInt y => x =? y
  | KStr x, KStr y => String.eqb x y
  | _, _ => false
  end.

(** An argument of the [%] operator. *)
Inductive fmt_arg : Type :=
| AInt (z : Z)
| ANone
| AKey (k : ext_key).

(** A message: a literal, or a format string with its arguments
    ([fmt % args], left unrendered). *)
Inductive message : Type :=
| Text (s : string)
| Format (s : string) (args : list fmt_arg).

Inductive exn : Type :=
| ValueError (m : message)
| TypeError (m : message)
| NotImplementedError (m : message)
| IndexError
| AttributeError (attr : string)
| LibError (e : string).

(** The routines of [dfitpack] and [fitpack] the module calls. *)
Inductive routine : Type :=
| r_fpcurf0 | r_fpcurf1 | r_fpcurfm1 | r_fpchec
| r_splev | r_splint | r_spalde | r_sproot | r_splder | r_splantider
| r_surfit_smth | r_surfit_lsq | r_regrid_smth
| r_spherfit_smth | r_spherfit_lsq | r_regrid_smth_spher
| r_parder | r_bispev | r_pardeu | r_bispeu | r_dblint.

(** The fitting routines: those that compute a spline from data. *)
Definition is_solver (r : routine) : bool :=
  match r with
  | r_fpcurf0 | r_fpcurf1 | r_fpcurfm1
  | r_surfit_smth | r_surfit_lsq | r_regrid_smth
  | r_spherfit_smth | r_spherfit_lsq | r_regrid_smth_spher => true
  | _ => false
  end.

(** The routines that evaluate a stored spline. *)
Definition is_evaluator (r : routine) : bool :=
  match r with
  | r_splev | r_parder | r_bispev | r_pardeu | r_bispeu => true
  | _ => false
  end.

Inductive warning_category : Type := UserWarning | FutureWarning.

Inductive event : Type :=
| Call (r : routine)
| Warn (c : warning_category) (m : message).

Definition is_solver_call (e : event) : bool :=
  match e with Call r => is_solver r | _ => false end.

Definition is_evaluator_call (e : event) : bool :=
  match e with Call r => is_evaluator r | _ => false end.

Definition is_warning (e : event) : bool :=
  match e with Warn _ _ => true | _ => false end.

(** How often the fitting routines were entered. *)
Definition solver_calls (tr : list event) : nat :=
  List.length (filter is_solver_call tr).

Definition warnings_of (tr : list event) : list message :=
  flat_map (fun e => match e with Warn _ m => [m] | _ => [] end) tr.

(** ** The method monad

    A method body maps the object and the trace so far to a result (a value
    or a raised exception), the object as it then is, and the extended
    trace.  An exception leaves the assignments made before it in place. *)

Record outcome (O A : Type) : Type := mk_outcome {
  result : exn + A;
  self_after : O;
  trace : list event
}.

Definition M (O A : Type) : Type := O -> list event -> outcome O A.

Definition ret {O A} (a : A) : M O A :=
  fun o tr => mk_outcome (inr a) o tr.

Definition raise {O A} (e : exn) : M O A :=
  fun o tr => mk_outcome (inl e) o tr.

Definition bind {O A B} (m : M O A) (k : A -> M O B) : M O B :=
  fun o tr =>
    let r := m o tr in
    match result r with
    | inl e => mk_outcome (inl e) (self_after r) (trace r)
    | inr a => k a (self_after r) (trace r)
    end.

Definition emit {O} (e : event) : M O unit :=
  fun o tr => mk_outcome (inr tt) o (tr ++ [e]).

Definition get_self {O} : M O O :=
  fun o tr => mk_outcome (inr o) o tr.

Definition update_self {O} (f : O -> O) : M O unit :=
  fun o tr => mk_outcome (inr tt) (f o) tr.

Declare Scope py_scope.
Delimit Scope py_scope with py.
Notation "x <- c ;; k" := (bind c (fun x => k))
  (at level 100, c at next level, right associativity) : py_scope.
Notation "' p <- c ;; k" := (bind c (fun x => let p := x in k))
  (at level 100, p pattern, c at next level, right associativity) : py_scope.
Notation "c ;; k" := (bind c (fun _ => k))
  (at level 100, right associativity) : py_scope.
Local Open Scope py_scope.

(** [warnings.warn(m)] *)
Definition warn {O} (m : message) : M O unit := emit (Warn UserWarning m).

(** A call of a library routine [r] whose value is [v]. *)
Definition call {O A} (r : routine) (v : A) : M O A :=
  emit (Call r) ;; ret v.

(** A value that must not be missing. *)
Definition expect {O A} (e : exn) (o : option A) : M O A :=
  match o with Some a => ret a | None => raise e end.

Definition when {O} (b : bool) (m : M O unit) : M O unit :=
  if b then m else ret tt.

(** Run a method on an object, from the empty trace. *)
Definition run {O A} (m : M O A) (o : O) : outcome O A := m o [].

Definition raised {O A} (r : outcome O A) : bool :=
  match result r with inl _ => true | inr _ => false end.

(** ** The tables of the module *)

Local Open Scope string_scope.

(** UnivariateSpline, ext parameter can be an int or a string *)
Definition _extrap_modes : list (ext_key * Z) :=
  [(KInt 0, 0); (KStr "extrapolate", 0);
   (KInt 1, 1); (KStr "zeros", 1);
   (KInt 2, 2); (KStr "raise", 2);
   (KInt 3, 3); (KStr "const", 3)].

(** The diagnostics of the univariate fitting routine, by status code. *)
Definition _curfit_messages : list (Z * string) :=
  [(1, "
The required storage space exceeds the available storage space, as
specified by the parameter nest: nest too small. If nest is already
large (say nest > m/2), it may also indicate that s is too small.
The approximation returned is the weighted least-squares spline
according to the knots t[0],t[1],...,t[n-1]. (n=nest) the parameter fp
gives the corresponding weighted sum of squared residuals (fp>s).
");
   (2, "
A theoretically impossible result was found during the iteration
proces for finding a smoothing spline with fp = s: s too small.
There is an approximation returned but the corresponding weighted sum
of squared residuals does not satisfy the condition abs(fp-s)/s < tol.");
   (3, "
The maximal number of iterations maxit (set to 20 by the program)
allowed for finding a smoothing spline with fp=s has been reached: s
too small.
There is an approximation returned but the corresponding weighted sum
of squared residuals does not satisfy the condition abs(fp-s)/s < tol.");
   (10, "
Error on entry, no approximation returned. The following conditions
must hold:
xb<=x[0]<x[1]<...<x[m-1]<=xe, w[i]>0, i=0..m-1
if iopt=-1:
  xb<t[k+1]<t[k+2]<...<t[n-k-2]<xe")].

Definition _fpchec_error_string : string :=
  "The input parameters have been rejected by fpchec. This means that at least one of the following conditions is violated:

1) k+1 <= n-k-1 <= m
2) t(1) <= t(2) <= ... <= t(k+1)
   t(n-k) <= t(n-k+1) <= ... <= t(n)
3) t(k+1) < t(k+2) < ... < t(n-k)
4) t(k+1) <= x(i) <= t(n-k)
5) The conditions specified by Schoenberg and Whitney must hold
   for at least one subset of data points, i.e., there must be a
   subset of data points y(j) such that
       t(j) < y(j) < t(j+k+1), j=1,2,...,n-k-1
".

(** The diagnostics of the surface fitting routines. *)
Definition _surfit_messages : list (Z * string) :=
  [(1, "
The required storage space exceeds the available storage space: nxest
or nyest too small, or s too small.
The weighted least-squares spline corresponds to the current set of
knots.");
   (2, "
A theoretically impossible result was found during the iteration
process for finding a smoothing spline with fp = s: s too small or
badly chosen eps.
Weighted sum of squared residuals does not satisfy abs(fp-s)/s < tol.");
   (3, "
the maximal number of iterations maxit (set to 20 by the program)
allowed for finding a smoothing spline with fp=s has been reached:
s too small.
Weighted sum of squared residuals does not satisfy abs(fp-s)/s < tol.");
   (4, "
No more knots can be added because the number of b-spline coefficients
(nx-kx-1)*(ny-ky-1) already exceeds the number of data points m:
either s or m too small.
The weighted least-squares spline corresponds to the current set of
knots.");
   (5, "
No more knots can be added because the additional knot would (quasi)
coincide with an old one: s too small or too large a weight to an
inaccurate data point.
The weighted least-squares spline corresponds to the current set of
knots.");
   (10, "
Error on entry, no approximation returned. The following conditions
must hold:
xb<=x[i]<=xe, yb<=y[i]<=ye, w[i]>0, i=0..m-1
If iopt==-1, then
  xb<tx[kx+1]<tx[kx+2]<...<tx[nx-kx-2]<xe
  yb<ty[ky+1]<ty[ky+2]<...<ty[ny-ky-2]<ye");
   ((-3), "
The coefficients of the spline returned have been computed as the
minimal norm least-squares solution of a (numerically) rank deficient
system (deficiency=%i). If deficiency is large, the results may be
inaccurate. Deficiency may strongly depend on the value of eps.")].

Definition _spherefit_messages : list (Z * string) :=
  dict_set Z.eqb (dict_set Z.eqb _surfit_messages 10 "
ERROR. On entry, the input data are controlled on validity. The following
       restrictions must be satisfied:
            -1<=iopt<=1,  m>=2, ntest>=8 ,npest >=8, 0<eps<1,
            0<=teta(i)<=pi, 0<=phi(i)<=2*pi, w(i)>0, i=1,...,m
            lwrk1 >= 185+52*v+10*u+14*u*v+8*(u-1)*v**2+8*m
            kwrk >= m+(ntest-7)*(npest-7)
            if iopt=-1: 8<=nt<=ntest , 9<=np<=npest
                        0<tt(5)<tt(6)<...<tt(nt-4)<pi
                        0<tp(5)<tp(6)<...<tp(np-4)<2*pi
            if iopt>=0: s>=0
            if one of these conditions is found to be violated,control
            is immediately repassed to the calling program. in that
            case there is no approximation returned.") (-3) "
WARNING. The coefficients of the spline returned have been computed as the
         minimal norm least-squares solution of a (numerically) rank
         deficient system (deficiency=%i, rank=%i). Especially if the rank
         deficiency, which is computed by 6+(nt-8)*(np-7)+ier, is large,
         the results may be inaccurate. They could also seriously depend on
         the value of eps.".

Definition _spfit_messages : list (Z * string) :=
  dict_set Z.eqb _surfit_messages 10 "
ERROR: on entry, the input data are controlled on validity
       the following restrictions must be satisfied.
          -1<=iopt(1)<=1, 0<=iopt(2)<=1, 0<=iopt(3)<=1,
          -1<=ider(1)<=1, 0<=ider(2)<=1, ider(2)=0 if iopt(2)=0.
          -1<=ider(3)<=1, 0<=ider(4)<=1, ider(4)=0 if iopt(3)=0.
          mu >= mumin (see above), mv >= 4, nuest >=8, nvest >= 8,
          kwrk>=5+mu+mv+nuest+nvest,
          lwrk >= 12+nuest*(mv+nvest+3)+nvest*24+4*mu+8*mv+max(nuest,mv+nvest)
          0< u(i-1)<u(i)< pi,i=2,..,mu,
          -pi<=v(1)< pi, v(1)<v(i-1)<v(i)<v(1)+2*pi, i=3,...,mv
          if iopt(1)=-1: 8<=nu<=min(nuest,mu+6+iopt(2)+iopt(3))
                         0<tu(5)<tu(6)<...<tu(nu-4)< pi
                         8<=nv<=min(nvest,mv+7)
                         v(1)<tv(5)<tv(6)<...<tv(nv-4)<v(1)+2*pi
                         the schoenberg-whitney conditions, i.e. there must be
                         subset of grid co-ordinates uu(p) and vv(q) such that
                            tu(p) < uu(p) < tu(p+4) ,p=1,...,nu-4
                            (iopt(2)=1 and iopt(3)=1 also count for a uu-value
                            tv(q) < vv(q) < tv(q+4) ,q=1,...,nv-4
                            (vv(q) is either a value v(j) or v(j)+2*pi)
          if iopt(1)>=0: s>=0
          if s=0: nuest>=mu+6+iopt(2)+iopt(3), nvest>=mv+7
       if one of these conditions is found to be violated,control is
       immediately repassed to the calling program. in that case there is no
       approximation returned.".

Local Open Scope Z_scope.
Local Open Scope list_scope.
Local Open Scope py_scope.

(** ** The univariate spline classes *)

(** The classes of the hierarchy, and any class a user derives from them. *)
Inductive pyclass : Type :=
| UnivariateSpline
| InterpolatedUnivariateSpline
| LSQUnivariateSpline
| Subclass (name : string).

(** The tuple a curve fitting routine returns:
    [x,y,w,xb,xe,k,s,n,t,c,fp,fpint,nrdata,ier]. *)
Record fitdata : Type := mk_fitdata {
  f_x : list num; f_y : list num; f_w : list num;
  f_xb : num; f_xe : num;
  f_k : Z; f_s : num; f_n : Z;
  f_t : list num; f_c : list num;
  f_fp : num; f_fpint : list num; f_nrdata : list Z;
  f_ier : Z
}.

(** [self._data], the same 14 positions; a position can hold [None]. *)
Record udata : Type := mk_udata {
  d_x : option (list num); d_y : option (list num); d_w : option (list num);
  d_xb : option num; d_xe : option num;
  d_k : Z; d_s : option num; d_n : Z;
  d_t : list num; d_c : list num;
  d_fp : option num; d_fpint : option (list num); d_nrdata : option (list Z);
  d_ier : option Z
}.

Definition udata_of (f : fitdata) : udata :=
  mk_udata (Some (f_x f)) (Some (f_y f)) (Some (f_w f))
           (Some (f_xb f)) (Some (f_xe f))
           (f_k f) (Some (f_s f)) (f_n f) (f_t f) (f_c f)
           (Some (f_fp f)) (Some (f_fpint f)) (Some (f_nrdata f))
           (Some (f_ier f)).

(** [(t, c, k)] *)
Definition tck_t : Type := (list num * list num * Z)%type.

(** The attributes of a univariate spline object; [None] is an attribute
    not yet assigned. *)
Record uspline : Type := mk_uspline {
  __class__ : pyclass;
  _spline_class : option pyclass;
  _data : option udata;
  _eval_args : option tck_t;
  ext : option Z
}.

(** [cls.__new__(cls)] *)
Definition new_uspline (cls : pyclass) : uspline :=
  mk_uspline cls None None None None.

Definition set___class__ (c : pyclass) (o : uspline) : uspline :=
  mk_uspline c (_spline_class o) (_data o) (_eval_args o) (ext o).
Definition set__spline_class (c : pyclass) (o : uspline) : uspline :=
  mk_uspline (__class__ o) (Some c) (_data o) (_eval_args o) (ext o).
Definition set__data (d : udata) (o : uspline) : uspline :=
  mk_uspline (__class__ o) (_spline_class o) (Some d) (_eval_args o) (ext o).
Definition set__eval_args (a : tck_t) (o : uspline) : uspline :=
  mk_uspline (__class__ o) (_spline_class o) (_data o) (Some a) (ext o).
Definition set_ext (e : Z) (o : uspline) : uspline :=
  mk_uspline (__class__ o) (_spline_class o) (_data o) (_eval_args o) (Some e).

(** The routines of the extension modules, as the univariate classes use
    them. *)
Record curfit_lib : Type := mk_curfit_lib {
  (** [dfitpack.fpcurf0(x,y,k,w=w,xb=xb,xe=xe,s=s)] *)
  fpcurf0 : list num -> list num -> Z -> option (list num) ->
            option num -> option num -> option num -> fitdata;
  (** [dfitpack.fpcurf1], applied to the 14 positions of [args] *)
  fpcurf1 : udata -> fitdata;
  (** [dfitpack.fpcurfm1(x,y,k,t,w=w,xb=xb,xe=xe)] *)
  fpcurfm1 : list num -> list num -> Z -> list num -> option (list num) ->
             num -> num -> fitdata;
  (** [dfitpack.fpchec(x,t,k)] *)
  fpchec : list num -> list num -> Z -> Z;
  (** [fitpack.splev(x,tck,der=nu,ext=ext)]; it raises on a point outside
      the knots when [ext] is 2 *)
  splev : ndarray -> tck_t -> Z -> Z -> exn + ndarray;
  (** [dfitpack.splint(t,c,k,a,b)] *)
  splint : tck_t -> num -> num -> num;
  (** [dfitpack.spalde(t,c,k,x)] *)
  spalde : tck_t -> num -> list num * Z;
  (** [dfitpack.sproot(t,c)] *)
  sproot : list num -> list num -> list num * Z * Z;
  (** [fitpack.splder(tck,n)] *)
  splder : tck_t -> Z -> tck_t;
  (** [fitpack.splantider(tck,n)] *)
  splantider : tck_t -> Z -> tck_t
}.

(** [o == z] for an int that may be [None]. *)
Definition opt_Z_eqb (o : option Z) (z : Z) : bool :=
  match o with Some v => v =? z | None => false end.

(** [o == z] for a float that may be [None]. *)
Definition opt_num_eqb (o : option num) (z : Z) : bool :=
  match o with Some v => num_eqb v (num_of_Z z) | None => false end.

Definition opt_key_eqb (a b : option Z) : bool :=
  match a, b with
  | Some x, Some y => x =? y
  | None, None => true
  | _, _ => false
  end.

Definition fmt_of (o : option Z) : fmt_arg :=
  match o with Some v => AInt v | None => ANone end.

(** [table.get(ier, 'ier=%s' % (ier))] *)
Definition status_message (table : list (Z * string)) (ier : option Z) : message :=
  let default := Format "ier=%s" [fmt_of ier] in
  match ier with
  | Some v => match dict_get Z.eqb table v with
              | Some s => Text s
              | None => default
              end
  | None => default
  end.

(** [try: _extrap_modes[ext]; except KeyError: raise ValueError(...)] *)
Definition lookup_ext {O} (key : ext_key) : M O Z :=
  match dict_get ext_key_eqb _extrap_modes key with
  | Some v => ret v
  | None => raise (ValueError (Format "Unknown extrapolation mode %s." [AKey key]))
  end.

Definition known_class (c : pyclass) : bool :=
  match c with
  | UnivariateSpline | InterpolatedUnivariateSpline | LSQUnivariateSpline => true
  | Subclass _ => false
  end.

Section Univariate.
Variable lib : curfit_lib.

Definition _set_class (cls : pyclass) : M uspline unit :=
  update_self (set__spline_class cls) ;;
  self <- get_self ;;
  if known_class (__class__ self)
  then update_self (set___class__ cls)
  else
    (* It's an unknown subclass -- don't change class. cf. #731 *)
    ret tt.

Definition _reset_class : M uspline unit :=
  self <- get_self ;;
  data <- expect (AttributeError "_data") (_data self) ;;
  let n := d_n data in
  let t := d_t data in
  let c := d_c data in
  let k := d_k data in
  let ier := d_ier data in
  update_self (set__eval_args (py_slice t None (Some n), py_slice c None (Some n), k)) ;;
  if opt_Z_eqb ier 0 then
    (* the spline returned has a residual sum of squares fp such that
       abs(fp-s)/s <= tol *)
    ret tt
  else if opt_Z_eqb ier (-1) then
    (* the spline returned is an interpolating spline *)
    _set_class InterpolatedUnivariateSpline
  else if opt_Z_eqb ier (-2) then
    (* the spline returned is the weighted least-squares polynomial of
       degree k *)
    _set_class LSQUnivariateSpline
  else
    (* error *)
    when (opt_Z_eqb ier 1) (_set_class LSQUnivariateSpline) ;;
    warn (status_message _curfit_messages ier).

(** numpy's own ValueError for a negative size (text abbreviated). *)
Definition negative_size_error : exn :=
  ValueError (Text "negative dimensions are not allowed").

Definition _reset_nest (data : fitdata) (nest : option Z) : M uspline fitdata :=
  let n := f_fp data in
  nest <- match nest with
          | None =>
              let k := f_k data in
              let m := len (f_x data) in
              ret (m + k + 1)  (* this is the maximum bound for nest *)
          | Some nest =>
              if negb (num_leb n (num_of_Z nest))
              then raise (ValueError (Text "`nest` can only be increased"))
              else ret nest
          end ;;
  t <- expect negative_size_error (np_resize zero (f_t data) nest) ;;
  c <- expect negative_size_error (np_resize zero (f_c data) nest) ;;
  fpint <- expect negative_size_error (np_resize zero (f_fpint data) nest) ;;
  nrdata <- expect negative_size_error (np_resize 0 (f_nrdata data) nest) ;;
  let args :=
    mk_udata (Some (f_x data)) (Some (f_y data)) (Some (f_w data))
             (Some (f_xb data)) (Some (f_xe data))
             (f_k data) (Some (f_s data)) (f_n data)
             t c (Some n) (Some fpint) (Some nrdata) (Some (f_ier data)) in
  call r_fpcurf1 (fpcurf1 lib args).

(** [UnivariateSpline.__init__(self, x, y, w, bbox, k, s, ext,
    check_finite)] *)
Definition UnivariateSpline__init__
    (x y : list num) (w : option (list num)) (bbox : option num * option num)
    (k : Z) (s : option num) (ext : ext_key) (check_finite : bool)
  : M uspline unit :=
  when check_finite
    (if negb (all_finite x) || negb (all_finite y)
     then raise (ValueError (Text "x and y array must not contain NaNs or infs."))
     else ret tt) ;;
  e <- lookup_ext ext ;;
  update_self (set_ext e) ;;
  data <- call r_fpcurf0 (fpcurf0 lib x y k w (fst bbox) (snd bbox) s) ;;
  data <- (if f_ier data =? 1
           then (* nest too small, setting to maximum bound *)
             _reset_nest data None
           else ret data) ;;
  update_self (set__data (udata_of data)) ;;
  _reset_class.

(** [cls._from_tck(tck, ext)]: the object built, [cls.__new__(cls)] with
    its attributes set. *)
Definition _from_tck (cls : pyclass) (tck0 : tck_t) (ext : Z) : uspline :=
  let '(t, c, k) := tck0 in
  mk_uspline cls None
    (Some (mk_udata None None None None None k None (len t) t c
                    None None None None))
    (Some tck0) (Some ext).

Definition set_smoothing_factor (s : num) : M uspline unit :=
  self <- get_self ;;
  data <- expect (AttributeError "_data") (_data self) ;;
  if opt_num_eqb (d_s data) (-1) then
    warn (Text "smoothing factor unchanged forLSQ spline with fixed knots")
  else
    let args :=
      mk_udata (d_x data) (d_y data) (d_w data) (d_xb data) (d_xe data)
               (d_k data) (Some s) (d_n data) (d_t data) (d_c data)
               (d_fp data) (d_fpint data) (d_nrdata data) (d_ier data) in
    data <- call r_fpcurf1 (fpcurf1 lib args) ;;
    data <- (if f_ier data =? 1
             then (* nest too small, setting to maximum bound *)
               _reset_nest data None
             else ret data) ;;
    update_self (set__data (udata_of data)) ;;
    _reset_class.
End Univariate.

(** numpy's own TypeError for [np.isfinite(None)] (text abbreviated). *)
Definition isfinite_type_error : exn :=
  TypeError (Text "ufunc 'isfinite' not supported for the input types").

(** numpy's own ValueError for operands whose shapes do not broadcast
    (text abbreviated). *)
Definition broadcast_error : exn :=
  ValueError (Text "shape mismatch: objects cannot be broadcast to a single shape").

(** [not np.isfinite(w).all()] *)
Definition not_all_finite_opt {O} (w : option (list num)) : M O bool :=
  match w with
  | Some w => ret (negb (all_finite w))
  | None => raise isfinite_type_error
  end.

(** [a or b or ...], the operands evaluated left to right until one is
    true. *)
Fixpoint py_or {O} (l : list (M O bool)) : M O bool :=
  match l with
  | [] => ret false
  | m :: r => b <- m ;; if b then ret true else py_or r
  end.

Section UnivariateMethods.
Variable lib : curfit_lib.

(** [UnivariateSpline.__call__(self, x, nu, ext)] *)
Definition UnivariateSpline__call__ (x : ndarray) (nu : Z) (ext0 : option ext_key)
  : M uspline ndarray :=
  (* empty input yields empty output *)
  if (size x =? 0)%nat then ret (array1 [])
  else
    self <- get_self ;;
    e <- match ext0 with
         | None => expect (AttributeError "ext") (ext self)
         | Some key => lookup_ext key
         end ;;
    args <- expect (AttributeError "_eval_args") (_eval_args self) ;;
    r <- call r_splev (splev lib x args nu e) ;;
    match r with
    | inl err => raise err
    | inr v => ret v
    end.

Definition get_knots : M uspline (list num) :=
  self <- get_self ;;
  data <- expect (AttributeError "_data") (_data self) ;;
  let k := d_k data in
  let n := d_n data in
  ret (py_slice (d_t data) (Some k) (Some (n - k))).

Definition get_coeffs : M uspline (list num) :=
  self <- get_self ;;
  data <- expect (AttributeError "_data") (_data self) ;;
  let k := d_k data in
  let n := d_n data in
  ret (py_slice (d_c data) None (Some (n - k - 1))).

Definition get_residual : M uspline (option num) :=
  self <- get_self ;;
  data <- expect (AttributeError "_data") (_data self) ;;
  ret (d_fp data).

Definition integral (a b : num) : M uspline num :=
  self <- get_self ;;
  args <- expect (AttributeError "_eval_args") (_eval_args self) ;;
  call r_splint (splint lib args a b).

Definition derivatives (x : num) : M uspline (list num) :=
  self <- get_self ;;
  args <- expect (AttributeError "_eval_args") (_eval_args self) ;;
  '(d, ier) <- call r_spalde (spalde lib args x) ;;
  if negb (ier =? 0)
  then raise (ValueError (Format "Error code returned by spalde: %s" [AInt ier]))
  else ret d.

Definition roots : M uspline (list num) :=
  self <- get_self ;;
  data <- expect (AttributeError "_data") (_data self) ;;
  let k := d_k data in
  if k =? 3 then
    args <- expect (AttributeError "_eval_args") (_eval_args self) ;;
    let '(t, c, _) := args in
    '(z, m, ier) <- call r_sproot (sproot lib t c) ;;
    if negb (ier =? 0)
    then raise (ValueError (Format "Error code returned by spalde: %s" [AInt ier]))
    else ret (py_slice z None (Some m))
  else
    raise (NotImplementedError
             (Text "finding roots unsupported for non-cubic splines")).

Definition derivative (n : Z) : M uspline uspline :=
  self <- get_self ;;
  args <- expect (AttributeError "_eval_args") (_eval_args self) ;;
  tck0 <- call r_splder (splder lib args n) ;;
  e <- expect (AttributeError "ext") (ext self) ;;
  ret (_from_tck UnivariateSpline tck0 e).

Definition antiderivative (n : Z) : M uspline uspline :=
  self <- get_self ;;
  args <- expect (AttributeError "_eval_args") (_eval_args self) ;;
  tck0 <- call r_splantider (splantider lib args n) ;;
  e <- expect (AttributeError "ext") (ext self) ;;
  ret (_from_tck UnivariateSpline tck0 e).

(** [InterpolatedUnivariateSpline.__init__(self, x, y, w, bbox, k, ext,
    check_finite)] *)
Definition InterpolatedUnivariateSpline__init__
    (x y : list num) (w : option (list num)) (bbox : option num * option num)
    (k : Z) (ext : ext_key) (check_finite : bool)
  : M uspline unit :=
  when check_finite
    (bad <- py_or [ret (negb (all_finite x)); ret (negb (all_finite y));
                   not_all_finite_opt w] ;;
     if bad
     then raise (ValueError (Text "Input must not contain NaNs or infs."))
     else ret tt) ;;
  data <- call r_fpcurf0 (fpcurf0 lib x y k w (fst bbox) (snd bbox) (Some zero)) ;;
  update_self (set__data (udata_of data)) ;;
  _reset_class ;;
  e <- lookup_ext ext ;;
  update_self (set_ext e).

(** [LSQUnivariateSpline.__init__(self, x, y, t, w, bbox, k, ext,
    check_finite)]; [t_dtype] is the element type of the knot array after
    [concatenate]: a floating type unless [t] and both boundaries are of
    integer types. *)
Definition LSQUnivariateSpline__init__
    (t_dtype : dtype)
    (x y t : list num) (w : option (list num)) (bbox : option num * option num)
    (k : Z) (ext : ext_key) (check_finite : bool)
  : M uspline unit :=
  when check_finite
    (bad <- py_or [ret (negb (all_finite x)); ret (negb (all_finite y));
                   not_all_finite_opt w; ret (negb (all_finite t))] ;;
     if bad
     then raise (ValueError (Text "Input(s) must not contain NaNs or infs."))
     else ret tt) ;;
  xb <- match fst bbox with
        | Some xb => ret xb
        | None => expect IndexError (py_index x 0)
        end ;;
  xe <- match snd bbox with
        | Some xe => ret xe
        | None => expect IndexError (py_index x (-1))
        end ;;
  let t := py_repeat xb (k + 1) ++ t ++ py_repeat xe (k + 1) in
  let n := len t in
  steps <- expect broadcast_error
             (np_sub1 t_dtype (py_slice t (Some (k + 1)) (Some (n - k)))
                              (py_slice t (Some k) (Some (n - k - 1)))) ;;
  if negb (all_positive steps)
  then raise (ValueError
                (Text "Interior knots t must satisfy Schoenberg-Whitney conditions"))
  else
    chk <- call r_fpchec (fpchec lib x t k) ;;
    if negb (chk =? 0)
    then raise (ValueError (Text _fpchec_error_string))
    else
      data <- call r_fpcurfm1 (fpcurfm1 lib x y k t w xb xe) ;;
      update_self (set__data
                     (mk_udata (Some (f_x data)) (Some (f_y data)) (Some (f_w data))
                               (Some (f_xb data)) (Some (f_xe data))
                               (f_k data) (Some (f_s data)) (f_n data)
                               (f_t data) (f_c data) (Some (f_fp data))
                               None None (Some (f_ier data)))) ;;
      _reset_class ;;
      e <- lookup_ext ext ;;
      update_self (set_ext e).
End UnivariateMethods.

(** ** The bivariate spline classes *)

(** [a[lo:hi] = v] on a 1-d array: [v] must have the length of the slice or
    length 1; [None] is numpy's "could not broadcast" ValueError. *)
Definition np_assign_slice (a : list num) (lo hi : option Z) (v : list num)
  : option (list num) :=
  let n := len a in
  let i := match lo with Some i => adjust_index n i | None => 0 end in
  let j := match hi with Some j => adjust_index n j | None => n end in
  let l := Z.to_nat (j - i) in
  let pre := firstn (Z.to_nat i) a in
  let post := skipn (Z.to_nat i + l) a in
  if (List.length v =? l)%nat then Some (pre ++ v ++ post)
  else match v with
       | [c] => Some (pre ++ repeat c l ++ post)
       | _ => None
       end.

(** [a[lo:hi] = c] for a scalar [c]. *)
Definition np_fill_slice (a : list num) (lo hi : option Z) (c : num) : list num :=
  let n := len a in
  let i := match lo with Some i => adjust_index n i | None => 0 end in
  let j := match hi with Some j => adjust_index n j | None => n end in
  let l := Z.to_nat (j - i) in
  firstn (Z.to_nat i) a ++ repeat c l ++ skipn (Z.to_nat i + l) a.

(** [zeros((n,), float)]; a negative [n] is numpy's ValueError. *)
Definition zeros1 {O} (n : Z) : M O (list num) :=
  if n <? 0
  then raise (ValueError (Text "negative dimensions are not allowed"))
  else ret (repeat zero (Z.to_nat n)).

Fixpoint shape_eqb (a b : shape_t) : bool :=
  match a, b with
  | [], [] => true
  | x :: a', y :: b' => (x =? y)%nat && shape_eqb a' b'
  | _, _ => false
  end.

(** [ier in [0, -1, -2]] *)
Definition normal_return (ier : Z) : bool :=
  (ier =? 0) || (ier =? -1) || (ier =? -2).

(** [(xb, xe, yb, ye)] *)
Definition bbox4 : Type := (option num * option num * option num * option num)%type.

(** [(tx, ty, c)] *)
Definition tck3 : Type := (list num * list num * list num)%type.

(** What a surface fitting routine returns: [nx,tx,ny,ty,c,fp,ier]. *)
Record surf_fit : Type := mk_surf_fit {
  s_nx : Z; s_tx : list num; s_ny : Z; s_ty : list num;
  s_c : list num; s_fp : num; s_ier : Z
}.

(** What a least-squares surface routine returns: [tx,ty,c,fp,ier]. *)
Record lsq_fit : Type := mk_lsq_fit {
  l_tx : list num; l_ty : list num; l_c : list num; l_fp : num; l_ier : Z
}.

(** The attributes of a bivariate spline object. *)
Record bspline : Type := mk_bspline {
  fp : option num;
  tck : option tck3;
  degrees : option (Z * Z)
}.

Definition new_bspline : bspline := mk_bspline None None None.

Definition set_fp (v : num) (o : bspline) : bspline :=
  mk_bspline (Some v) (tck o) (degrees o).
Definition set_tck (v : tck3) (o : bspline) : bspline :=
  mk_bspline (fp o) (Some v) (degrees o).
Definition set_degrees (v : Z * Z) (o : bspline) : bspline :=
  mk_bspline (fp o) (tck o) (Some v).

(** The routines of [dfitpack] the bivariate classes use. *)
Record surfit_lib : Type := mk_surfit_lib {
  (** [surfit_smth(x,y,z,w,xb,xe,yb,ye,kx,ky,s=s,eps=eps,lwrk2=lwrk2)]
      returns [nx,tx,ny,ty,c,fp,wrk1,ier]: the fit, and [wrk1] *)
  surfit_smth : list num -> list num -> list num -> option (list num) -> bbox4 ->
                Z -> Z -> option num -> option num -> Z -> surf_fit * list num;
  (** [surfit_lsq(x,y,z,tx,ty,w,xb,xe,yb,ye,kx,ky,eps,lwrk2=lwrk2)] *)
  surfit_lsq : list num -> list num -> list num -> list num -> list num ->
               option (list num) -> bbox4 -> Z -> Z -> option num -> Z -> lsq_fit;
  (** [regrid_smth(x,y,z,xb,xe,yb,ye,kx,ky,s)] *)
  regrid_smth : list num -> list num -> list num -> bbox4 -> Z -> Z -> num -> surf_fit;
  (** [parder(tx,ty,c,kx,ky,dx,dy,x,y)] *)
  parder : tck3 -> Z -> Z -> Z -> Z -> ndarray -> ndarray -> ndarray * Z;
  (** [bispev(tx,ty,c,kx,ky,x,y)] *)
  bispev : tck3 -> Z -> Z -> ndarray -> ndarray -> ndarray * Z;
  (** [pardeu(tx,ty,c,kx,ky,dx,dy,x,y)] *)
  pardeu : tck3 -> Z -> Z -> Z -> Z -> ndarray -> ndarray -> ndarray * Z;
  (** [bispeu(tx,ty,c,kx,ky,x,y)] *)
  bispeu : tck3 -> Z -> Z -> ndarray -> ndarray -> ndarray * Z;
  (** [dblint(tx,ty,c,kx,ky,xa,xb,ya,yb)] *)
  dblint : tck3 -> Z -> Z -> num -> num -> num -> num -> num;
  (** [spherfit_smth(theta,phi,r,w=w,s=s,eps=eps)] *)
  spherfit_smth : list num -> list num -> list num -> option (list num) ->
                  num -> num -> surf_fit;
  (** [spherfit_lsq(theta,phi,r,tt,tp,w=w,eps=eps)] *)
  spherfit_lsq : list num -> list num -> list num -> list num -> list num ->
                 option (list num) -> num -> lsq_fit;
  (** [regrid_smth_spher(iopt,ider,u,v,r,r0,r1,s)] *)
  regrid_smth_spher : list Z -> list Z -> list num -> list num -> list num ->
                      option num -> option num -> num -> surf_fit
}.

Section Bivariate.
Variable lib : surfit_lib.

(** [_BivariateSplineBase.__call__(self, x, y, mth, dx, dy, grid)] *)
Definition _BivariateSplineBase__call__
    (x y : ndarray) (mth : option string) (dx dy : Z) (grid : bool)
  : M bspline ndarray :=
  when (match mth with Some _ => true | None => false end)
    (emit (Warn FutureWarning
             (Text "The `mth` argument is deprecated and will be removed"))) ;;
  self <- get_self ;;
  t <- expect (AttributeError "tck") (tck self) ;;
  '(kx, ky) <- expect (AttributeError "degrees") (degrees self) ;;
  if grid then
    if (size x =? 0)%nat || (size y =? 0)%nat
    then ret (np_zeros [size x; size y])
    else if negb (dx =? 0) || negb (dy =? 0) then
      '(z, ier) <- call r_parder (parder lib t kx ky dx dy x y) ;;
      if negb (ier =? 0)
      then raise (ValueError (Format "Error code returned by parder: %s" [AInt ier]))
      else ret z
    else
      '(z, ier) <- call r_bispev (bispev lib t kx ky x y) ;;
      if negb (ier =? 0)
      then raise (ValueError (Format "Error code returned by bispev: %s" [AInt ier]))
      else ret z
  else
    (* standard Numpy broadcasting *)
    '(x, y) <- (if negb (shape_eqb (shape x) (shape y))
                then expect broadcast_error (broadcast_arrays x y)
                else ret (x, y)) ;;
    let shape0 := shape x in
    let x := ravel x in
    let y := ravel y in
    if (size x =? 0)%nat || (size y =? 0)%nat
    then ret (np_zeros shape0)
    else
      '(z, ier) <-
        (if negb (dx =? 0) || negb (dy =? 0) then
           '(z, ier) <- call r_pardeu (pardeu lib t kx ky dx dy x y) ;;
           if negb (ier =? 0)
           then raise (ValueError (Format "Error code returned by pardeu: %s" [AInt ier]))
           else ret (z, ier)
         else
           '(z, ier) <- call r_bispeu (bispeu lib t kx ky x y) ;;
           if negb (ier =? 0)
           then raise (ValueError (Format "Error code returned by bispeu: %s" [AInt ier]))
           else ret (z, ier)) ;;
      ret (reshape z shape0).

(** [_BivariateSplineBase.get_residual] *)
Definition bivariate_get_residual : M bspline num :=
  self <- get_self ;;
  expect (AttributeError "fp") (fp self).

(** [_BivariateSplineBase.get_knots] *)
Definition bivariate_get_knots : M bspline (list num * list num) :=
  self <- get_self ;;
  '(tx, ty, _) <- expect (AttributeError "tck") (tck self) ;;
  ret (tx, ty).

(** [_BivariateSplineBase.get_coeffs] *)
Definition bivariate_get_coeffs : M bspline (list num) :=
  self <- get_self ;;
  '(_, _, c) <- expect (AttributeError "tck") (tck self) ;;
  ret c.

(** [BivariateSpline.ev(self, xi, yi, dx, dy)] *)
Definition ev (xi yi : ndarray) (dx dy : Z) : M bspline ndarray :=
  _BivariateSplineBase__call__ xi yi None dx dy false.

(** [BivariateSpline.integral(self, xa, xb, ya, yb)] *)
Definition bivariate_integral (xa xb ya yb : num) : M bspline num :=
  self <- get_self ;;
  t <- expect (AttributeError "tck") (tck self) ;;
  '(kx, ky) <- expect (AttributeError "degrees") (degrees self) ;;
  call r_dblint (dblint lib t kx ky xa xb ya yb).
End Bivariate.

(** numpy's own ValueError for [min] or [max] of an empty array (text
    abbreviated). *)
Definition reduction_error : exn :=
  ValueError (Text "zero-size array to reduction operation which has no identity").

(** [z.shape[i]] *)
Definition shape_at {O} (z : ndarray) (i : nat) : M O nat :=
  expect IndexError (nth_error (shape z) i).

(** [(x.min() == x[0]) and (x.max() == x[-1])] *)
Definition ends_are_extrema {O} (x : list num) : M O bool :=
  lo <- expect reduction_error (np_min x) ;;
  x0 <- expect IndexError (py_index x 0) ;;
  if num_eqb lo x0 then
    hi <- expect reduction_error (np_max x) ;;
    xn <- expect IndexError (py_index x (-1)) ;;
    ret (num_eqb hi xn)
  else ret false.

(** [table.get(-3) % args] *)
Definition deficiency_message {O} (table : list (Z * string)) (args : list fmt_arg)
  : M O message :=
  match dict_get Z.eqb table (-3) with
  | Some s => ret (Format s args)
  | None => raise (TypeError (Text "unsupported operand type(s) for %"))
  end.

Section BivariateConstructors.
Variable lib : surfit_lib.

(** [SmoothBivariateSpline.__init__(self, x, y, z, w, bbox, kx, ky, s,
    eps)] *)
Definition SmoothBivariateSpline__init__
    (x y z : list num) (w : option (list num)) (bbox : bbox4) (kx ky : Z)
    (s eps : option num)
  : M bspline unit :=
  '(r, wrk1) <- call r_surfit_smth (surfit_smth lib x y z w bbox kx ky s eps 1) ;;
  '(r, wrk1) <- (if s_ier r >? 10          (* lwrk2 was to small, re-run *)
                 then call r_surfit_smth
                        (surfit_smth lib x y z w bbox kx ky s eps (s_ier r))
                 else ret (r, wrk1)) ;;
  let ier := s_ier r in
  (if normal_return ier           (* normal return *)
   then ret tt
   else warn (status_message _surfit_messages (Some ier))) ;;
  update_self (set_fp (s_fp r)) ;;
  let nx := s_nx r in
  let ny := s_ny r in
  update_self (set_tck (py_slice (s_tx r) None (Some nx),
                        py_slice (s_ty r) None (Some ny),
                        py_slice (s_c r) None (Some ((nx - kx - 1) * (ny - ky - 1))))) ;;
  update_self (set_degrees (kx, ky)).

(** [LSQBivariateSpline.__init__(self, x, y, z, tx, ty, w, bbox, kx, ky,
    eps)] *)
Definition LSQBivariateSpline__init__
    (x y z tx ty : list num) (w : option (list num)) (bbox : bbox4) (kx ky : Z)
    (eps : option num)
  : M bspline unit :=
  let nx := 2 * kx + 2 + len tx in
  let ny := 2 * ky + 2 + len ty in
  tx1 <- zeros1 nx ;;
  ty1 <- zeros1 ny ;;
  tx1 <- expect broadcast_error
           (np_assign_slice tx1 (Some (kx + 1)) (Some (nx - kx - 1)) tx) ;;
  ty1 <- expect broadcast_error
           (np_assign_slice ty1 (Some (ky + 1)) (Some (ny - ky - 1)) ty) ;;
  r <- call r_surfit_lsq (surfit_lsq lib x y z tx1 ty1 w bbox kx ky eps 1) ;;
  r <- (if l_ier r >? 10
        then call r_surfit_lsq
               (surfit_lsq lib x y z (l_tx r) (l_ty r) w bbox kx ky eps (l_ier r))
        else ret r) ;;
  let ier := l_ier r in
  (if normal_return ier           (* normal return *)
   then ret tt
   else
     message <- (if ier <? -2 then
                   let deficiency := (nx - kx - 1) * (ny - ky - 1) + ier in
                   deficiency_message _surfit_messages [AInt deficiency]
                 else ret (status_message _surfit_messages (Some ier))) ;;
     warn message) ;;
  update_self (set_fp (l_fp r)) ;;
  update_self (set_tck (l_tx r, l_ty r, l_c r)) ;;
  update_self (set_degrees (kx, ky)).

(** [RectBivariateSpline.__init__(self, x, y, z, bbox, kx, ky, s)]; [x]
    and [y] are taken after [ravel], with their element types. *)
Definition RectBivariateSpline__init__
    (x_dtype y_dtype : dtype)
    (x y : list num) (z : ndarray) (bbox : bbox4) (kx ky : Z) (s : num)
  : M bspline unit :=
  if negb (all_positive (np_diff x_dtype x))
  then raise (TypeError (Text "x must be strictly increasing"))
  else if negb (all_positive (np_diff y_dtype y))
  then raise (TypeError (Text "y must be strictly increasing"))
  else
    okx <- ends_are_extrema x ;;
    if negb okx
    then raise (TypeError (Text "x must be strictly ascending"))
    else
      oky <- ends_are_extrema y ;;
      if negb oky
      then raise (TypeError (Text "y must be strictly ascending"))
      else
        z0 <- shape_at z 0 ;;
        if negb (List.length x =? z0)%nat
        then raise (TypeError
               (Text "x dimension of z must have same number of elements as x"))
        else
          z1 <- shape_at z 1 ;;
          if negb (List.length y =? z1)%nat
          then raise (TypeError
                 (Text "y dimension of z must have same number of elements as y"))
          else
            let z := data (ravel z) in
            r <- call r_regrid_smth (regrid_smth lib x y z bbox kx ky s) ;;
            let ier := s_ier r in
            if negb (normal_return ier)
            then raise (ValueError (status_message _surfit_messages (Some ier)))
            else
              update_self (set_fp (s_fp r)) ;;
              let nx := s_nx r in
              let ny := s_ny r in
              update_self
                (set_tck (py_slice (s_tx r) None (Some nx),
                          py_slice (s_ty r) None (Some ny),
                          py_slice (s_c r) None
                                   (Some ((nx - kx - 1) * (ny - ky - 1))))) ;;
              update_self (set_degrees (kx, ky)).
End BivariateConstructors.

(** ** The spherical spline classes *)

(** [a.size > 0 and (a.min() < 0. or a.max() > bound)] *)
Definition out_of_bounds {O} (a : ndarray) (bound : Q) : M O bool :=
  if (0 <? size a)%nat then
    lo <- expect reduction_error (np_min (data a)) ;;
    if num_ltb lo zero then ret true
    else
      hi <- expect reduction_error (np_max (data a)) ;;
      ret (num_gtb hi (Fin bound))
  else ret false.

(** The [pole_values] argument: [None], a float, or a pair. *)
Inductive pole_values_t : Type :=
| PoleNone
| PoleFloat (v : num)
| PolePair (r0 r1 : option num).

(** A flag argument: a bool, or a pair of bools. *)
Inductive pole_flag : Type :=
| FlagBool (b : bool)
| FlagPair (b0 b1 : bool).

Definition flag_pair (f : pole_flag) : bool * bool :=
  match f with
  | FlagBool b => (b, b)
  | FlagPair b0 b1 => (b0, b1)
  end.

Definition Z_of_bool (b : bool) : Z := if b then 1 else 0.

Section Sphere.
Variable lib : surfit_lib.

(** [SphereBivariateSpline.__call__(self, theta, phi, dtheta, dphi,
    grid)] *)
Definition SphereBivariateSpline__call__
    (theta phi : ndarray) (dtheta dphi : Z) (grid : bool)
  : M bspline ndarray :=
  bad <- out_of_bounds theta np_pi ;;
  if bad then raise (ValueError (Text "requested theta out of bounds."))
  else
    bad <- out_of_bounds phi (2 * np_pi)%Q ;;
    if bad then raise (ValueError (Text "requested phi out of bounds."))
    else _BivariateSplineBase__call__ lib theta phi None dtheta dphi grid.

(** [SphereBivariateSpline.ev(self, theta, phi, dtheta, dphi)] *)
Definition sphere_ev (theta phi : ndarray) (dtheta dphi : Z) : M bspline ndarray :=
  SphereBivariateSpline__call__ theta phi dtheta dphi false.

(** [SmoothSphereBivariateSpline.__init__(self, theta, phi, r, w, s,
    eps)]; [w] is [None] or an array, so [np.issubclass_(w, float)] is
    false. *)
Definition SmoothSphereBivariateSpline__init__
    (theta phi r : list num) (w : option (list num)) (s eps : num)
  : M bspline unit :=
  f <- call r_spherfit_smth (spherfit_smth lib theta phi r w s eps) ;;
  let ier := s_ier f in
  if negb (normal_return ier)
  then raise (ValueError (status_message _spherefit_messages (Some ier)))
  else
    update_self (set_fp (s_fp f)) ;;
    let nt_ := s_nx f in
    let np_ := s_ny f in
    update_self (set_tck (py_slice (s_tx f) None (Some nt_),
                          py_slice (s_ty f) None (Some np_),
                          py_slice (s_c f) None (Some ((nt_ - 4) * (np_ - 4))))) ;;
    update_self (set_degrees (3, 3)).

(** [LSQSphereBivariateSpline.__init__(self, theta, phi, r, tt, tp, w,
    eps)] *)
Definition LSQSphereBivariateSpline__init__
    (theta phi r tt tp : list num) (w : option (list num)) (eps : num)
  : M bspline unit :=
  let nt_ := 8 + len tt in
  let np_ := 8 + len tp in
  tt_ <- zeros1 nt_ ;;
  tp_ <- zeros1 np_ ;;
  tt_ <- expect broadcast_error (np_assign_slice tt_ (Some 4) (Some (-4)) tt) ;;
  tp_ <- expect broadcast_error (np_assign_slice tp_ (Some 4) (Some (-4)) tp) ;;
  let tt_ := np_fill_slice tt_ (Some (-4)) None (Fin np_pi) in
  let tp_ := np_fill_slice tp_ (Some (-4)) None (Fin (2 * np_pi)%Q) in
  f <- call r_spherfit_lsq (spherfit_lsq lib theta phi r tt_ tp_ w eps) ;;
  let ier := l_ier f in
  (if ier <? -2 then
     let deficiency := 6 + (nt_ - 8) * (np_ - 7) + ier in
     message <- deficiency_message _spherefit_messages
                  [AInt deficiency; AInt (- ier)] ;;
     warn message
   else if negb (normal_return ier)
   then raise (ValueError (status_message _spherefit_messages (Some ier)))
   else ret Datatypes.tt) ;;
  update_self (set_fp (l_fp f)) ;;
  update_self (set_tck (l_tx f, l_ty f, l_c f)) ;;
  update_self (set_degrees (3, 3)).

(** [RectSphereBivariateSpline.__init__(self, u, v, r, s,
    pole_continuity, pole_values, pole_exact, pole_flat)]; [u] and [v] are
    taken after [ravel], with their element types. *)
Definition RectSphereBivariateSpline__init__
    (u_dtype v_dtype : dtype)
    (u v : list num) (r : ndarray) (s : num)
    (pole_continuity : pole_flag) (pole_values : pole_values_t)
    (pole_exact pole_flat : pole_flag)
  : M bspline unit :=
  let pole_values :=
    match pole_values with
    | PoleNone => (None, None)
    | PoleFloat x => (Some x, Some x)
    | PolePair a b => (a, b)
    end in
  let pole_continuity := flag_pair pole_continuity in
  let pole_exact := flag_pair pole_exact in
  let pole_flat := flag_pair pole_flat in
  let '(r0, r1) := pole_values in
  let iopt := [0; Z_of_bool (fst pole_continuity); Z_of_bool (snd pole_continuity)] in
  let ider0 := match r0 with None => -1 | Some _ => Z_of_bool (fst pole_exact) end in
  let ider2 := match r1 with None => -1 | Some _ => Z_of_bool (snd pole_exact) end in
  let ider := [ider0; Z_of_bool (fst pole_flat); ider2; Z_of_bool (snd pole_flat)] in
  if negb (all_positive (np_diff u_dtype u))
  then raise (TypeError (Text "u must be strictly increasing"))
  else if negb (all_positive (np_diff v_dtype v))
  then raise (TypeError (Text "v must be strictly increasing"))
  else
    n0 <- shape_at r 0 ;;
    if negb (List.length u =? n0)%nat
    then raise (TypeError
           (Text "u dimension of r must have same number of elements as u"))
    else
      n1 <- shape_at r 1 ;;
      if negb (List.length v =? n1)%nat
      then raise (TypeError
             (Text "v dimension of r must have same number of elements as v"))
      else if negb (snd pole_continuity) && snd pole_flat
      then raise (TypeError (Text "if pole_continuity is False, so must be pole_flat"))
      else if negb (fst pole_continuity) && fst pole_flat
      then raise (TypeError (Text "if pole_continuity is False, so must be pole_flat"))
      else
        let r := data (ravel r) in
        f <- call r_regrid_smth_spher
               (regrid_smth_spher lib iopt ider u v r r0 r1 s) ;;
        let ier := s_ier f in
        if negb (normal_return ier)
        then raise (ValueError (status_message _spfit_messages (Some ier)))
        else
          update_self (set_fp (s_fp f)) ;;
          let nu := s_nx f in
          let nv := s_ny f in
          update_self (set_tck (py_slice (s_tx f) None (Some nu),
                                py_slice (s_ty f) None (Some nv),
                                py_slice (s_c f) None (Some ((nu - 4) * (nv - 4))))) ;;
          update_self (set_degrees (3, 3)).
End Sphere.

(** ** Reading a run *)

(** [ier] is one of 0, -1, -2; [None] is not. *)
Definition silent_status (ier : option Z) : bool :=
  opt_Z_eqb ier 0 || opt_Z_eqb ier (-1) || opt_Z_eqb ier (-2).

(** The class a univariate status asks for, if any. *)
Definition tag_for (ier : option Z) : option pyclass :=
  if opt_Z_eqb ier 0 then None
  else if opt_Z_eqb ier (-1) then Some InterpolatedUnivariateSpline
  else if opt_Z_eqb ier (-2) then Some LSQUnivariateSpline
  else if opt_Z_eqb ier 1 then Some LSQUnivariateSpline
  else None.

(** The object after [_set_class cls]. *)
Definition tagged (cls : pyclass) (o : uspline) : uspline :=
  if known_class (__class__ o)
  then set___class__ cls (set__spline_class cls o)
  else set__spline_class cls o.

Definition tagged_opt (c : option pyclass) (o : uspline) : uspline :=
  match c with Some cls => tagged cls o | None => o end.

(** The warnings [_reset_class] issues for a status. *)
Definition curfit_warnings (ier : option Z) : list event :=
  if silent_status ier then []
  else [Warn UserWarning (status_message _curfit_messages ier)].

(** The object after [_reset_class], [d] being its [_data]. *)
Definition after_reset_class (d : udata) (o : uspline) : uspline :=
  tagged_opt (tag_for (d_ier d))
    (set__eval_args (py_slice (d_t d) None (Some (d_n d)),
                     py_slice (d_c d) None (Some (d_n d)), d_k d) o).

(** The stored fit: knots, coefficients, residual and status. *)
Definition representation (o : uspline) : option udata * option tck_t :=
  (_data o, _eval_args o).

Definition has_fit (o : uspline) : bool :=
  match _data o with Some _ => true | None => false end.

Definition bivariate_has_fit (o : bspline) : bool :=
  match fp o, tck o, degrees o with
  | None, None, None => false
  | _, _, _ => true
  end.


(** The argument tuple [_reset_nest] hands to [fpcurf1]: the tuple it
    was given with [t], [c], [fpint] and [nrdata] resized to [nest];
    [None] when [nest] is negative. *)
Definition resized_args (data : fitdata) (nest : Z) : option udata :=
  match np_resize zero (f_t data) nest, np_resize zero (f_c data) nest,
        np_resize zero (f_fpint data) nest, np_resize 0 (f_nrdata data) nest with
  | Some t, Some c, Some fpint, Some nrdata =>
      Some (mk_udata (Some (f_x data)) (Some (f_y data)) (Some (f_w data))
                     (Some (f_xb data)) (Some (f_xe data))
                     (f_k data) (Some (f_s data)) (f_n data)
                     t c (Some (f_fp data)) (Some fpint) (Some nrdata)
                     (Some (f_ier data)))
  | _, _, _, _ => None
  end.

(** The largest [nest], [m + k + 1]. *)
Definition max_nest (data : fitdata) : Z := len (f_x data) + f_k data + 1.

(** The fit kept after the "nest too small" test: the first one, or, when
    it reports status 1, the refit on the arrays resized to [m + k + 1]; or
    the error of the resizing. *)
Definition settled (lib : curfit_lib) (data : fitdata) : exn + fitdata :=
  if f_ier data =? 1
  then match resized_args data (max_nest data) with
       | Some args => inr (fpcurf1 lib args)
       | None => inl negative_size_error
       end
  else inr data.

(** The call the "nest too small" test adds when it does not raise. *)
Definition settle_calls (data : fitdata) : list event :=
  if f_ier data =? 1 then [Call r_fpcurf1] else [].

(** The [check_finite] test of [UnivariateSpline.__init__]. *)
Definition finite_check_fails (check_finite : bool) (x y : list num) : bool :=
  check_finite && (negb (all_finite x) || negb (all_finite y)).

(** The argument tuple [set_smoothing_factor] hands to [fpcurf1]. *)
Definition smoothing_args (d : udata) (s : num) : udata :=
  mk_udata (d_x d) (d_y d) (d_w d) (d_xb d) (d_xe d) (d_k d) (Some s) (d_n d)
           (d_t d) (d_c d) (d_fp d) (d_fpint d) (d_nrdata d) (d_ier d).

(** What the [check_finite] test of the two subclasses raises, if
    anything; [extra] is the knot array of the LSQ class. *)
Definition finite_check_error (msg : string) (check_finite : bool)
    (x y : list num) (w : option (list num)) (extra : list num) : option exn :=
  if check_finite then
    if negb (all_finite x) then Some (ValueError (Text msg))
    else if negb (all_finite y) then Some (ValueError (Text msg))
    else match w with
         | None => Some isfinite_type_error
         | Some w =>
             if negb (all_finite w) then Some (ValueError (Text msg))
             else if negb (all_finite extra) then Some (ValueError (Text msg))
             else None
         end
  else None.

(** The tuple [LSQUnivariateSpline.__init__] stores: the fit with
    [fpint] and [nrdata] cleared. *)
Definition lsq_data (data : fitdata) : udata :=
  mk_udata (Some (f_x data)) (Some (f_y data)) (Some (f_w data))
           (Some (f_xb data)) (Some (f_xe data))
           (f_k data) (Some (f_s data)) (f_n data)
           (f_t data) (f_c data) (Some (f_fp data))
           None None (Some (f_ier data)).

(** The knot vector [LSQUnivariateSpline.__init__] builds. *)
Definition padded_knots (xb xe : num) (k : Z) (t : list num) : list num :=
  py_repeat xb (k + 1) ++ t ++ py_repeat xe (k + 1).

(** The differences its knot test looks at. *)
Definition knot_steps (d : dtype) (t : list num) (k : Z) : option (list num) :=
  let n := len t in
  np_sub1 d (py_slice t (Some (k + 1)) (Some (n - k)))
            (py_slice t (Some k) (Some (n - k - 1))).

(** The end of a constructor of the two subclasses: the fit is stored and
    interpreted, then [ext] is looked up. *)
Definition store_then_ext (d : udata) (key : ext_key) (call_ev : list event)
    (o : uspline) (tr : list event) : outcome uspline unit :=
  let o1 := after_reset_class d (set__data d o) in
  let tr1 := tr ++ call_ev ++ curfit_warnings (d_ier d) in
  match dict_get ext_key_eqb _extrap_modes key with
  | None =>
      mk_outcome
        (inl (ValueError (Format "Unknown extrapolation mode %s." [AKey key])))
        o1 tr1
  | Some e => mk_outcome (inr tt) (set_ext e o1) tr1
  end.

(** The warnings a status gets where every status other than 0, -1, -2
    is warned about. *)
Definition surfit_warnings (table : list (Z * string)) (ier : Z) : list event :=
  if normal_return ier then []
  else [Warn UserWarning (status_message table (Some ier))].

(** [tx[:nx], ty[:ny], c[:(nx-kx-1)*(ny-ky-1)]] *)
Definition surf_tck (f : surf_fit) (kx ky : Z) : tck3 :=
  (py_slice (s_tx f) None (Some (s_nx f)),
   py_slice (s_ty f) None (Some (s_ny f)),
   py_slice (s_c f) None (Some ((s_nx f - kx - 1) * (s_ny f - ky - 1)))).

(** The object after the three assignments that end a constructor. *)
Definition stored (fp0 : num) (t : tck3) (deg : Z * Z) (o : bspline) : bspline :=
  set_degrees deg (set_tck t (set_fp fp0 o)).

(** A second call of a routine, when the first status is above 10. *)
Definition rerun_calls (r : routine) (ier : Z) : list event :=
  if ier >? 10 then [Call r] else [].

(** The fit [SmoothBivariateSpline.__init__] keeps. *)
Definition smooth_settled (lib : surfit_lib) (x y z : list num)
    (w : option (list num)) (bbox : bbox4) (kx ky : Z) (s eps : option num)
  : surf_fit :=
  let f := fst (surfit_smth lib x y z w bbox kx ky s eps 1) in
  if s_ier f >? 10
  then fst (surfit_smth lib x y z w bbox kx ky s eps (s_ier f))
  else f.

(** The two knot arrays [LSQBivariateSpline.__init__] allocates and fills,
    or the first error on the way. *)
Definition lsq_setup (kx ky : Z) (tx ty : list num) : exn + (list num * list num) :=
  let nx := 2 * kx + 2 + len tx in
  let ny := 2 * ky + 2 + len ty in
  if nx <? 0 then inl (ValueError (Text "negative dimensions are not allowed"))
  else if ny <? 0 then inl (ValueError (Text "negative dimensions are not allowed"))
  else match np_assign_slice (repeat zero (Z.to_nat nx))
                             (Some (kx + 1)) (Some (nx - kx - 1)) tx with
       | None => inl broadcast_error
       | Some tx1 =>
           match np_assign_slice (repeat zero (Z.to_nat ny))
                                 (Some (ky + 1)) (Some (ny - ky - 1)) ty with
           | None => inl broadcast_error
           | Some ty1 => inr (tx1, ty1)
           end
       end.

(** The fit [LSQBivariateSpline.__init__] keeps. *)
Definition lsq_settled (lib : surfit_lib) (x y z tx1 ty1 : list num)
    (w : option (list num)) (bbox : bbox4) (kx ky : Z) (eps : option num)
  : lsq_fit :=
  let f := surfit_lsq lib x y z tx1 ty1 w bbox kx ky eps 1 in
  if l_ier f >? 10
  then surfit_lsq lib x y z (l_tx f) (l_ty f) w bbox kx ky eps (l_ier f)
  else f.

(** The entry -3 of a table, as a format string. *)
Definition deficiency_format (table : list (Z * string)) : string :=
  dict_get_default Z.eqb table (-3) "".

(** The warnings of [LSQBivariateSpline.__init__]. *)
Definition lsq_surface_warnings (tx ty : list num) (kx ky ier : Z) : list event :=
  let nx := 2 * kx + 2 + len tx in
  let ny := 2 * ky + 2 + len ty in
  if normal_return ier then []
  else if ier <? -2
  then [Warn UserWarning
          (Format (deficiency_format _surfit_messages)
                  [AInt ((nx - kx - 1) * (ny - ky - 1) + ier)])]
  else [Warn UserWarning (status_message _surfit_messages (Some ier))].

(** [(x.min() == x[0]) and (x.max() == x[-1])], as a value or the error
    raised on the way. *)
Definition ends_are_extrema_value (x : list num) : exn + bool :=
  match np_min x with
  | None => inl reduction_error
  | Some lo =>
      match py_index x 0 with
      | None => inl IndexError
      | Some x0 =>
          if num_eqb lo x0 then
            match np_max x with
            | None => inl reduction_error
            | Some hi =>
                match py_index x (-1) with
                | None => inl IndexError
                | Some xn => inr (num_eqb hi xn)
                end
            end
          else inr false
      end
  end.

(** The checks of [RectBivariateSpline.__init__] that precede the fit:
    the exception of the first one that fails. *)
Definition rect_validation (x_dtype y_dtype : dtype) (x y : list num) (z : ndarray)
  : option exn :=
  if negb (all_positive (np_diff x_dtype x))
  then Some (TypeError (Text "x must be strictly increasing"))
  else if negb (all_positive (np_diff y_dtype y))
  then Some (TypeError (Text "y must be strictly increasing"))
  else match ends_are_extrema_value x with
       | inl e => Some e
       | inr false => Some (TypeError (Text "x must be strictly ascending"))
       | inr true =>
           match ends_are_extrema_value y with
           | inl e => Some e
           | inr false => Some (TypeError (Text "y must be strictly ascending"))
           | inr true =>
               match nth_error (shape z) 0 with
               | None => Some IndexError
               | Some z0 =>
                   if negb (List.length x =? z0)%nat
                   then Some (TypeError
                     (Text "x dimension of z must have same number of elements as x"))
                   else match nth_error (shape z) 1 with
                        | None => Some IndexError
                        | Some z1 =>
                            if negb (List.length y =? z1)%nat
                            then Some (TypeError
                              (Text "y dimension of z must have same number of elements as y"))
                            else None
                        end
               end
           end
       end.

(** [t[:nt], p[:np], c[:(nt-4)*(np-4)]] *)
Definition sphere_tck (f : surf_fit) : tck3 :=
  (py_slice (s_tx f) None (Some (s_nx f)),
   py_slice (s_ty f) None (Some (s_ny f)),
   py_slice (s_c f) None (Some ((s_nx f - 4) * (s_ny f - 4)))).

(** The two knot arrays [LSQSphereBivariateSpline.__init__] allocates and
    fills, or the first error on the way. *)
Definition sphere_setup (tt tp : list num) : exn + (list num * list num) :=
  let nt_ := 8 + len tt in
  let np_ := 8 + len tp in
  if nt_ <? 0 then inl (ValueError (Text "negative dimensions are not allowed"))
  else if np_ <? 0 then inl (ValueError (Text "negative dimensions are not allowed"))
  else match np_assign_slice (repeat zero (Z.to_nat nt_)) (Some 4) (Some (-4)) tt with
       | None => inl broadcast_error
       | Some tt_ =>
           match np_assign_slice (repeat zero (Z.to_nat np_)) (Some 4) (Some (-4)) tp with
           | None => inl broadcast_error
           | Some tp_ =>
               inr (np_fill_slice tt_ (Some (-4)) None (Fin np_pi),
                    np_fill_slice tp_ (Some (-4)) None (Fin (2 * np_pi)%Q))
           end
       end.

(** The warning of [LSQSphereBivariateSpline.__init__] for a status below
    -2. *)
Definition sphere_deficiency_warning (tt tp : list num) (ier : Z) : event :=
  let nt_ := 8 + len tt in
  let np_ := 8 + len tp in
  Warn UserWarning
    (Format (deficiency_format _spherefit_messages)
            [AInt (6 + (nt_ - 8) * (np_ - 7) + ier); AInt (- ier)]).

(** [r0, r1] of [RectSphereBivariateSpline.__init__]. *)
Definition pole_pair (pole_values : pole_values_t) : option num * option num :=
  match pole_values with
  | PoleNone => (None, None)
  | PoleFloat x => (Some x, Some x)
  | PolePair a b => (a, b)
  end.

(** Its [iopt] array. *)
Definition sphere_iopt (pole_continuity : pole_flag) : list Z :=
  [0; Z_of_bool (fst (flag_pair pole_continuity));
      Z_of_bool (snd (flag_pair pole_continuity))].

(** Its [ider] array. *)
Definition sphere_ider (pole_values : pole_values_t) (pole_exact pole_flat : pole_flag)
  : list Z :=
  [match fst (pole_pair pole_values) with
   | None => -1
   | Some _ => Z_of_bool (fst (flag_pair pole_exact))
   end;
   Z_of_bool (fst (flag_pair pole_flat));
   match snd (pole_pair pole_values) with
   | None => -1
   | Some _ => Z_of_bool (snd (flag_pair pole_exact))
   end;
   Z_of_bool (snd (flag_pair pole_flat))].

(** The checks of [RectSphereBivariateSpline.__init__] that precede the
    fit: the exception of the first one that fails. *)
Definition rect_sphere_validation (u_dtype v_dtype : dtype) (u v : list num)
    (r : ndarray) (pole_continuity pole_flat : pole_flag) : option exn :=
  if negb (all_positive (np_diff u_dtype u))
  then Some (TypeError (Text "u must be strictly increasing"))
  else if negb (all_positive (np_diff v_dtype v))
  then Some (TypeError (Text "v must be strictly increasing"))
  else match nth_error (shape r) 0 with
       | None => Some IndexError
       | Some n0 =>
           if negb (List.length u =? n0)%nat
           then Some (TypeError
                  (Text "u dimension of r must have same number of elements as u"))
           else match nth_error (shape r) 1 with
                | None => Some IndexError
                | Some n1 =>
                    if negb (List.length v =? n1)%nat
                    then Some (TypeError
                           (Text "v dimension of r must have same number of elements as v"))
                    else if negb (snd (flag_pair pole_continuity))
                            && snd (flag_pair pole_flat)
                    then Some (TypeError
                           (Text "if pole_continuity is False, so must be pole_flat"))
                    else if negb (fst (flag_pair pole_continuity))
                            && fst (flag_pair pole_flat)
                    then Some (TypeError
                           (Text "if pole_continuity is False, so must be pole_flat"))
                    else None
                end
       end.

(** No element is NaN. *)
Definition no_nan (l : list num) : bool := forallb (fun v => negb (num_isnan v)) l.

(** The array holds as many elements as its shape says. *)
Definition array_ok (a : ndarray) : bool := (List.length (data a) =? size a)%nat.

(** [v] lies outside [[0, bound]]. *)
Definition outside (bound : Q) (v : num) : bool :=
  num_ltb v zero || num_gtb v (Fin bound).

(** ** Concrete libraries

    To run a method on a concrete input the routines must be concrete too.
    [scripted_curfit ier0 ier1] answers the first fit with status [ier0] and
    a refit by [fpcurf1] with status [ier1]; as FITPACK does, [fpcurfm1]
    hands back the knots it was given, with [s = -1]. *)

Definition echo_fit (x y : list num) (w : option (list num)) (k : Z) (s : num)
    (t : list num) (ier : Z) : fitdata :=
  mk_fitdata x y
    (match w with Some w => w | None => repeat (Fin 1) (List.length x) end)
    (hd zero x) (last x zero) k s (len t) t (repeat zero (List.length t))
    zero [] [] ier.

Definition scripted_curfit (ier0 ier1 : Z) : curfit_lib :=
  mk_curfit_lib
    (fun x y k w xb xe s =>
       echo_fit x y w k (match s with Some s => s | None => num_of_Z (len x) end)
                (py_repeat (hd zero x) (k + 1) ++ py_repeat (last x zero) (k + 1)) ier0)
    (fun args =>
       echo_fit (match d_x args with Some x => x | None => [] end)
                (match d_y args with Some y => y | None => [] end)
                (d_w args) (d_k args)
                (match d_s args with Some s => s | None => zero end)
                (d_t args) ier1)
    (fun x y k t w xb xe => echo_fit x y w k (Fin (-1)) t ier0)
    (fun _ _ _ => 0)
    (fun x _ _ _ => inr x)
    (fun _ _ _ => zero)
    (fun _ _ => ([], 0))
    (fun _ _ => ([], 0, 0))
    (fun t _ => t)
    (fun t _ => t).

(** A surface library answering every fit with status [ier0] (and a re-run
    with [ier1]) and empty knot and coefficient arrays. *)
Definition scripted_surfit (ier0 ier1 : Z) : surfit_lib :=
  let fit ier := mk_surf_fit 0 [] 0 [] [] zero ier in
  let eval (x y : ndarray) := (np_zeros [size x; size y], 0) in
  mk_surfit_lib
    (fun _ _ _ _ _ _ _ _ _ lwrk2 => (fit (if lwrk2 =? 1 then ier0 else ier1), []))
    (fun _ _ _ tx ty _ _ _ _ _ lwrk2 =>
       mk_lsq_fit tx ty [] zero (if lwrk2 =? 1 then ier0 else ier1))
    (fun _ _ _ _ _ _ _ => fit ier0)
    (fun _ _ _ _ _ x y => eval x y)
    (fun _ _ _ x y => eval x y)
    (fun _ _ _ _ _ x y => eval x y)
    (fun _ _ _ x y => eval x y)
    (fun _ _ _ _ _ _ _ => zero)
    (fun _ _ _ _ _ _ => fit ier0)
    (fun _ _ _ tt tp _ _ => mk_lsq_fit tt tp [] zero ier0)
    (fun _ _ _ _ _ _ _ _ => fit ier0).

(** The integers [a, a+1, ..., a+n-1] as an array. *)
Fixpoint arange (a : Z) (n : nat) : list num :=
  match n with
  | O => []
  | S m => num_of_Z a :: arange (a + 1) m
  end.

(** An LSQ spline through six points with one interior knot, as the
    constructor leaves it. *)
Definition sample_lsq_spline : uspline :=
  self_after
    (run (LSQUnivariateSpline__init__ (scripted_curfit 0 0) Float
            (arange 0 6) (arange 0 6) [Fin (5 # 2)] None (None, None) 1
            (KInt 0) false)
         (new_uspline LSQUnivariateSpline)).

(** A spline object as [_from_tck] builds it, from an empty
    representation. *)
Definition blank_spline : uspline := _from_tck UnivariateSpline ([], [], 3) 0.

(** A surface spline with an empty representation of degrees (3, 3). *)
Definition sample_surface : bspline := stored zero ([], [], []) (3, 3) new_bspline.

(** The calls of the fitting routines in a trace. *)
Definition solver_events (tr : list event) : list event := filter is_solver_call tr.

(** Each element is below the next one. *)
Fixpoint increasing (l : list num) : bool :=
  match l with
  | a :: (b :: _) as r => num_ltb a b && increasing r
  | _ => true
  end.

(** No element is above the next one. *)
Fixpoint nondecreasing (l : list num) : bool :=
  match l with
  | a :: (b :: _) as r => num_leb a b && nondecreasing r
  | _ => true
  end.

(** The integers [zs] as array elements. *)
Definition ints (zs : list Z) : list num := map num_of_Z zs.

(** Every integer of [zs] is a value of the unsigned type of [w] bits. *)
Definition fits_unsigned (w : positive) (zs : list Z) : bool :=
  forallb (fun z => (0 <=? z) && (z <? 2 ^ Z.pos w)) zs.

(** No element equals the next one. *)
Fixpoint no_repeat (zs : list Z) : bool :=
  match zs with
  | a :: (b :: _) as r => negb (a =? b) && no_repeat r
  | _ => true
  end.

(** * Properties *)

Ltac run_step :=
  repeat (progress (unfold run, bind, ret, raise, emit, warn, call, when, expect,
                      get_self, update_self;
                    cbn [result self_after trace __class__ _spline_class _data
                           _eval_args ext fp tck degrees negb])).

Lemma _set_class_run (cls : pyclass) (o : uspline) (tr : list event) :
  _set_class cls o tr = mk_outcome (inr tt) (tagged cls o) tr.
Proof.
  unfold _set_class, tagged. run_step.
  destruct o as [c sc d ea e]; cbn.
  destruct (known_class c); reflexivity.
Qed.

Lemma _reset_class_run (o : uspline) (d : udata) (tr : list event) :
  _data o = Some d ->
  _reset_class o tr =
    mk_outcome (inr tt) (after_reset_class d o) (tr ++ curfit_warnings (d_ier d)).
Proof.
  intros Hd. destruct o as [c sc d0 ea e]. cbn in Hd. subst d0.
  unfold _reset_class, _set_class, after_reset_class, curfit_warnings, tag_for,
    tagged_opt, tagged, silent_status.
  run_step. cbn.
  destruct (opt_Z_eqb (d_ier d) 0); cbn; [now rewrite app_nil_r|].
  destruct (opt_Z_eqb (d_ier d) (-1)); cbn;
    [destruct (known_class c); cbn; now rewrite app_nil_r|].
  destruct (opt_Z_eqb (d_ier d) (-2)); cbn;
    [destruct (known_class c); cbn; now rewrite app_nil_r|].
  destruct (opt_Z_eqb (d_ier d) 1); cbn; [|reflexivity].
  destruct (known_class c); reflexivity.
Qed.

Section UnivariateRuns.
Variable lib : curfit_lib.

Lemma _reset_nest_run (data : fitdata) (o : uspline) (tr : list event) :
  _reset_nest lib data None o tr =
    match resized_args data (max_nest data) with
    | Some args => mk_outcome (inr (fpcurf1 lib args)) o (tr ++ [Call r_fpcurf1])
    | None => mk_outcome (inl negative_size_error) o tr
    end.
Proof.
  unfold _reset_nest, resized_args, max_nest, np_resize. run_step.
  destruct (len (f_x data) + f_k data + 1 <? 0); reflexivity.
Qed.

Lemma UnivariateSpline__init__run x y w bbox k s key check_finite o tr :
  UnivariateSpline__init__ lib x y w bbox k s key check_finite o tr =
    if finite_check_fails check_finite x y
    then mk_outcome
           (inl (ValueError (Text "x and y array must not contain NaNs or infs.")))
           o tr
    else match dict_get ext_key_eqb _extrap_modes key with
         | None =>
             mk_outcome
               (inl (ValueError (Format "Unknown extrapolation mode %s." [AKey key])))
               o tr
         | Some e =>
             let data0 := fpcurf0 lib x y k w (fst bbox) (snd bbox) s in
             match settled lib data0 with
             | inl err => mk_outcome (inl err) (set_ext e o) (tr ++ [Call r_fpcurf0])
             | inr f =>
                 let d := udata_of f in
                 mk_outcome (inr tt)
                   (after_reset_class d (set__data d (set_ext e o)))
                   (tr ++ [Call r_fpcurf0] ++ settle_calls data0
                       ++ curfit_warnings (d_ier d))
             end
         end.
Proof.
  unfold UnivariateSpline__init__, finite_check_fails, lookup_ext, settled,
    settle_calls.
  destruct check_finite; cbn [andb].
  - destruct (negb (all_finite x) || negb (all_finite y)); run_step;
      [reflexivity|].
    destruct (dict_get ext_key_eqb _extrap_modes key); run_step; [|reflexivity].
    destruct (f_ier (fpcurf0 lib x y k w (fst bbox) (snd bbox) s) =? 1);
      rewrite ?_reset_nest_run; try destruct (resized_args _ _); run_step;
      try reflexivity;
      rewrite _reset_class_run with (d := udata_of _) by reflexivity;
      cbn [result self_after trace]; now rewrite <- !app_assoc.
  - run_step.
    destruct (dict_get ext_key_eqb _extrap_modes key); run_step; [|reflexivity].
    destruct (f_ier (fpcurf0 lib x y k w (fst bbox) (snd bbox) s) =? 1);
      rewrite ?_reset_nest_run; try destruct (resized_args _ _); run_step;
      try reflexivity;
      rewrite _reset_class_run with (d := udata_of _) by reflexivity;
      cbn [result self_after trace]; now rewrite <- !app_assoc.
Qed.
Lemma set_smoothing_factor_run s o d tr :
  _data o = Some d ->
  set_smoothing_factor lib s o tr =
    if opt_num_eqb (d_s d) (-1)
    then mk_outcome (inr tt) o
           (tr ++ [Warn UserWarning
                     (Text "smoothing factor unchanged forLSQ spline with fixed knots")])
    else
      let data0 := fpcurf1 lib (smoothing_args d s) in
      match settled lib data0 with
      | inl err => mk_outcome (inl err) o (tr ++ [Call r_fpcurf1])
      | inr f =>
          let d' := udata_of f in
          mk_outcome (inr tt) (after_reset_class d' (set__data d' o))
                     (tr ++ [Call r_fpcurf1] ++ settle_calls data0
                         ++ curfit_warnings (d_ier d'))
      end.
Proof.
  intros Hd. unfold set_smoothing_factor, settled, settle_calls, smoothing_args.
  run_step. rewrite Hd. cbn [result self_after trace].
  destruct (opt_num_eqb (d_s d) (-1)); [reflexivity|].
  cbn [result self_after trace].
  match goal with |- context [f_ier ?f =? 1] => destruct (f_ier f =? 1) end;
    rewrite ?_reset_nest_run; try destruct (resized_args _ _); run_step;
    try reflexivity;
    rewrite _reset_class_run with (d := udata_of _) by reflexivity;
    cbn [result self_after trace]; now rewrite <- !app_assoc.
Qed.

Lemma InterpolatedUnivariateSpline__init__run x y w bbox k key check_finite o tr :
  InterpolatedUnivariateSpline__init__ lib x y w bbox k key check_finite o tr =
    match finite_check_error "Input must not contain NaNs or infs."
                             check_finite x y w [] with
    | Some e => mk_outcome (inl e) o tr
    | None =>
        let data := fpcurf0 lib x y k w (fst bbox) (snd bbox) (Some zero) in
        store_then_ext (udata_of data) key [Call r_fpcurf0] o tr
    end.
Proof.
  unfold InterpolatedUnivariateSpline__init__, finite_check_error, store_then_ext,
    lookup_ext, not_all_finite_opt.
  destruct check_finite; cbn [when py_or]; run_step.
  2: { rewrite _reset_class_run with (d := udata_of _) by reflexivity.
       run_step.
       destruct (dict_get ext_key_eqb _extrap_modes key);
         run_step; now rewrite <- !app_assoc. }
  destruct (negb (all_finite x)); run_step; [reflexivity|].
  destruct (negb (all_finite y)); run_step; [reflexivity|].
  destruct w as [w|]; run_step; [|reflexivity].
  destruct (negb (all_finite w)); run_step; [reflexivity|].
  cbn [all_finite forallb negb].
  rewrite _reset_class_run with (d := udata_of _) by reflexivity.
  run_step.
  destruct (dict_get ext_key_eqb _extrap_modes key);
    run_step; now rewrite <- !app_assoc.
Qed.
Lemma LSQUnivariateSpline__init__run dt x y t w bbox k key check_finite o tr :
  LSQUnivariateSpline__init__ lib dt x y t w bbox k key check_finite o tr =
    match finite_check_error "Input(s) must not contain NaNs or infs."
                             check_finite x y w t with
    | Some e => mk_outcome (inl e) o tr
    | None =>
        match (match fst bbox with Some xb => Some xb | None => py_index x 0 end) with
        | None => mk_outcome (inl IndexError) o tr
        | Some xb =>
            match (match snd bbox with Some xe => Some xe | None => py_index x (-1) end) with
            | None => mk_outcome (inl IndexError) o tr
            | Some xe =>
                let t' := padded_knots xb xe k t in
                match knot_steps dt t' k with
                | None => mk_outcome (inl broadcast_error) o tr
                | Some steps =>
                    if negb (all_positive steps)
                    then mk_outcome
                           (inl (ValueError
                              (Text "Interior knots t must satisfy Schoenberg-Whitney conditions")))
                           o tr
                    else if negb (fpchec lib x t' k =? 0)
                    then mk_outcome (inl (ValueError (Text _fpchec_error_string)))
                                    o (tr ++ [Call r_fpchec])
                    else store_then_ext (lsq_data (fpcurfm1 lib x y k t' w xb xe)) key
                                        [Call r_fpchec; Call r_fpcurfm1] o tr
                end
            end
        end
    end.
Proof.
  unfold LSQUnivariateSpline__init__, finite_check_error, store_then_ext,
    lookup_ext, not_all_finite_opt, padded_knots, knot_steps.
  destruct bbox as [[xb|] [xe|]]; cbn [fst snd];
    destruct check_finite; cbn [when py_or]; cbv zeta; run_step.
  all: try (destruct (negb (all_finite x)); run_step; [reflexivity|]).
  all: try (destruct (negb (all_finite y)); run_step; [reflexivity|]).
  all: try (destruct w as [w|]; run_step; [|reflexivity]).
  all: try (destruct (negb (all_finite w)); run_step; [reflexivity|]).
  all: try (destruct (negb (all_finite t)); run_step; [reflexivity|]).
  all: try (destruct (py_index x 0); run_step; [|reflexivity]).
  all: try (destruct (py_index x (-1)); run_step; [|reflexivity]).
  all: destruct (np_sub1 _ _ _) as [steps|]; run_step; [|reflexivity].
  all: destruct (negb (all_positive steps)); run_step; [reflexivity|].
  all: destruct (negb (fpchec lib x _ k =? 0)); run_step; [reflexivity|].
  all: erewrite _reset_class_run by reflexivity.
  all: run_step.
  all: destruct (dict_get ext_key_eqb _extrap_modes key); run_step.
  all: now rewrite <- !app_assoc.
Qed.
End UnivariateRuns.

(** ** Re-tagging of the class *)

Lemma tagged_class (cls : pyclass) (o : uspline) :
  __class__ (tagged cls o) = if known_class (__class__ o) then cls else __class__ o.
Proof. unfold tagged. destruct (known_class (__class__ o)); reflexivity. Qed.


Lemma after_reset_class_data (d : udata) (o : uspline) :
  _data (after_reset_class d o) = _data o.
Proof.
  unfold after_reset_class, tagged_opt, tagged.
  destruct (tag_for (d_ier d)); cbn; [|reflexivity].
  destruct (known_class (__class__ o)); reflexivity.
Qed.

Lemma after_reset_class_ext (d : udata) (o : uspline) :
  ext (after_reset_class d o) = ext o.
Proof.
  unfold after_reset_class, tagged_opt, tagged.
  destruct (tag_for (d_ier d)); cbn; [|reflexivity].
  destruct (known_class (__class__ o)); reflexivity.
Qed.

(** What [settled] returns, spelled out. *)
Lemma settled_inr (lib : curfit_lib) (data f : fitdata) :
  settled lib data = inr f ->
  if f_ier data =? 1
  then exists args, resized_args data (max_nest data) = Some args /\
                    f = fpcurf1 lib args
  else f = data.
Proof.
  unfold settled. destruct (f_ier data =? 1).
  - destruct (resized_args data (max_nest data)) as [args|]; [|discriminate].
    intros H. injection H as <-. now exists args.
  - intros H. now injection H as <-.
Qed.

Lemma solver_calls_app (a b : list event) :
  solver_calls (a ++ b) = (solver_calls a + solver_calls b)%nat.
Proof. unfold solver_calls. now rewrite filter_app, length_app. Qed.

(** [np.resize] fails on a negative size only. *)
Lemma resized_args_none (data : fitdata) (nest : Z) :
  resized_args data nest = None <-> nest < 0.
Proof.
  unfold resized_args, np_resize. destruct (nest <? 0) eqn:E.
  - apply Z.ltb_lt in E. split; [intros _; exact E|reflexivity].
  - apply Z.ltb_ge in E. split; [discriminate|lia].
Qed.

Lemma settled_inl (lib : curfit_lib) (data : fitdata) (err : exn) :
  settled lib data = inl err ->
  (f_ier data = 1 /\ max_nest data < 0) /\ err = negative_size_error.
Proof.
  unfold settled. destruct (f_ier data =? 1) eqn:E; [|discriminate].
  destruct (resized_args data (max_nest data)) as [args|] eqn:Er; [discriminate|].
  intros H. injection H as <-. apply Z.eqb_eq in E.
  apply resized_args_none in Er. auto.
Qed.

Lemma solver_events_app (a b : list event) :
  solver_events (a ++ b) = solver_events a ++ solver_events b.
Proof. apply filter_app. Qed.

Lemma solver_events_curfit_warnings ier : solver_events (curfit_warnings ier) = [].
Proof. unfold curfit_warnings. destruct (silent_status ier); reflexivity. Qed.


(** ** Slices *)

Lemma py_slice_prefix {A} (l : list A) (m : Z) :
  0 <= m -> py_slice l None (Some m) = firstn (Z.to_nat m) l.
Proof.
  intros Hm. unfold py_slice, adjust_index, len.
  destruct (m <? 0) eqn:E; [apply Z.ltb_lt in E; lia|].
  rewrite Z.sub_0_r. cbn [Z.to_nat skipn].
  destruct (Z.min_spec m (Z.of_nat (List.length l))) as [[H ->]|[H ->]].
  - reflexivity.
  - rewrite Nat2Z.id. rewrite firstn_all.
    symmetry. apply firstn_all2. lia.
Qed.

(** ** Methods that only read *)

Section ReadOnly.
Variable lib : curfit_lib.

Lemma UnivariateSpline__call__frame x nu e o :
  self_after (run (UnivariateSpline__call__ lib x nu e) o) = o.
Proof.
  unfold UnivariateSpline__call__, lookup_ext.
  destruct (size x =? 0)%nat; run_step; [reflexivity|].
  destruct e as [key|]; run_step.
  - destruct (dict_get ext_key_eqb _extrap_modes key); run_step; [|reflexivity].
    destruct (_eval_args o); run_step; [|reflexivity].
    destruct (splev lib x t nu z); reflexivity.
  - destruct (ext o); run_step; [|reflexivity].
    destruct (_eval_args o); run_step; [|reflexivity].
    destruct (splev lib x t nu z); reflexivity.
Qed.

Lemma get_knots_frame o : self_after (run get_knots o) = o.
Proof. unfold get_knots. run_step. destruct (_data o); reflexivity. Qed.

Lemma get_coeffs_frame o : self_after (run get_coeffs o) = o.
Proof. unfold get_coeffs. run_step. destruct (_data o); reflexivity. Qed.

Lemma get_residual_frame o : self_after (run get_residual o) = o.
Proof. unfold get_residual. run_step. destruct (_data o); reflexivity. Qed.

Lemma integral_frame a b o : self_after (run (integral lib a b) o) = o.
Proof. unfold integral. run_step. destruct (_eval_args o); reflexivity. Qed.

Lemma derivatives_frame x o : self_after (run (derivatives lib x) o) = o.
Proof.
  unfold derivatives. run_step. destruct (_eval_args o); run_step; [|reflexivity].
  destruct (spalde lib t x) as [d ier]. run_step.
  destruct (negb (ier =? 0)); reflexivity.
Qed.

Lemma roots_frame o : self_after (run (roots lib) o) = o.
Proof.
  unfold roots. run_step. destruct (_data o) as [d|]; run_step; [|reflexivity].
  destruct (d_k d =? 3); run_step; [|reflexivity].
  destruct (_eval_args o) as [[[t c] k]|]; run_step; [|reflexivity].
  destruct (sproot lib t c) as [[z m] ier]. run_step.
  destruct (negb (ier =? 0)); reflexivity.
Qed.

Lemma derivative_frame n o : self_after (run (derivative lib n) o) = o.
Proof.
  unfold derivative. run_step. destruct (_eval_args o); run_step; [|reflexivity].
  destruct (ext o); reflexivity.
Qed.

Lemma antiderivative_frame n o : self_after (run (antiderivative lib n) o) = o.
Proof.
  unfold antiderivative. run_step. destruct (_eval_args o); run_step; [|reflexivity].
  destruct (ext o); reflexivity.
Qed.
End ReadOnly.

(** C9. [roots] leaves the object as it is.  On a spline whose degree is
    not 3 it raises NotImplementedError without calling anything.  On a
    cubic spline it calls the root finder once on the stored knots and
    coefficients and, [z], [m], [ier] being what comes back, raises
    ValueError when [ier] is not 0 and returns [z[:m]] otherwise, which for
    a count [m >= 0] is the first [m] entries of [z]. *)
Theorem C9_roots (lib : curfit_lib) :
  (forall o, self_after (run (roots lib) o) = o) /\
  (forall cls sc d t c k e,
      let o := mk_uspline cls sc (Some d) (Some (t, c, k)) e in
      let r := run (roots lib) o in
      if d_k d =? 3 then
        let '(z, m, ier) := sproot lib t c in
        trace r = [Call r_sproot] /\
        result r =
          (if ier =? 0 then inr (py_slice z None (Some m))
           else inl (ValueError (Format "Error code returned by spalde: %s" [AInt ier])))
      else
        trace r = [] /\
        result r =
          inl (NotImplementedError
                 (Text "finding roots unsupported for non-cubic splines"))) /\
  (forall (z : list num) m,
      0 <= m -> py_slice z None (Some m) = firstn (Z.to_nat m) z).
Proof.
  split; [apply roots_frame|]. split; [|intros; now apply py_slice_prefix].
  intros cls sc d t c k e o r. subst r o. unfold roots. run_step.
  destruct (d_k d =? 3); run_step; [|split; reflexivity].
  destruct (sproot lib t c) as [[z m] ier]. run_step.
  destruct (ier =? 0); split; reflexivity.
Qed.

Section BivariateReadOnly.
Variable lib : surfit_lib.

Lemma _BivariateSplineBase__call__frame x y mth dx dy grid o :
  self_after (run (_BivariateSplineBase__call__ lib x y mth dx dy grid) o) = o.
Proof.
  unfold _BivariateSplineBase__call__.
  destruct mth; run_step.
  all: destruct (tck o) as [t|]; run_step; [|reflexivity].
  all: destruct (degrees o) as [[kx ky]|]; run_step; [|reflexivity].
  all: destruct grid.
  all: try (destruct ((size x =? 0)%nat || (size y =? 0)%nat); run_step;
            [reflexivity|];
            destruct (negb (dx =? 0) || negb (dy =? 0)); run_step;
            [destruct (parder lib t kx ky dx dy x y) as [z ier]
            |destruct (bispev lib t kx ky x y) as [z ier]];
            run_step; destruct (negb (ier =? 0)); reflexivity).
  all: destruct (negb (shape_eqb (shape x) (shape y))); run_step.
  all: try (destruct (broadcast_arrays x y) as [[x' y']|]; run_step; [|reflexivity]).
  all: match goal with
       | |- context [(size (ravel ?a) =? 0)%nat || (size (ravel ?b) =? 0)%nat] =>
           destruct ((size (ravel a) =? 0)%nat || (size (ravel b) =? 0)%nat);
           run_step; [reflexivity|];
           destruct (negb (dx =? 0) || negb (dy =? 0)); run_step;
           [destruct (pardeu lib t kx ky dx dy (ravel a) (ravel b)) as [z ier]
           |destruct (bispeu lib t kx ky (ravel a) (ravel b)) as [z ier]];
           run_step; destruct (negb (ier =? 0)); reflexivity
       end.
Qed.

Lemma ev_frame xi yi dx dy o : self_after (run (ev lib xi yi dx dy) o) = o.
Proof. apply _BivariateSplineBase__call__frame. Qed.

Lemma bivariate_get_residual_frame o : self_after (run bivariate_get_residual o) = o.
Proof. unfold bivariate_get_residual. run_step. destruct (fp o); reflexivity. Qed.

Lemma bivariate_get_knots_frame o : self_after (run bivariate_get_knots o) = o.
Proof.
  unfold bivariate_get_knots. run_step. destruct (tck o) as [[[tx ty] c]|]; reflexivity.
Qed.

Lemma bivariate_get_coeffs_frame o : self_after (run bivariate_get_coeffs o) = o.
Proof.
  unfold bivariate_get_coeffs. run_step. destruct (tck o) as [[[tx ty] c]|]; reflexivity.
Qed.

Lemma bivariate_integral_frame xa xb ya yb o :
  self_after (run (bivariate_integral lib xa xb ya yb) o) = o.
Proof.
  unfold bivariate_integral. run_step. destruct (tck o); run_step; [|reflexivity].
  destruct (degrees o) as [[kx ky]|]; reflexivity.
Qed.

Lemma out_of_bounds_frame (a : ndarray) (bound : Q) (o : bspline) tr :
  self_after (out_of_bounds a bound o tr) = o /\ trace (out_of_bounds a bound o tr) = tr.
Proof.
  unfold out_of_bounds. destruct (0 <? size a)%nat; run_step; [|auto].
  destruct (np_min (data a)) as [lo|]; run_step; [|auto].
  destruct (num_ltb lo zero); run_step; [auto|].
  destruct (np_max (data a)); run_step; auto.
Qed.

Lemma SphereBivariateSpline__call__frame theta phi dtheta dphi grid o :
  self_after (run (SphereBivariateSpline__call__ lib theta phi dtheta dphi grid) o) = o.
Proof.
  unfold SphereBivariateSpline__call__, run, bind.
  destruct (out_of_bounds_frame theta np_pi o []) as [H1 H2].
  destruct (out_of_bounds theta np_pi o []) as [[e|b] o1 tr1]; cbn in *; subst;
    [reflexivity|].
  destruct b; [reflexivity|].
  destruct (out_of_bounds_frame phi (2 * np_pi)%Q o []) as [H3 H4].
  destruct (out_of_bounds phi (2 * np_pi)%Q o []) as [[e|b] o1 tr1]; cbn in *; subst;
    [reflexivity|].
  destruct b; [reflexivity|].
  apply _BivariateSplineBase__call__frame.
Qed.
End BivariateReadOnly.

(** ** The smoothing factor *)

(** C6, as stated, fails: on an LSQ spline, whose stored smoothing factor
    is -1, [set_smoothing_factor] calls no fitting routine and leaves the
    object as it was. *)
Lemma C6_counterexample :
  let r := run (set_smoothing_factor (scripted_curfit 0 0) (Fin (1 # 2)))
               sample_lsq_spline in
  has_fit sample_lsq_spline = true /\
  solver_calls (trace r) = 0%nat /\
  self_after r = sample_lsq_spline.
Proof. vm_compute. repeat split. Qed.

(** C6, amended.  Every method other than [set_smoothing_factor] leaves
    the object as it was, whatever it returns or raises.
    [set_smoothing_factor s], on an object whose stored smoothing factor is
    -1, only warns: no fitting routine is called and the object is
    unchanged.  Otherwise it calls [fpcurf1] on the stored tuple with [s] in
    the place of the smoothing factor and replaces, on the same object,
    [_data] by the fit it settles on and [_eval_args] by the knots and
    coefficients of that fit.  (The one run in which it replaces nothing
    after that call is the one numpy stops: the fit reports status 1 and
    the arrays cannot be resized, [m + k + 1] being negative.) *)
Theorem C6_only_set_smoothing_factor_mutates (lib : curfit_lib) (slib : surfit_lib) :
  (forall o : uspline,
      (forall x nu e, self_after (run (UnivariateSpline__call__ lib x nu e) o) = o) /\
      self_after (run get_knots o) = o /\
      self_after (run get_coeffs o) = o /\
      self_after (run get_residual o) = o /\
      (forall a b, self_after (run (integral lib a b) o) = o) /\
      (forall x, self_after (run (derivatives lib x) o) = o) /\
      self_after (run (roots lib) o) = o /\
      (forall n, self_after (run (derivative lib n) o) = o) /\
      (forall n, self_after (run (antiderivative lib n) o) = o)) /\
  (forall o : bspline,
      (forall x y mth dx dy grid,
          self_after (run (_BivariateSplineBase__call__ slib x y mth dx dy grid) o) = o) /\
      (forall x y dx dy, self_after (run (ev slib x y dx dy) o) = o) /\
      (forall theta phi dtheta dphi grid,
          self_after (run (SphereBivariateSpline__call__ slib theta phi dtheta dphi grid) o)
          = o) /\
      self_after (run bivariate_get_residual o) = o /\
      self_after (run bivariate_get_knots o) = o /\
      self_after (run bivariate_get_coeffs o) = o /\
      (forall xa xb ya yb,
          self_after (run (bivariate_integral slib xa xb ya yb) o) = o)) /\
  (forall s cls sc d ea e,
      let o := mk_uspline cls sc (Some d) ea e in
      let r := run (set_smoothing_factor lib s) o in
      if opt_num_eqb (d_s d) (-1) then
        self_after r = o /\ solver_calls (trace r) = 0%nat /\
        result r = inr tt /\
        warnings_of (trace r) =
          [Text "smoothing factor unchanged forLSQ spline with fixed knots"]
      else
        hd_error (trace r) = Some (Call r_fpcurf1) /\
        match settled lib (fpcurf1 lib (smoothing_args d s)) with
        | inr fit =>
            result r = inr tt /\
            _data (self_after r) = Some (udata_of fit) /\
            _eval_args (self_after r) =
              Some (py_slice (f_t fit) None (Some (f_n fit)),
                    py_slice (f_c fit) None (Some (f_n fit)), f_k fit) /\
            ext (self_after r) = e
        | inl err =>
            f_ier (fpcurf1 lib (smoothing_args d s)) = 1 /\
            max_nest (fpcurf1 lib (smoothing_args d s)) < 0 /\
            result r = inl negative_size_error /\ self_after r = o
        end).
Proof.
  split; [|split].
  - intros o. repeat split; intros.
    + apply UnivariateSpline__call__frame.
    + apply get_knots_frame.
    + apply get_coeffs_frame.
    + apply get_residual_frame.
    + apply integral_frame.
    + apply derivatives_frame.
    + apply roots_frame.
    + apply derivative_frame.
    + apply antiderivative_frame.
  - intros o. repeat split; intros.
    + apply _BivariateSplineBase__call__frame.
    + apply ev_frame.
    + apply SphereBivariateSpline__call__frame.
    + apply bivariate_get_residual_frame.
    + apply bivariate_get_knots_frame.
    + apply bivariate_get_coeffs_frame.
    + apply bivariate_integral_frame.
  - intros s cls sc d ea e o r. subst r. unfold run.
    rewrite set_smoothing_factor_run with (d := d) by reflexivity.
    destruct (opt_num_eqb (d_s d) (-1)).
    + repeat split.
    + cbv zeta.
      destruct (settled lib _) as [err|fit] eqn:Es;
        cbn [result self_after trace app hd_error].
      * destruct (settled_inl _ _ Es) as [[H1 H2] ->]. repeat split; assumption.
      * rewrite after_reset_class_data, after_reset_class_ext.
        repeat split.
        unfold after_reset_class, tagged_opt, tagged.
        destruct (tag_for _); cbn; [|reflexivity].
        destruct (known_class cls); reflexivity.
Qed.

(** ** Extrapolation modes *)

Lemma ext_key_eqb_eq (a b : ext_key) : ext_key_eqb a b = true -> a = b.
Proof.
  destruct a, b; cbn; try discriminate.
  - intros H. apply Z.eqb_eq in H. now subst.
  - intros H. apply String.eqb_eq in H. now subst.
Qed.

Lemma dict_get_In {V} (d : list (ext_key * V)) key v :
  dict_get ext_key_eqb d key = Some v -> In (key, v) d.
Proof.
  induction d as [|[k' v'] r IH]; cbn; [discriminate|].
  destruct (dict_get ext_key_eqb r key) as [v0|].
  - intros H. inversion H; subst. right. now apply IH.
  - destruct (ext_key_eqb k' key) eqn:E; [|discriminate].
    intros H. inversion H; subst. left. f_equal. now apply ext_key_eqb_eq.
Qed.

(** C4, as stated, fails: with an empty [x] an evaluation returns the
    empty array although its [ext] override is not a key of the table. *)
Lemma C4_counterexample :
  dict_get ext_key_eqb _extrap_modes (KStr "bogus") = None /\
  result (run (UnivariateSpline__call__ (scripted_curfit 0 0) (array1 []) 0
                 (Some (KStr "bogus")))
              blank_spline)
  = inr (array1 []).
Proof. split; reflexivity. Qed.

(** C4, amended.  [_extrap_modes] maps 0 and 'extrapolate' to 0, 1 and
    'zeros' to 1, 2 and 'raise' to 2, 3 and 'const' to 3, and nothing else.
    At construction the three classes look [ext] up in it, at different
    moments.  [UnivariateSpline.__init__] does so right after its optional
    finiteness check and before fitting: unless that check raised, a key of
    the table is stored as [ext] and a key outside it raises ValueError
    with nothing called and nothing stored.
    [InterpolatedUnivariateSpline.__init__] and
    [LSQUnivariateSpline.__init__] do so last, after their checks and the
    fit: when an earlier check raised, that error is what the caller sees,
    whatever the key; once the fitting routine was called, a key of the
    table is stored as [ext] and the constructor returns, and a key outside
    it raises ValueError.  An evaluation of a non-empty [x] with an [ext]
    override passes the table's value to the evaluator and raises
    ValueError, without evaluating, for a key outside the table; without
    an override it passes the stored value.  An evaluation of an empty [x]
    returns the empty array before the override is looked at. *)
Theorem C4_extrapolation_table (lib : curfit_lib) :
  let lookup := dict_get ext_key_eqb _extrap_modes in
  let unknown key :=
    ValueError (Format "Unknown extrapolation mode %s." [AKey key]) in
  (lookup (KInt 0) = Some 0 /\ lookup (KStr "extrapolate") = Some 0 /\
   lookup (KInt 1) = Some 1 /\ lookup (KStr "zeros") = Some 1 /\
   lookup (KInt 2) = Some 2 /\ lookup (KStr "raise") = Some 2 /\
   lookup (KInt 3) = Some 3 /\ lookup (KStr "const") = Some 3) /\
  (forall key,
      match lookup key with
      | Some v => In (key, v) _extrap_modes /\ 0 <= v <= 3
      | None => True
      end) /\
  (forall x y w bbox k s key check_finite o,
      let r := run (UnivariateSpline__init__ lib x y w bbox k s key check_finite) o in
      if check_finite && (negb (all_finite x) || negb (all_finite y))
      then result r =
             inl (ValueError (Text "x and y array must not contain NaNs or infs.")) /\
           trace r = [] /\ self_after r = o
      else match lookup key with
           | Some v => ext (self_after r) = Some v /\
                       hd_error (trace r) = Some (Call r_fpcurf0)
           | None => result r = inl (unknown key) /\ trace r = [] /\ self_after r = o
           end) /\
  (forall x y w bbox k key check_finite o,
      let r := run (InterpolatedUnivariateSpline__init__ lib x y w bbox k key
                      check_finite) o in
      if (solver_calls (trace r) =? 0)%nat
      then raised r = true /\ result r <> inl (unknown key) /\ self_after r = o
      else match lookup key with
           | Some v => result r = inr tt /\ ext (self_after r) = Some v
           | None => result r = inl (unknown key) /\ ext (self_after r) = ext o
           end) /\
  (forall dt x y t w bbox k key check_finite o,
      let r := run (LSQUnivariateSpline__init__ lib dt x y t w bbox k key
                      check_finite) o in
      if (solver_calls (trace r) =? 0)%nat
      then raised r = true /\ result r <> inl (unknown key) /\ self_after r = o
      else match lookup key with
           | Some v => result r = inr tt /\ ext (self_after r) = Some v
           | None => result r = inl (unknown key) /\ ext (self_after r) = ext o
           end) /\
  (forall x nu key cls sc d args e,
      let o := mk_uspline cls sc d (Some args) e in
      let r := run (UnivariateSpline__call__ lib x nu (Some key)) o in
      if (size x =? 0)%nat then result r = inr (array1 []) /\ trace r = []
      else match lookup key with
           | Some v => result r = splev lib x args nu v /\ trace r = [Call r_splev]
           | None => result r = inl (unknown key) /\ trace r = []
           end) /\
  (forall x nu cls sc d args v,
      let o := mk_uspline cls sc d (Some args) (Some v) in
      let r := run (UnivariateSpline__call__ lib x nu None) o in
      if (size x =? 0)%nat then result r = inr (array1 []) /\ trace r = []
      else result r = splev lib x args nu v /\ trace r = [Call r_splev]).
Proof.
  cbv zeta. split; [repeat split|]. split; [|split; [|split; [|split; [|split]]]].
  - intros key. destruct (dict_get ext_key_eqb _extrap_modes key) as [v|] eqn:E;
      [|exact I].
    pose proof (dict_get_In _ _ E) as Hin. split; [exact Hin|].
    cbn in Hin.
    repeat (destruct Hin as [Hin|Hin]; [inversion Hin; lia|]). destruct Hin.
  - intros x y w bbox k s key check_finite o. unfold run.
    rewrite UnivariateSpline__init__run. unfold finite_check_fails.
    destruct (check_finite && _); [repeat split|].
    destruct (dict_get ext_key_eqb _extrap_modes key); [|repeat split].
    cbv zeta. destruct (settled lib _); cbn [result self_after trace].
    + split; reflexivity.
    + rewrite after_reset_class_ext. split; reflexivity.
  - intros x y w bbox k key check_finite o. unfold run.
    rewrite InterpolatedUnivariateSpline__init__run.
    destruct (finite_check_error _ _ _ _ _ _) as [err|] eqn:Ef.
    + cbn [trace solver_calls filter List.length Nat.eqb result self_after raised].
      repeat split. intros H. injection H as ->.
      unfold finite_check_error, isfinite_type_error in Ef.
      repeat match type of Ef with
             | (if ?b then _ else _) = _ => destruct b
             | match ?w with Some _ => _ | None => _ end = _ => destruct w
             end; discriminate Ef.
    + cbv zeta. unfold store_then_ext.
      destruct (dict_get ext_key_eqb _extrap_modes key); cbn [trace result self_after];
        rewrite !solver_calls_app;
        cbn [solver_calls filter is_solver_call is_solver List.length Nat.add Nat.eqb];
        cbn [ext set_ext]; rewrite ?after_reset_class_ext; split; reflexivity.
  - intros dt x y t w bbox k key check_finite o. unfold run.
    rewrite LSQUnivariateSpline__init__run.
    destruct (finite_check_error _ _ _ _ _ _) as [err|] eqn:Ef.
    { cbn [trace solver_calls filter List.length Nat.eqb result self_after raised].
      repeat split. intros H. injection H as ->.
      unfold finite_check_error, isfinite_type_error in Ef.
      repeat match type of Ef with
             | (if ?b then _ else _) = _ => destruct b
             | match ?w with Some _ => _ | None => _ end = _ => destruct w
             end; discriminate Ef. }
    destruct (match fst bbox with Some _ => _ | None => _ end);
      [|repeat split; discriminate].
    destruct (match snd bbox with Some _ => _ | None => _ end);
      [|repeat split; discriminate].
    cbv zeta. destruct (knot_steps _ _ _); [|repeat split; discriminate].
    destruct (negb (all_positive _)); [repeat split; discriminate|].
    destruct (negb (fpchec _ _ _ _ =? 0)); [repeat split; discriminate|].
    unfold store_then_ext.
    destruct (dict_get ext_key_eqb _extrap_modes key); cbn [trace result self_after];
      rewrite !solver_calls_app;
      cbn [solver_calls filter is_solver_call is_solver List.length Nat.add Nat.eqb];
      cbn [ext set_ext]; rewrite ?after_reset_class_ext; split; reflexivity.
  - intros x nu key cls sc d args e. unfold UnivariateSpline__call__, lookup_ext.
    destruct (size x =? 0)%nat; run_step; [split; reflexivity|].
    destruct (dict_get ext_key_eqb _extrap_modes key); run_step; [|split; reflexivity].
    destruct (splev lib x args nu z); split; reflexivity.
  - intros x nu cls sc d args v. unfold UnivariateSpline__call__.
    destruct (size x =? 0)%nat; run_step; [split; reflexivity|].
    destruct (splev lib x args nu v); split; reflexivity.
Qed.

(** ** Validation and the fit *)

(** C3 at its failing input.  [InterpolatedUnivariateSpline.__init__] with
    an [ext] that is not a key of the table raises ValueError only after
    [fpcurf0] has been called and its result stored on the object;
    [LSQUnivariateSpline.__init__] does the same after [fpcurfm1], whereas
    [UnivariateSpline.__init__] raises with no call made and nothing
    stored. *)
Theorem C3_ext_validated_after_fit (lib : curfit_lib) :
  let unknown :=
    ValueError (Format "Unknown extrapolation mode %s." [AKey (KStr "bogus")]) in
  (forall x y w bbox k cls,
      let r := run (InterpolatedUnivariateSpline__init__ lib x y w bbox k
                      (KStr "bogus") false)
                   (new_uspline cls) in
      result r = inl unknown /\
      solver_calls (trace r) = 1%nat /\
      _data (self_after r) =
        Some (udata_of (fpcurf0 lib x y k w (fst bbox) (snd bbox) (Some zero)))) /\
  (forall x y w bbox k s cls,
      let r := run (UnivariateSpline__init__ lib x y w bbox k s (KStr "bogus") false)
                   (new_uspline cls) in
      result r = inl unknown /\
      trace r = [] /\
      self_after r = new_uspline cls) /\
  (let r := run (LSQUnivariateSpline__init__ (scripted_curfit 0 0) Float
                   (arange 0 6) (arange 0 6) [Fin (5 # 2)] None (None, None) 1
                   (KStr "bogus") false)
                (new_uspline LSQUnivariateSpline) in
   result r = inl unknown /\
   solver_calls (trace r) = 1%nat /\
   has_fit (self_after r) = true).
Proof.
  cbv zeta. split; [|split].
  - intros x y w bbox k cls. unfold run.
    rewrite InterpolatedUnivariateSpline__init__run.
    cbn [finite_check_error]. cbv zeta. unfold store_then_ext.
    replace (dict_get ext_key_eqb _extrap_modes (KStr "bogus")) with (@None Z)
      by reflexivity.
    cbn [result self_after trace]. split; [reflexivity|]. split.
    + unfold solver_calls, curfit_warnings.
      destruct (silent_status _); reflexivity.
    + now rewrite after_reset_class_data.
  - intros x y w bbox k s cls. unfold run.
    rewrite UnivariateSpline__init__run. cbn [finite_check_fails andb].
    replace (dict_get ext_key_eqb _extrap_modes (KStr "bogus")) with (@None Z)
      by reflexivity.
    repeat split.
  - vm_compute. repeat split.
Qed.

(** ** The runs of the bivariate constructors *)

Lemma ends_are_extrema_run (O : Type) (x : list num) (o : O) tr :
  ends_are_extrema x o tr = mk_outcome (ends_are_extrema_value x) o tr.
Proof.
  unfold ends_are_extrema, ends_are_extrema_value. run_step.
  destruct (np_min x) as [lo|]; run_step; [|reflexivity].
  destruct (py_index x 0) as [x0|]; run_step; [|reflexivity].
  destruct (num_eqb lo x0); run_step; [|reflexivity].
  destruct (np_max x) as [hi|]; run_step; [|reflexivity].
  destruct (py_index x (-1)); reflexivity.
Qed.

Section BivariateRuns.
Variable lib : surfit_lib.

Lemma SmoothBivariateSpline__init__run x y z w bbox kx ky s eps o tr :
  SmoothBivariateSpline__init__ lib x y z w bbox kx ky s eps o tr =
    let f0 := fst (surfit_smth lib x y z w bbox kx ky s eps 1) in
    let f := smooth_settled lib x y z w bbox kx ky s eps in
    mk_outcome (inr tt) (stored (s_fp f) (surf_tck f kx ky) (kx, ky) o)
      (tr ++ [Call r_surfit_smth] ++ rerun_calls r_surfit_smth (s_ier f0)
          ++ surfit_warnings _surfit_messages (s_ier f)).
Proof.
  unfold SmoothBivariateSpline__init__, smooth_settled, rerun_calls,
    surfit_warnings, stored, surf_tck. run_step.
  destruct (surfit_smth lib x y z w bbox kx ky s eps 1) as [f0 wrk1].
  cbn [fst]. run_step.
  destruct (s_ier f0 >? 10); run_step.
  - destruct (surfit_smth lib x y z w bbox kx ky s eps (s_ier f0)) as [f1 wrk2].
    cbn [fst]. run_step.
    destruct (normal_return (s_ier f1)); run_step;
      rewrite <- ?app_assoc; cbn [app]; rewrite ?app_nil_r; reflexivity.
  - destruct (normal_return (s_ier f0)); run_step;
      rewrite <- ?app_assoc; cbn [app]; rewrite ?app_nil_r; reflexivity.
Qed.

Lemma RectBivariateSpline__init__run dx dy x y z bbox kx ky s o tr :
  RectBivariateSpline__init__ lib dx dy x y z bbox kx ky s o tr =
    match rect_validation dx dy x y z with
    | Some e => mk_outcome (inl e) o tr
    | None =>
        let f := regrid_smth lib x y (data (ravel z)) bbox kx ky s in
        if normal_return (s_ier f)
        then mk_outcome (inr tt) (stored (s_fp f) (surf_tck f kx ky) (kx, ky) o)
                        (tr ++ [Call r_regrid_smth])
        else mk_outcome
               (inl (ValueError (status_message _surfit_messages (Some (s_ier f)))))
               o (tr ++ [Call r_regrid_smth])
    end.
Proof.
  unfold RectBivariateSpline__init__, rect_validation, stored, surf_tck, shape_at.
  destruct (negb (all_positive (np_diff dx x))); run_step; [reflexivity|].
  destruct (negb (all_positive (np_diff dy y))); run_step; [reflexivity|].
  rewrite ends_are_extrema_run. run_step.
  destruct (ends_are_extrema_value x) as [e|[|]]; run_step; try reflexivity.
  rewrite ends_are_extrema_run. run_step.
  destruct (ends_are_extrema_value y) as [e|[|]]; run_step; try reflexivity.
  destruct (nth_error (shape z) 0) as [z0|]; run_step; [|reflexivity].
  destruct (negb (List.length x =? z0)%nat); run_step; [reflexivity|].
  destruct (nth_error (shape z) 1) as [z1|]; run_step; [|reflexivity].
  destruct (negb (List.length y =? z1)%nat); run_step; [reflexivity|].
  destruct (normal_return (s_ier _)); reflexivity.
Qed.
Lemma deficiency_message_surfit (O : Type) args (o : O) tr :
  deficiency_message _surfit_messages args o tr =
    mk_outcome (inr (Format (deficiency_format _surfit_messages) args)) o tr.
Proof. reflexivity. Qed.

Lemma deficiency_message_spherefit (O : Type) args (o : O) tr :
  deficiency_message _spherefit_messages args o tr =
    mk_outcome (inr (Format (deficiency_format _spherefit_messages) args)) o tr.
Proof. reflexivity. Qed.

Lemma LSQBivariateSpline__init__run x y z tx ty w bbox kx ky eps o tr :
  LSQBivariateSpline__init__ lib x y z tx ty w bbox kx ky eps o tr =
    match lsq_setup kx ky tx ty with
    | inl e => mk_outcome (inl e) o tr
    | inr (tx1, ty1) =>
        let f0 := surfit_lsq lib x y z tx1 ty1 w bbox kx ky eps 1 in
        let f := lsq_settled lib x y z tx1 ty1 w bbox kx ky eps in
        mk_outcome (inr tt) (stored (l_fp f) (l_tx f, l_ty f, l_c f) (kx, ky) o)
          (tr ++ [Call r_surfit_lsq] ++ rerun_calls r_surfit_lsq (l_ier f0)
              ++ lsq_surface_warnings tx ty kx ky (l_ier f))
    end.
Proof.
  unfold LSQBivariateSpline__init__, lsq_setup, lsq_settled, rerun_calls,
    lsq_surface_warnings, stored, zeros1. cbv zeta.
  destruct (2 * kx + 2 + len tx <? 0); run_step; [reflexivity|].
  destruct (2 * ky + 2 + len ty <? 0); run_step; [reflexivity|].
  destruct (np_assign_slice _ _ _ tx) as [tx1|]; run_step; [|reflexivity].
  destruct (np_assign_slice _ _ _ ty) as [ty1|]; run_step; [|reflexivity].
  set (f0 := surfit_lsq lib x y z tx1 ty1 w bbox kx ky eps 1).
  destruct (l_ier f0 >? 10); run_step.
  - set (f1 := surfit_lsq lib x y z (l_tx f0) (l_ty f0) w bbox kx ky eps (l_ier f0)).
    destruct (normal_return (l_ier f1)); run_step.
    + rewrite <- ?app_assoc; cbn [app]; rewrite ?app_nil_r; reflexivity.
    + destruct (l_ier f1 <? -2); run_step;
        rewrite ?deficiency_message_surfit; run_step;
        rewrite <- ?app_assoc; reflexivity.
  - destruct (normal_return (l_ier f0)); run_step.
    + rewrite <- ?app_assoc; cbn [app]; rewrite ?app_nil_r; reflexivity.
    + destruct (l_ier f0 <? -2); run_step;
        rewrite ?deficiency_message_surfit; run_step;
        rewrite <- ?app_assoc; reflexivity.
Qed.

Lemma SmoothSphereBivariateSpline__init__run theta phi r w s eps o tr :
  SmoothSphereBivariateSpline__init__ lib theta phi r w s eps o tr =
    let f := spherfit_smth lib theta phi r w s eps in
    if normal_return (s_ier f)
    then mk_outcome (inr tt) (stored (s_fp f) (sphere_tck f) (3, 3) o)
                    (tr ++ [Call r_spherfit_smth])
    else mk_outcome
           (inl (ValueError (status_message _spherefit_messages (Some (s_ier f)))))
           o (tr ++ [Call r_spherfit_smth]).
Proof.
  unfold SmoothSphereBivariateSpline__init__, stored, sphere_tck. run_step.
  destruct (normal_return (s_ier _)); reflexivity.
Qed.

Lemma LSQSphereBivariateSpline__init__run theta phi r tt tp w eps o tr :
  LSQSphereBivariateSpline__init__ lib theta phi r tt tp w eps o tr =
    match sphere_setup tt tp with
    | inl e => mk_outcome (inl e) o tr
    | inr (tt_, tp_) =>
        let f := spherfit_lsq lib theta phi r tt_ tp_ w eps in
        let o' := stored (l_fp f) (l_tx f, l_ty f, l_c f) (3, 3) o in
        if l_ier f <? -2
        then mk_outcome (inr Datatypes.tt) o'
               (tr ++ [Call r_spherfit_lsq; sphere_deficiency_warning tt tp (l_ier f)])
        else if normal_return (l_ier f)
        then mk_outcome (inr Datatypes.tt) o' (tr ++ [Call r_spherfit_lsq])
        else mk_outcome
               (inl (ValueError (status_message _spherefit_messages (Some (l_ier f)))))
               o (tr ++ [Call r_spherfit_lsq])
    end.
Proof.
  unfold LSQSphereBivariateSpline__init__, sphere_setup, stored, zeros1,
    sphere_deficiency_warning. cbv zeta.
  destruct (8 + len tt <? 0); run_step; [reflexivity|].
  destruct (8 + len tp <? 0); run_step; [reflexivity|].
  destruct (np_assign_slice _ _ _ tt) as [tt_|]; run_step; [|reflexivity].
  destruct (np_assign_slice _ _ _ tp) as [tp_|]; run_step; [|reflexivity].
  match goal with |- context [l_ier ?f <? -2] => set (f0 := f) end.
  destruct (l_ier f0 <? -2); run_step.
  - rewrite deficiency_message_spherefit. run_step.
    rewrite <- ?app_assoc. reflexivity.
  - destruct (normal_return (l_ier f0)); run_step; reflexivity.
Qed.

Lemma RectSphereBivariateSpline__init__run
      du dv u v r s pole_continuity pole_values pole_exact pole_flat o tr :
  RectSphereBivariateSpline__init__ lib du dv u v r s pole_continuity pole_values
                                    pole_exact pole_flat o tr =
    match rect_sphere_validation du dv u v r pole_continuity pole_flat with
    | Some e => mk_outcome (inl e) o tr
    | None =>
        let f := regrid_smth_spher lib (sphere_iopt pole_continuity)
                   (sphere_ider pole_values pole_exact pole_flat)
                   u v (data (ravel r))
                   (fst (pole_pair pole_values)) (snd (pole_pair pole_values)) s in
        if normal_return (s_ier f)
        then mk_outcome (inr tt) (stored (s_fp f) (sphere_tck f) (3, 3) o)
                        (tr ++ [Call r_regrid_smth_spher])
        else mk_outcome
               (inl (ValueError (status_message _spfit_messages (Some (s_ier f)))))
               o (tr ++ [Call r_regrid_smth_spher])
    end.
Proof.
  unfold RectSphereBivariateSpline__init__, rect_sphere_validation, stored,
    sphere_tck, shape_at, sphere_iopt, sphere_ider, pole_pair.
  destruct pole_values as [|pv|r0 r1]; cbn [fst snd];
    destruct (negb (all_positive (np_diff du u))); run_step; try reflexivity;
    destruct (negb (all_positive (np_diff dv v))); run_step; try reflexivity;
    destruct (nth_error (shape r) 0) as [n0|]; run_step; try reflexivity;
    destruct (negb (List.length u =? n0)%nat); run_step; try reflexivity;
    destruct (nth_error (shape r) 1) as [n1|]; run_step; try reflexivity;
    destruct (negb (List.length v =? n1)%nat); run_step; try reflexivity;
    destruct (negb (snd (flag_pair pole_continuity)) && snd (flag_pair pole_flat));
    run_step; try reflexivity;
    destruct (negb (fst (flag_pair pole_continuity)) && fst (flag_pair pole_flat));
    run_step; try reflexivity;
    destruct (normal_return (s_ier _)); reflexivity.
Qed.
End BivariateRuns.

(** ** Counting the calls of the fitting routines *)

Lemma solver_events_surfit_warnings table ier :
  solver_events (surfit_warnings table ier) = [].
Proof. unfold surfit_warnings. destruct (normal_return ier); reflexivity. Qed.

Lemma solver_events_lsq_surface_warnings tx ty kx ky ier :
  solver_events (lsq_surface_warnings tx ty kx ky ier) = [].
Proof.
  unfold lsq_surface_warnings. destruct (normal_return ier); [reflexivity|].
  destruct (ier <? -2); reflexivity.
Qed.

Lemma warnings_of_app (a b : list event) :
  warnings_of (a ++ b) = warnings_of a ++ warnings_of b.
Proof. apply flat_map_app. Qed.

Lemma solver_calls_events tr : solver_calls tr = List.length (solver_events tr).
Proof. reflexivity. Qed.

(** C2, as stated, fails: when the first fit reports status 1 the
    constructor of UnivariateSpline enters the fitting routines twice, and
    so does the constructor of SmoothBivariateSpline when the first fit
    reports a status above 10. *)
Lemma C2_counterexample :
  solver_events
    (trace (run (UnivariateSpline__init__ (scripted_curfit 1 0)
                   (arange 0 6) (arange 0 6) None (None, None) 3 None (KInt 0) false)
                (new_uspline UnivariateSpline)))
  = [Call r_fpcurf0; Call r_fpcurf1] /\
  solver_events
    (trace (run (SmoothBivariateSpline__init__ (scripted_surfit 11 0)
                   (arange 0 6) (arange 0 6) (arange 0 6) None
                   (None, None, None, None) 1 1 None None)
                new_bspline))
  = [Call r_surfit_smth; Call r_surfit_smth].
Proof. split; reflexivity. Qed.

(** C2, amended.  A construction or smoothing-factor adjustment enters
    the fitting routines at most twice.  It enters none when it raises in
    its own argument checks, and [set_smoothing_factor] enters none when
    the stored smoothing factor is -1.  Otherwise it calls its routine
    once, and once more in two situations.
    - The univariate fit ([fpcurf0] in [UnivariateSpline.__init__],
      [fpcurf1] in [set_smoothing_factor]) returned status 1: [fpcurf1] is
      then called on the returned tuple with [t], [c], [fpint] and
      [nrdata] resized to [nest = m + k + 1], and its result is what the
      object stores; when [m + k + 1] is negative numpy refuses to resize,
      ValueError is raised and there is no second call.  With another
      first status there is no second call and the first result is stored.
    - The surface fit ([surfit_smth] in [SmoothBivariateSpline],
      [surfit_lsq] in [LSQBivariateSpline]) returned a status above 10: the
      same routine is then called with [lwrk2] set to that status (and, for
      [surfit_lsq], on the knots the first call returned), and its result
      is what the object stores.
    There is no third call, and the other constructors call their fitting
    routine at most once. *)
Theorem C2_solver_calls (lib : curfit_lib) (slib : surfit_lib) :
  (forall x y w bbox k s key check_finite o,
      let r := run (UnivariateSpline__init__ lib x y w bbox k s key check_finite) o in
      let data0 := fpcurf0 lib x y k w (fst bbox) (snd bbox) s in
      match solver_events (trace r) with
      | [] => raised r = true /\ self_after r = o
      | first :: more =>
          first = Call r_fpcurf0 /\
          if f_ier data0 =? 1 then
            match resized_args data0 (len (f_x data0) + f_k data0 + 1) with
            | Some args =>
                more = [Call r_fpcurf1] /\
                _data (self_after r) = Some (udata_of (fpcurf1 lib args))
            | None =>
                more = [] /\ len (f_x data0) + f_k data0 + 1 < 0 /\
                result r = inl negative_size_error
            end
          else more = [] /\ _data (self_after r) = Some (udata_of data0)
      end) /\
  (forall s cls sc d ea e,
      let o := mk_uspline cls sc (Some d) ea e in
      let r := run (set_smoothing_factor lib s) o in
      let data0 := fpcurf1 lib (smoothing_args d s) in
      if opt_num_eqb (d_s d) (-1) then solver_events (trace r) = [] /\ self_after r = o
      else
        if f_ier data0 =? 1 then
          match resized_args data0 (len (f_x data0) + f_k data0 + 1) with
          | Some args =>
              solver_events (trace r) = [Call r_fpcurf1; Call r_fpcurf1] /\
              _data (self_after r) = Some (udata_of (fpcurf1 lib args))
          | None =>
              solver_events (trace r) = [Call r_fpcurf1] /\
              len (f_x data0) + f_k data0 + 1 < 0 /\
              result r = inl negative_size_error
          end
        else solver_events (trace r) = [Call r_fpcurf1] /\
             _data (self_after r) = Some (udata_of data0)) /\
  (forall data nest,
      match resized_args data nest with
      | Some args =>
          0 <= nest /\
          np_resize zero (f_t data) nest = Some (d_t args) /\
          np_resize zero (f_c data) nest = Some (d_c args) /\
          option_map Some (np_resize zero (f_fpint data) nest) = Some (d_fpint args) /\
          option_map Some (np_resize 0 (f_nrdata data) nest) = Some (d_nrdata args) /\
          (d_x args, d_y args, d_w args, d_xb args, d_xe args, d_k args, d_s args,
           d_n args, d_fp args, d_ier args) =
          (Some (f_x data), Some (f_y data), Some (f_w data), Some (f_xb data),
           Some (f_xe data), f_k data, Some (f_s data), f_n data, Some (f_fp data),
           Some (f_ier data))
      | None => nest < 0
      end) /\
  (forall x y w bbox k key check_finite o,
      (solver_calls (trace (run (InterpolatedUnivariateSpline__init__ lib x y w bbox k key
                                   check_finite) o)) <= 1)%nat) /\
  (forall dt x y t w bbox k key check_finite o,
      (solver_calls (trace (run (LSQUnivariateSpline__init__ lib dt x y t w bbox k key
                                   check_finite) o)) <= 1)%nat) /\
  (forall x y z w bbox kx ky s eps o,
      let r := run (SmoothBivariateSpline__init__ slib x y z w bbox kx ky s eps) o in
      let f0 := fst (surfit_smth slib x y z w bbox kx ky s eps 1) in
      let f1 := fst (surfit_smth slib x y z w bbox kx ky s eps (s_ier f0)) in
      if s_ier f0 >? 10
      then solver_events (trace r) = [Call r_surfit_smth; Call r_surfit_smth] /\
           fp (self_after r) = Some (s_fp f1) /\
           tck (self_after r) = Some (surf_tck f1 kx ky)
      else solver_events (trace r) = [Call r_surfit_smth] /\
           fp (self_after r) = Some (s_fp f0) /\
           tck (self_after r) = Some (surf_tck f0 kx ky)) /\
  (forall x y z tx ty w bbox kx ky eps o,
      let r := run (LSQBivariateSpline__init__ slib x y z tx ty w bbox kx ky eps) o in
      match lsq_setup kx ky tx ty with
      | inl e => solver_events (trace r) = [] /\ result r = inl e /\ self_after r = o
      | inr (tx1, ty1) =>
          let f0 := surfit_lsq slib x y z tx1 ty1 w bbox kx ky eps 1 in
          let f1 := surfit_lsq slib x y z (l_tx f0) (l_ty f0) w bbox kx ky eps
                               (l_ier f0) in
          if l_ier f0 >? 10
          then solver_events (trace r) = [Call r_surfit_lsq; Call r_surfit_lsq] /\
               fp (self_after r) = Some (l_fp f1) /\
               tck (self_after r) = Some (l_tx f1, l_ty f1, l_c f1)
          else solver_events (trace r) = [Call r_surfit_lsq] /\
               fp (self_after r) = Some (l_fp f0) /\
               tck (self_after r) = Some (l_tx f0, l_ty f0, l_c f0)
      end) /\
  (forall dx dy x y z bbox kx ky s o,
      (solver_calls (trace (run (RectBivariateSpline__init__ slib dx dy x y z bbox kx ky
                                   s) o))
       <= 1)%nat) /\
  (forall theta phi r w s eps o,
      solver_calls (trace (run (SmoothSphereBivariateSpline__init__ slib theta phi r w s
                                  eps) o)) = 1%nat) /\
  (forall theta phi r tt tp w eps o,
      (solver_calls (trace (run (LSQSphereBivariateSpline__init__ slib theta phi r tt tp w
                                   eps) o)) <= 1)%nat) /\
  (forall du dv u v r s pc pv pe pf o,
      (solver_calls (trace (run (RectSphereBivariateSpline__init__ slib du dv u v r s pc
                                   pv pe pf) o)) <= 1)%nat).
Proof.
  repeat apply conj.
  - intros x y w bbox k s key check_finite o. cbv zeta. unfold run.
    rewrite UnivariateSpline__init__run.
    destruct (finite_check_fails check_finite x y); [split; reflexivity|].
    destruct (dict_get ext_key_eqb _extrap_modes key); [|split; reflexivity].
    cbv zeta. unfold settled, settle_calls. fold (max_nest (fpcurf0 lib x y k w
      (fst bbox) (snd bbox) s)).
    destruct (f_ier _ =? 1).
    + destruct (resized_args _ _) as [args|] eqn:Er; cbn [result self_after trace].
      * rewrite !solver_events_app, solver_events_curfit_warnings,
          after_reset_class_data. repeat split.
      * apply resized_args_none in Er. repeat split. exact Er.
    + cbn [result self_after trace].
      rewrite !solver_events_app, solver_events_curfit_warnings,
        after_reset_class_data. repeat split.
  - intros s cls sc d ea e. cbv zeta. unfold run.
    rewrite set_smoothing_factor_run with (d := d) by reflexivity.
    destruct (opt_num_eqb (d_s d) (-1)); [split; reflexivity|].
    cbv zeta. unfold settled, settle_calls.
    fold (max_nest (fpcurf1 lib (smoothing_args d s))).
    destruct (f_ier _ =? 1).
    + destruct (resized_args _ _) as [args|] eqn:Er; cbn [result self_after trace].
      * rewrite !solver_events_app, solver_events_curfit_warnings,
          after_reset_class_data. repeat split.
      * apply resized_args_none in Er. repeat split. exact Er.
    + cbn [result self_after trace].
      rewrite !solver_events_app, solver_events_curfit_warnings,
        after_reset_class_data. repeat split.
  - intros data nest. unfold resized_args, np_resize.
    destruct (nest <? 0) eqn:E.
    + now apply Z.ltb_lt in E.
    + apply Z.ltb_ge in E. cbn [d_t d_c d_fpint d_nrdata option_map]. repeat split.
      exact E.
  - intros x y w bbox k key check_finite o. unfold run.
    rewrite InterpolatedUnivariateSpline__init__run.
    destruct (finite_check_error _ _ _ _ _ _); [cbn; lia|].
    cbv zeta. unfold store_then_ext.
    destruct (dict_get ext_key_eqb _extrap_modes key); cbn [trace];
      rewrite solver_calls_events, !solver_events_app, solver_events_curfit_warnings;
      cbn; lia.
  - intros dt x y t w bbox k key check_finite o. unfold run.
    rewrite LSQUnivariateSpline__init__run.
    destruct (finite_check_error _ _ _ _ _ _); [cbn; lia|].
    destruct (match fst bbox with Some _ => _ | None => _ end); [|cbn; lia].
    destruct (match snd bbox with Some _ => _ | None => _ end); [|cbn; lia].
    cbv zeta. destruct (knot_steps _ _ _); [|cbn; lia].
    destruct (negb (all_positive _)); [cbn; lia|].
    destruct (negb (fpchec _ _ _ _ =? 0)); [cbn; lia|].
    unfold store_then_ext.
    destruct (dict_get ext_key_eqb _extrap_modes key); cbn [trace];
      rewrite solver_calls_events, !solver_events_app, solver_events_curfit_warnings;
      cbn; lia.
  - intros x y z w bbox kx ky s eps o. cbv zeta. unfold run.
    rewrite SmoothBivariateSpline__init__run. cbv zeta. cbn [trace self_after].
    rewrite !solver_events_app, solver_events_surfit_warnings, app_nil_r.
    unfold rerun_calls, smooth_settled. destruct (s_ier _ >? 10); repeat split.
  - intros x y z tx ty w bbox kx ky eps o. cbv zeta. unfold run.
    rewrite LSQBivariateSpline__init__run.
    destruct (lsq_setup kx ky tx ty) as [e|[tx1 ty1]]; [repeat split|].
    cbv zeta. cbn [trace self_after].
    rewrite !solver_events_app, solver_events_lsq_surface_warnings, app_nil_r.
    unfold rerun_calls, lsq_settled. destruct (l_ier _ >? 10); repeat split.
  - intros dx dy x y z bbox kx ky s o. unfold run.
    rewrite RectBivariateSpline__init__run.
    destruct (rect_validation dx dy x y z); [cbn; lia|].
    cbv zeta. destruct (normal_return _); cbn; lia.
  - intros theta phi r w s eps o. unfold run.
    rewrite SmoothSphereBivariateSpline__init__run.
    cbv zeta. destruct (normal_return _); reflexivity.
  - intros theta phi r tt tp w eps o. unfold run.
    rewrite LSQSphereBivariateSpline__init__run.
    destruct (sphere_setup tt tp) as [e|[tt_ tp_]]; [cbn; lia|].
    cbv zeta. destruct (l_ier _ <? -2); [cbn; lia|].
    destruct (normal_return _); cbn; lia.
  - intros du dv u v r s pc pv pe pf o. unfold run.
    rewrite RectSphereBivariateSpline__init__run.
    destruct (rect_sphere_validation du dv u v r pc pf); [cbn; lia|].
    cbv zeta. destruct (normal_return _); cbn; lia.
Qed.

(** ** The interpretation of the status *)

Lemma warnings_of_curfit_warnings ier :
  warnings_of (curfit_warnings ier) =
    if silent_status ier then [] else [status_message _curfit_messages ier].
Proof. unfold curfit_warnings. destruct (silent_status ier); reflexivity. Qed.

Lemma warnings_of_settle_calls data : warnings_of (settle_calls data) = [].
Proof. unfold settle_calls. destruct (f_ier data =? 1); reflexivity. Qed.

Lemma warnings_of_rerun_calls r ier : warnings_of (rerun_calls r ier) = [].
Proof. unfold rerun_calls. destruct (ier >? 10); reflexivity. Qed.

Lemma warnings_of_surfit_warnings table ier :
  warnings_of (surfit_warnings table ier) =
    if normal_return ier then [] else [status_message table (Some ier)].
Proof. unfold surfit_warnings. destruct (normal_return ier); reflexivity. Qed.

(** C1, as stated, fails twice.  With status 10 the constructor of
    UnivariateSpline raises nothing: it warns and stores the tuple the
    routine returned.  With the positive status 1 the constructor of
    RectBivariateSpline warns about nothing and stores nothing: it
    raises. *)
Lemma C1_counterexample :
  let r := run (UnivariateSpline__init__ (scripted_curfit 10 0)
                  (arange 0 6) (arange 0 6) None (None, None) 3 None (KInt 0) false)
               (new_uspline UnivariateSpline) in
  let q := run (RectBivariateSpline__init__ (scripted_surfit 1 0) Float Float
                  (arange 0 4) (arange 0 4) (np_zeros [4%nat; 4%nat])
                  (None, None, None, None) 3 3 zero)
               new_bspline in
  (option_map d_ier (_data (self_after r)) = Some (Some 10) /\
   result r = inr tt /\
   warnings_of (trace r) = [status_message _curfit_messages (Some 10)]) /\
  (solver_calls (trace q) = 1%nat /\
   result q = inl (ValueError (status_message _surfit_messages (Some 1))) /\
   self_after q = new_bspline /\
   warnings_of (trace q) = []).
Proof. vm_compute. repeat split. Qed.

(** C1, amended.  The status that is interpreted is that of the last call
    of the fitting routine: [UnivariateSpline.__init__] and
    [set_smoothing_factor] fit again when the first status is 1,
    [SmoothBivariateSpline] and [LSQBivariateSpline] when it is above 10,
    and the first status is then not interpreted at all.  (When a first
    status of 1 cannot be followed by the refit, [m + k + 1] being
    negative, numpy's ValueError is raised; nothing is then interpreted,
    warned about or stored.)  The status is interpreted in one of three
    ways, by class; in all of them 0, -1 and -2 are accepted silently.
    - The univariate classes (every fit of theirs ends with
      [_reset_class]), [SmoothBivariateSpline] and [LSQBivariateSpline]
      store the result whatever the status and give one warning for every
      status other than
      0, -1, -2, status 10 included: the table's text, or 'ier=<status>'
      for a status the table lacks, or, in [LSQBivariateSpline] for a
      status below -2, the table's rank deficiency text with the
      deficiency as its argument.
    - [RectBivariateSpline], [SmoothSphereBivariateSpline] and
      [RectSphereBivariateSpline] never warn: every other status, the
      positive ones included, raises ValueError with the table's text or
      'ier=<status>', and nothing is stored.
    - [LSQSphereBivariateSpline] warns and stores below -2 and raises,
      storing nothing, on every remaining status. *)
Theorem C1_status_interpretation (lib : curfit_lib) (slib : surfit_lib) :
  (forall cls sc d ea e,
      let o := mk_uspline cls sc (Some d) ea e in
      let r := run _reset_class o in
      result r = inr tt /\ _data (self_after r) = Some d /\
      trace r = if silent_status (d_ier d) then []
                else [Warn UserWarning (status_message _curfit_messages (d_ier d))]) /\
  (forall v, silent_status (Some v) = (v =? 0) || (v =? -1) || (v =? -2)) /\
  (forall x y w bbox k s key check_finite o,
      let r := run (UnivariateSpline__init__ lib x y w bbox k s key check_finite) o in
      let data0 := fpcurf0 lib x y k w (fst bbox) (snd bbox) s in
      match result r with
      | inl _ => warnings_of (trace r) = [] /\ _data (self_after r) = _data o
      | inr _ =>
          exists f,
            (if f_ier data0 =? 1
             then exists args,
                 resized_args data0 (len (f_x data0) + f_k data0 + 1) = Some args /\
                 f = fpcurf1 lib args
             else f = data0) /\
            _data (self_after r) = Some (udata_of f) /\
            warnings_of (trace r) =
              if (f_ier f =? 0) || (f_ier f =? -1) || (f_ier f =? -2) then []
              else [status_message _curfit_messages (Some (f_ier f))]
      end) /\
  (forall s cls sc d ea e,
      let o := mk_uspline cls sc (Some d) ea e in
      let r := run (set_smoothing_factor lib s) o in
      let data0 := fpcurf1 lib (smoothing_args d s) in
      if opt_num_eqb (d_s d) (-1) then solver_events (trace r) = []
      else match result r with
           | inl _ => warnings_of (trace r) = [] /\ self_after r = o
           | inr _ =>
               exists f,
                 (if f_ier data0 =? 1
                  then exists args,
                      resized_args data0 (len (f_x data0) + f_k data0 + 1) = Some args /\
                      f = fpcurf1 lib args
                  else f = data0) /\
                 _data (self_after r) = Some (udata_of f) /\
                 warnings_of (trace r) =
                   if (f_ier f =? 0) || (f_ier f =? -1) || (f_ier f =? -2) then []
                   else [status_message _curfit_messages (Some (f_ier f))]
           end) /\
  (forall x y w bbox k key check_finite o,
      let r := run (InterpolatedUnivariateSpline__init__ lib x y w bbox k key
                      check_finite) o in
      let f := fpcurf0 lib x y k w (fst bbox) (snd bbox) (Some zero) in
      match solver_events (trace r) with
      | [] => warnings_of (trace r) = [] /\ self_after r = o
      | _ =>
          _data (self_after r) = Some (udata_of f) /\
          warnings_of (trace r) =
            if (f_ier f =? 0) || (f_ier f =? -1) || (f_ier f =? -2) then []
            else [status_message _curfit_messages (Some (f_ier f))]
      end) /\
  (forall dt x y t w bbox k key check_finite o,
      let r := run (LSQUnivariateSpline__init__ lib dt x y t w bbox k key
                      check_finite) o in
      match solver_events (trace r) with
      | [] => warnings_of (trace r) = [] /\ self_after r = o
      | _ =>
          exists xb xe,
            let f := fpcurfm1 lib x y k (padded_knots xb xe k t) w xb xe in
            match fst bbox with Some b => Some b | None => py_index x 0 end = Some xb /\
            match snd bbox with Some b => Some b | None => py_index x (-1) end
              = Some xe /\
            _data (self_after r) = Some (lsq_data f) /\
            warnings_of (trace r) =
              if (f_ier f =? 0) || (f_ier f =? -1) || (f_ier f =? -2) then []
              else [status_message _curfit_messages (Some (f_ier f))]
      end) /\
  (forall x y z w bbox kx ky s eps o,
      let r := run (SmoothBivariateSpline__init__ slib x y z w bbox kx ky s eps) o in
      let f0 := fst (surfit_smth slib x y z w bbox kx ky s eps 1) in
      let f := if s_ier f0 >? 10
               then fst (surfit_smth slib x y z w bbox kx ky s eps (s_ier f0))
               else f0 in
      result r = inr tt /\
      self_after r = stored (s_fp f) (surf_tck f kx ky) (kx, ky) o /\
      warnings_of (trace r) =
        if (s_ier f =? 0) || (s_ier f =? -1) || (s_ier f =? -2) then []
        else [status_message _surfit_messages (Some (s_ier f))]) /\
  (forall x y z tx ty w bbox kx ky eps o,
      let r := run (LSQBivariateSpline__init__ slib x y z tx ty w bbox kx ky eps) o in
      match lsq_setup kx ky tx ty with
      | inl e => result r = inl e /\ trace r = [] /\ self_after r = o
      | inr (tx1, ty1) =>
          let f0 := surfit_lsq slib x y z tx1 ty1 w bbox kx ky eps 1 in
          let f := if l_ier f0 >? 10
                   then surfit_lsq slib x y z (l_tx f0) (l_ty f0) w bbox kx ky eps
                                   (l_ier f0)
                   else f0 in
          let nx := 2 * kx + 2 + len tx in
          let ny := 2 * ky + 2 + len ty in
          result r = inr tt /\
          self_after r = stored (l_fp f) (l_tx f, l_ty f, l_c f) (kx, ky) o /\
          warnings_of (trace r) =
            if (l_ier f =? 0) || (l_ier f =? -1) || (l_ier f =? -2) then []
            else if l_ier f <? -2
            then [Format (dict_get_default Z.eqb _surfit_messages (-3) "")
                         [AInt ((nx - kx - 1) * (ny - ky - 1) + l_ier f)]]
            else [status_message _surfit_messages (Some (l_ier f))]
      end) /\
  (forall dx dy x y z bbox kx ky s o,
      let r := run (RectBivariateSpline__init__ slib dx dy x y z bbox kx ky s) o in
      match rect_validation dx dy x y z with
      | Some e => result r = inl e /\ trace r = [] /\ self_after r = o
      | None =>
          let f := regrid_smth slib x y (data (ravel z)) bbox kx ky s in
          trace r = [Call r_regrid_smth] /\
          if (s_ier f =? 0) || (s_ier f =? -1) || (s_ier f =? -2)
          then result r = inr tt /\
               self_after r = stored (s_fp f) (surf_tck f kx ky) (kx, ky) o
          else result r =
                 inl (ValueError (status_message _surfit_messages (Some (s_ier f)))) /\
               self_after r = o
      end) /\
  (forall theta phi r0 w s eps o,
      let r := run (SmoothSphereBivariateSpline__init__ slib theta phi r0 w s eps) o in
      let f := spherfit_smth slib theta phi r0 w s eps in
      trace r = [Call r_spherfit_smth] /\
      if (s_ier f =? 0) || (s_ier f =? -1) || (s_ier f =? -2)
      then result r = inr tt /\ self_after r = stored (s_fp f) (sphere_tck f) (3, 3) o
      else result r =
             inl (ValueError (status_message _spherefit_messages (Some (s_ier f)))) /\
           self_after r = o) /\
  (forall du dv u v r0 s pc pv pe pf o,
      let r := run (RectSphereBivariateSpline__init__ slib du dv u v r0 s pc pv pe pf) o in
      match rect_sphere_validation du dv u v r0 pc pf with
      | Some e => result r = inl e /\ trace r = [] /\ self_after r = o
      | None =>
          let f := regrid_smth_spher slib (sphere_iopt pc) (sphere_ider pv pe pf)
                     u v (data (ravel r0))
                     (fst (pole_pair pv)) (snd (pole_pair pv)) s in
          trace r = [Call r_regrid_smth_spher] /\
          if (s_ier f =? 0) || (s_ier f =? -1) || (s_ier f =? -2)
          then result r = inr tt /\ self_after r = stored (s_fp f) (sphere_tck f) (3, 3) o
          else result r =
                 inl (ValueError (status_message _spfit_messages (Some (s_ier f)))) /\
               self_after r = o
      end) /\
  (forall theta phi r0 tt tp w eps o,
      let r := run (LSQSphereBivariateSpline__init__ slib theta phi r0 tt tp w eps) o in
      match sphere_setup tt tp with
      | inl e => result r = inl e /\ trace r = [] /\ self_after r = o
      | inr (tt_, tp_) =>
          let f := spherfit_lsq slib theta phi r0 tt_ tp_ w eps in
          let o' := stored (l_fp f) (l_tx f, l_ty f, l_c f) (3, 3) o in
          if l_ier f <? -2
          then result r = inr Datatypes.tt /\ self_after r = o' /\
               trace r =
                 [Call r_spherfit_lsq;
                  Warn UserWarning
                    (Format (dict_get_default Z.eqb _spherefit_messages (-3) "")
                       [AInt (6 + (8 + len tt - 8) * (8 + len tp - 7) + l_ier f);
                        AInt (- l_ier f)])]
          else if (l_ier f =? 0) || (l_ier f =? -1) || (l_ier f =? -2)
          then result r = inr Datatypes.tt /\ self_after r = o' /\
               trace r = [Call r_spherfit_lsq]
          else result r =
                 inl (ValueError (status_message _spherefit_messages (Some (l_ier f)))) /\
               self_after r = o /\ trace r = [Call r_spherfit_lsq]
      end).
Proof.
  repeat apply conj.
  - intros cls sc d ea e. cbv zeta. unfold run.
    rewrite _reset_class_run with (d := d) by reflexivity.
    cbn [result self_after trace app]. rewrite after_reset_class_data.
    unfold curfit_warnings. repeat split.
  - reflexivity.
  - intros x y w bbox k s key check_finite o. cbv zeta. unfold run.
    rewrite UnivariateSpline__init__run.
    destruct (finite_check_fails check_finite x y); [split; reflexivity|].
    destruct (dict_get ext_key_eqb _extrap_modes key); [|split; reflexivity].
    cbv zeta. destruct (settled lib _) as [err|f] eqn:Es; cbn [result self_after trace].
    + split; reflexivity.
    + exists f. split; [exact (settled_inr _ _ Es)|].
      rewrite after_reset_class_data. split; [reflexivity|].
      rewrite !warnings_of_app, warnings_of_settle_calls, warnings_of_curfit_warnings.
      reflexivity.
  - intros s cls sc d ea e. cbv zeta. unfold run.
    rewrite set_smoothing_factor_run with (d := d) by reflexivity.
    destruct (opt_num_eqb (d_s d) (-1)); [reflexivity|].
    cbv zeta. destruct (settled lib _) as [err|f] eqn:Es; cbn [result self_after trace].
    + split; reflexivity.
    + exists f. split; [exact (settled_inr _ _ Es)|].
      rewrite after_reset_class_data. split; [reflexivity|].
      rewrite !warnings_of_app, warnings_of_settle_calls, warnings_of_curfit_warnings.
      reflexivity.
  - intros x y w bbox k key check_finite o. cbv zeta. unfold run.
    rewrite InterpolatedUnivariateSpline__init__run.
    destruct (finite_check_error _ _ _ _ _ _); [split; reflexivity|].
    cbv zeta. unfold store_then_ext.
    destruct (dict_get ext_key_eqb _extrap_modes key); cbn [trace self_after];
      rewrite !warnings_of_app, warnings_of_curfit_warnings,
        !solver_events_app, solver_events_curfit_warnings;
      cbn [solver_events filter is_solver_call is_solver app];
      cbn [_data set_ext]; rewrite after_reset_class_data;
      split; reflexivity.
  - intros dt x y t w bbox k key check_finite o. cbv zeta. unfold run.
    rewrite LSQUnivariateSpline__init__run.
    destruct (finite_check_error _ _ _ _ _ _); [split; reflexivity|].
    destruct (match fst bbox with Some _ => _ | None => _ end) as [xb|] eqn:Eb;
      [|split; reflexivity].
    destruct (match snd bbox with Some _ => _ | None => _ end) as [xe|] eqn:Ee;
      [|split; reflexivity].
    cbv zeta. destruct (knot_steps _ _ _); [|split; reflexivity].
    destruct (negb (all_positive _)); [split; reflexivity|].
    destruct (negb (fpchec _ _ _ _ =? 0)); [split; reflexivity|].
    unfold store_then_ext.
    destruct (dict_get ext_key_eqb _extrap_modes key); cbn [trace self_after];
      rewrite !warnings_of_app, warnings_of_curfit_warnings,
        !solver_events_app, solver_events_curfit_warnings;
      cbn [solver_events filter is_solver_call is_solver app];
      exists xb, xe; cbv zeta; cbn [_data set_ext]; rewrite after_reset_class_data;
      repeat split.
  - intros x y z w bbox kx ky s eps o. cbv zeta. unfold run.
    rewrite SmoothBivariateSpline__init__run. cbv zeta. cbn [result self_after trace].
    repeat split.
    rewrite !warnings_of_app, warnings_of_rerun_calls, warnings_of_surfit_warnings.
    reflexivity.
  - intros x y z tx ty w bbox kx ky eps o. cbv zeta. unfold run.
    rewrite LSQBivariateSpline__init__run.
    destruct (lsq_setup kx ky tx ty) as [e|[tx1 ty1]]; [repeat split|].
    cbv zeta. cbn [result self_after trace]. repeat split.
    rewrite !warnings_of_app, warnings_of_rerun_calls.
    unfold lsq_settled, lsq_surface_warnings, deficiency_format, normal_return.
    cbn [warnings_of flat_map app].
    match goal with |- context [if ?c then [] else _] => destruct c end;
      [reflexivity|].
    match goal with |- context [?v <? -2] => destruct (v <? -2) end; reflexivity.
  - intros dx dy x y z bbox kx ky s o. cbv zeta. unfold run.
    rewrite RectBivariateSpline__init__run.
    destruct (rect_validation dx dy x y z); [repeat split|].
    cbv zeta. fold (normal_return (s_ier (regrid_smth slib x y (data (ravel z)) bbox
      kx ky s))). destruct (normal_return _); repeat split.
  - intros theta phi r0 w s eps o. cbv zeta. unfold run.
    rewrite SmoothSphereBivariateSpline__init__run.
    cbv zeta. fold (normal_return (s_ier (spherfit_smth slib theta phi r0 w s eps))).
    destruct (normal_return _); repeat split.
  - intros du dv u v r0 s pc pv pe pf o. cbv zeta. unfold run.
    rewrite RectSphereBivariateSpline__init__run.
    destruct (rect_sphere_validation du dv u v r0 pc pf); [repeat split|].
    cbv zeta.
    match goal with |- context [normal_return ?v] => fold (normal_return v) end.
    destruct (normal_return _); repeat split.
  - intros theta phi r0 tt tp w eps o. cbv zeta. unfold run.
    rewrite LSQSphereBivariateSpline__init__run.
    destruct (sphere_setup tt tp) as [e|[tt_ tp_]]; [repeat split|].
    cbv zeta. destruct (l_ier _ <? -2); [repeat split|].
    match goal with |- context [normal_return ?v] => fold (normal_return v) end.
    destruct (normal_return _); repeat split.
Qed.

(** ** Evaluation of an empty input *)

Lemma shape_size_cons (d : nat) (s : shape_t) :
  shape_size (d :: s) = (d * shape_size s)%nat.
Proof. reflexivity. Qed.

Lemma shape_size_app (a b : shape_t) :
  shape_size (a ++ b) = (shape_size a * shape_size b)%nat.
Proof.
  induction a as [|d a IH].
  - cbn [app]. change (shape_size []) with 1%nat. lia.
  - rewrite <- app_comm_cons, !shape_size_cons, IH. lia.
Qed.

Lemma shape_size_rev (s : shape_t) : shape_size (rev s) = shape_size s.
Proof.
  induction s as [|d s IH]; [reflexivity|].
  cbn [rev]. rewrite shape_size_app, IH, !shape_size_cons.
  change (shape_size []) with 1%nat. lia.
Qed.

Lemma broadcast_rev_empty (s1 s2 s : shape_t) :
  broadcast_rev s1 s2 = Some s ->
  shape_size s1 = 0%nat \/ shape_size s2 = 0%nat -> shape_size s = 0%nat.
Proof.
  revert s2 s. induction s1 as [|d1 r1 IH]; intros s2 s H Hz.
  - cbn in H. change (shape_size []) with 1%nat in Hz.
    destruct s2; inversion H; subst; destruct Hz; try lia; assumption.
  - destruct s2 as [|d2 r2].
    + cbn in H. inversion H; subst. change (shape_size []) with 1%nat in Hz.
      destruct Hz; [assumption|lia].
    + cbn in H. destruct (broadcast_rev r1 r2) as [r|] eqn:E; [|discriminate].
      specialize (IH r2 r E).
      rewrite !shape_size_cons in Hz.
      assert (Hcases : (d1 = 0 \/ d2 = 0 \/ shape_size r = 0)%nat).
      { destruct Hz as [Hz|Hz]; apply Nat.eq_mul_0 in Hz; destruct Hz as [Hz|Hz];
          auto. }
      destruct (d1 =? d2)%nat eqn:E12.
      { apply Nat.eqb_eq in E12. inversion H; subst. rewrite shape_size_cons.
        destruct Hcases as [H0|[H0|H0]]; rewrite ?H0; subst; nia. }
      destruct (d1 =? 1)%nat eqn:E1.
      { apply Nat.eqb_eq in E1. inversion H; subst. rewrite shape_size_cons.
        destruct Hcases as [H0|[H0|H0]]; rewrite ?H0; subst; nia. }
      destruct (d2 =? 1)%nat eqn:E2; [|discriminate].
      apply Nat.eqb_eq in E2. inversion H; subst. rewrite shape_size_cons.
      destruct Hcases as [H0|[H0|H0]]; rewrite ?H0; subst; nia.
Qed.

Lemma broadcast_shapes_empty (s1 s2 s : shape_t) :
  broadcast_shapes s1 s2 = Some s ->
  shape_size s1 = 0%nat \/ shape_size s2 = 0%nat -> shape_size s = 0%nat.
Proof.
  unfold broadcast_shapes. destruct (broadcast_rev (rev s1) (rev s2)) as [r|] eqn:E;
    [|discriminate].
  cbn. intros H Hz. inversion H; subst. rewrite shape_size_rev.
  apply (broadcast_rev_empty _ _ E). now rewrite !shape_size_rev.
Qed.

Lemma size_ravel (a : ndarray) : size (ravel a) = size a.
Proof.
  unfold size, ravel. cbn [shape]. rewrite shape_size_cons.
  change (shape_size []) with 1%nat. fold (size a). lia.
Qed.

Lemma shape_eqb_eq (a b : shape_t) : shape_eqb a b = true -> a = b.
Proof.
  revert b. induction a as [|x a IH]; destruct b as [|y b]; cbn; try discriminate;
    [reflexivity|].
  intros H. apply andb_prop in H. destruct H as [H1 H2].
  apply Nat.eqb_eq in H1. subst. f_equal. now apply IH.
Qed.

Lemma out_of_bounds_empty (O : Type) (a : ndarray) (bound : Q) (o : O) tr :
  (size a =? 0)%nat = true ->
  out_of_bounds a bound o tr = mk_outcome (inr false) o tr.
Proof.
  intros H. unfold out_of_bounds. apply Nat.eqb_eq in H. rewrite H. reflexivity.
Qed.

(** C8, as stated, fails twice.  In pointwise mode an empty [x] given
    with a [y] of three points does not broadcast and the call raises.  On
    a sphere spline an empty [theta] given with an out-of-range [phi]
    raises the out-of-bounds error. *)
Lemma C8_counterexample :
  size (array1 []) = 0%nat /\
  result (run (_BivariateSplineBase__call__ (scripted_surfit 0 0)
                 (array1 []) (array1 [Fin 1; Fin 2; Fin 3]) None 0 0 false)
              sample_surface)
  = inl broadcast_error /\
  result (run (SphereBivariateSpline__call__ (scripted_surfit 0 0)
                 (array1 []) (array1 [Fin 100]) 0 0 true)
              sample_surface)
  = inl (ValueError (Text "requested phi out of bounds.")).
Proof. repeat split. Qed.

(** C8, amended.  An evaluation of an empty input calls no evaluator and
    leaves the object as it is, whatever the extrapolation mode.  The
    univariate call returns the empty array.  The bivariate call in grid
    mode returns zeros of shape [(x.size, y.size)] when [x] or [y] is
    empty; in pointwise mode it returns zeros of the broadcast shape when
    the two shapes are equal or broadcast, and raises numpy's shape
    mismatch error when they do not.  The call of a sphere spline runs its
    bounds checks first: the check of an empty array is skipped, so with
    both arrays empty it behaves as the bivariate call. *)
Theorem C8_empty_input (lib : curfit_lib) (slib : surfit_lib) :
  (forall x nu e o,
      if (size x =? 0)%nat
      then run (UnivariateSpline__call__ lib x nu e) o = mk_outcome (inr (array1 [])) o []
      else True) /\
  (forall x y mth dx dy f t deg,
      let o := mk_bspline f (Some t) (Some deg) in
      let r := run (_BivariateSplineBase__call__ slib x y mth dx dy true) o in
      if (size x =? 0)%nat || (size y =? 0)%nat
      then result r = inr (np_zeros [size x; size y]) /\
           filter is_evaluator_call (trace r) = [] /\ self_after r = o
      else True) /\
  (forall x y mth dx dy f t deg,
      let o := mk_bspline f (Some t) (Some deg) in
      let r := run (_BivariateSplineBase__call__ slib x y mth dx dy false) o in
      if (size x =? 0)%nat || (size y =? 0)%nat
      then filter is_evaluator_call (trace r) = [] /\ self_after r = o /\
           match (if shape_eqb (shape x) (shape y) then Some (shape x)
                  else broadcast_shapes (shape x) (shape y)) with
           | Some sh => result r = inr (np_zeros sh)
           | None => result r = inl broadcast_error
           end
      else True) /\
  (forall a bound (o : bspline) tr,
      if (size a =? 0)%nat
      then out_of_bounds a bound o tr = mk_outcome (inr false) o tr
      else True) /\
  (forall theta phi dtheta dphi grid o,
      if (size theta =? 0)%nat && (size phi =? 0)%nat
      then run (SphereBivariateSpline__call__ slib theta phi dtheta dphi grid) o
           = run (_BivariateSplineBase__call__ slib theta phi None dtheta dphi grid) o
      else True).
Proof.
  repeat apply conj.
  - intros x nu e o. unfold UnivariateSpline__call__.
    destruct (size x =? 0)%nat; [reflexivity|exact I].
  - intros x y mth dx dy f t deg. cbv zeta.
    destruct ((size x =? 0)%nat || (size y =? 0)%nat) eqn:E; [|exact I].
    unfold _BivariateSplineBase__call__. destruct deg as [kx ky].
    destruct mth; run_step; rewrite E; repeat split.
  - intros x y mth dx dy f t deg. cbv zeta.
    destruct ((size x =? 0)%nat || (size y =? 0)%nat) eqn:E; [|exact I].
    unfold _BivariateSplineBase__call__. destruct deg as [kx ky].
    destruct (shape_eqb (shape x) (shape y)) eqn:Es.
    + destruct mth; run_step; rewrite !size_ravel, E; repeat split.
    + unfold broadcast_arrays.
      destruct (broadcast_shapes (shape x) (shape y)) as [sh|] eqn:Eb.
      * assert (Hz : shape_size sh = 0%nat).
        { apply (broadcast_shapes_empty _ _ Eb).
          apply orb_prop in E. destruct E as [E|E]; apply Nat.eqb_eq in E; auto. }
        assert (Hx : (size (ravel (broadcast_to x sh)) =? 0)%nat = true).
        { rewrite size_ravel. unfold size, broadcast_to. cbn [shape].
          now apply Nat.eqb_eq. }
        destruct mth; run_step; rewrite Hx; cbn [orb]; repeat split.
      * destruct mth; run_step; repeat split.
  - intros a bound o tr. destruct (size a =? 0)%nat eqn:E; [|exact I].
    now apply out_of_bounds_empty.
  - intros theta phi dtheta dphi grid o.
    destruct ((size theta =? 0)%nat && (size phi =? 0)%nat) eqn:E; [|exact I].
    apply andb_prop in E. destruct E as [E1 E2].
    unfold SphereBivariateSpline__call__, run, bind.
    rewrite (out_of_bounds_empty theta np_pi o [] E1). cbn [result self_after trace].
    rewrite (out_of_bounds_empty phi (2 * np_pi)%Q o [] E2). reflexivity.
Qed.

(** ** The order on numbers *)

Lemma Qltb_lt (p q : Q) : Qltb p q = true <-> (p < q)%Q.
Proof.
  unfold Qltb. rewrite Qlt_alt. destruct (p ?= q)%Q; split; congruence.
Qed.

Lemma Qltb_ge (p q : Q) : Qltb p q = false <-> (q <= p)%Q.
Proof.
  split; intros H.
  - apply Qnot_lt_le. intros Hlt. apply Qltb_lt in Hlt. congruence.
  - destruct (Qltb p q) eqn:E; [|reflexivity].
    apply Qltb_lt in E. exfalso. now apply (Qlt_not_le _ _ E).
Qed.

Lemma Qltb_trans (p q r : Q) : Qltb p q = true -> Qltb q r = true -> Qltb p r = true.
Proof. rewrite !Qltb_lt. apply Qlt_trans. Qed.

Lemma Qltb_le_trans (p q r : Q) : Qltb q p = false -> Qltb q r = true -> Qltb p r = true.
Proof. rewrite Qltb_ge, !Qltb_lt. apply Qle_lt_trans. Qed.

Lemma Qltb_lt_le_trans (p q r : Q) : Qltb p q = true -> Qltb r q = false -> Qltb p r = true.
Proof. rewrite Qltb_ge, !Qltb_lt. apply Qlt_le_trans. Qed.

Lemma Qltb_eq_false (p q : Q) : Qeq_bool p q = true -> Qltb q p = false.
Proof.
  intros H. apply Qeq_bool_iff in H. apply Qltb_ge. rewrite H. apply Qle_refl.
Qed.

(** The smaller of two numbers is below [c] exactly when one of them is. *)
Lemma min_step_below (a b : num) (c : Q) :
  num_isnan a = false -> num_isnan b = false ->
  num_ltb (if num_ltb a b || num_isnan a then a else b) (Fin c) =
    num_ltb a (Fin c) || num_ltb b (Fin c).
Proof.
  intros Ha Hb. rewrite Ha, orb_false_r.
  destruct a as [p| | |], b as [q| | |]; try discriminate; cbn;
    try reflexivity; try (now rewrite orb_false_r); try (now rewrite orb_true_r).
  destruct (Qltb p q) eqn:E; cbn [num_ltb].
  - destruct (Qltb p c) eqn:E1; [reflexivity|]. cbn [orb].
    destruct (Qltb q c) eqn:E2; [|reflexivity].
    rewrite (Qltb_trans _ _ _ E E2) in E1. discriminate.
  - destruct (Qltb q c) eqn:E2; [now rewrite orb_true_r|].
    rewrite orb_false_r.
    destruct (Qltb p c) eqn:E1; [|reflexivity].
    assert (Qltb q c = true); [|congruence].
    apply Qltb_lt. apply Qltb_ge in E. apply Qltb_lt in E1.
    now apply Qle_lt_trans with p.
Qed.

(** The larger of two numbers is above [c] exactly when one of them is. *)
Lemma max_step_above (a b : num) (c : Q) :
  num_isnan a = false -> num_isnan b = false ->
  num_gtb (if num_geb a b || num_isnan a then a else b) (Fin c) =
    num_gtb a (Fin c) || num_gtb b (Fin c).
Proof.
  intros Ha Hb. rewrite Ha, orb_false_r. unfold num_geb, num_gtb.
  destruct a as [p| | |], b as [q| | |]; try discriminate; cbn;
    try reflexivity; try (now rewrite orb_false_r); try (now rewrite orb_true_r).
  destruct (Qltb q p) eqn:E; cbn.
  - destruct (Qltb c p) eqn:E1; [reflexivity|]. cbn.
    destruct (Qltb c q) eqn:E2; [|reflexivity].
    rewrite (Qltb_trans _ _ _ E2 E) in E1. discriminate.
  - destruct (Qeq_bool p q) eqn:Eq.
    + apply Qeq_bool_iff in Eq.
      destruct (Qltb c p) eqn:E1; [reflexivity|]. cbn.
      destruct (Qltb c q) eqn:E2; [|reflexivity].
      apply Qltb_lt in E2. rewrite <- Eq in E2. apply Qltb_lt in E2. congruence.
    + destruct (Qltb c q) eqn:E2; [now rewrite orb_true_r|].
      rewrite orb_false_r.
      destruct (Qltb c p) eqn:E1; [|reflexivity].
      assert (Qltb c q = true); [|congruence].
      apply Qltb_lt. apply Qltb_ge in E. apply Qltb_lt in E1.
      now apply Qlt_le_trans with p.
Qed.

Lemma min_step_not_nan (a b : num) :
  num_isnan a = false -> num_isnan b = false ->
  num_isnan (if num_ltb a b || num_isnan a then a else b) = false.
Proof. intros Ha Hb. destruct (num_ltb a b || num_isnan a); assumption. Qed.

Lemma max_step_not_nan (a b : num) :
  num_isnan a = false -> num_isnan b = false ->
  num_isnan (if num_geb a b || num_isnan a then a else b) = false.
Proof. intros Ha Hb. destruct (num_geb a b || num_isnan a); assumption. Qed.

Lemma no_nan_cons (a : num) (l : list num) :
  no_nan (a :: l) = true -> num_isnan a = false /\ no_nan l = true.
Proof.
  unfold no_nan. cbn. intros H. apply andb_prop in H. destruct H as [H1 H2].
  split; [|assumption]. now destruct (num_isnan a).
Qed.

Lemma fold_min_below (r : list num) (a : num) (c : Q) :
  num_isnan a = false -> no_nan r = true ->
  num_ltb (fold_left (fun acc b => if num_ltb acc b || num_isnan acc then acc else b) r a)
          (Fin c)
  = num_ltb a (Fin c) || existsb (fun x => num_ltb x (Fin c)) r.
Proof.
  revert a. induction r as [|b r IH]; intros a Ha Hr.
  - cbn. now rewrite orb_false_r.
  - apply no_nan_cons in Hr. destruct Hr as [Hb Hr]. cbn [fold_left existsb].
    rewrite IH by (auto using min_step_not_nan).
    rewrite min_step_below by assumption. now rewrite orb_assoc.
Qed.

Lemma fold_max_above (r : list num) (a : num) (c : Q) :
  num_isnan a = false -> no_nan r = true ->
  num_gtb (fold_left (fun acc b => if num_geb acc b || num_isnan acc then acc else b) r a)
          (Fin c)
  = num_gtb a (Fin c) || existsb (fun x => num_gtb x (Fin c)) r.
Proof.
  revert a. induction r as [|b r IH]; intros a Ha Hr.
  - cbn. now rewrite orb_false_r.
  - apply no_nan_cons in Hr. destruct Hr as [Hb Hr]. cbn [fold_left existsb].
    rewrite IH by (auto using max_step_not_nan).
    rewrite max_step_above by assumption. now rewrite orb_assoc.
Qed.

Lemma existsb_orb {A} (f g : A -> bool) (l : list A) :
  existsb (fun x => f x || g x) l = existsb f l || existsb g l.
Proof.
  induction l as [|a l IH]; [reflexivity|]. cbn. rewrite IH.
  destruct (f a), (g a), (existsb f l), (existsb g l); reflexivity.
Qed.

Lemma out_of_bounds_run (O : Type) (a : ndarray) (bound : Q) (o : O) tr :
  array_ok a = true -> no_nan (data a) = true ->
  out_of_bounds a bound o tr = mk_outcome (inr (existsb (outside bound) (data a))) o tr.
Proof.
  unfold array_ok, out_of_bounds. intros Hok Hnan. apply Nat.eqb_eq in Hok.
  destruct (0 <? size a)%nat eqn:E.
  - apply Nat.ltb_lt in E. destruct (data a) as [|v r] eqn:Ed; [cbn in Hok; lia|].
    apply no_nan_cons in Hnan. destruct Hnan as [Hv Hr].
    unfold outside. rewrite existsb_orb. cbn [np_min np_max]. run_step.
    unfold zero. rewrite fold_min_below by assumption.
    cbn [existsb].
    destruct (num_ltb v (Fin 0) || existsb (fun x => num_ltb x (Fin 0)) r);
      [reflexivity|].
    run_step. rewrite fold_max_above by assumption. reflexivity.
  - apply Nat.ltb_ge in E. assert (Hl : List.length (data a) = 0%nat) by lia.
    destruct (data a); [reflexivity|discriminate].
Qed.

(** ** Increasing sequences *)

Lemma Qltb_sub (p q : Q) : Qltb 0 (q - p) = Qltb p q.
Proof.
  destruct (Qltb p q) eqn:E.
  - apply Qltb_lt. apply Qltb_lt in E. unfold Qminus.
    now apply (proj1 (Qlt_minus_iff p q)).
  - apply Qltb_ge. apply Qltb_ge in E. unfold Qminus.
    apply Qle_minus_iff in E.
    apply Qopp_le_compat in E.
    setoid_replace (- (p + - q))%Q with (q + - p)%Q in E by ring.
    exact E.
Qed.

Lemma num_sub_positive (a b : num) :
  num_gtb (num_sub b a) zero = num_ltb a b.
Proof.
  unfold num_gtb, zero.
  destruct a as [p| | |], b as [q| | |]; try reflexivity.
  cbn. apply Qltb_sub.
Qed.

(** On a floating-point array the test [np.all(np.diff(l) > 0)] is the
    test that [l] increases. *)
Lemma all_positive_diff (l : list num) :
  all_positive (np_diff Float l) = increasing l.
Proof.
  induction l as [|a [|b r] IH]; try reflexivity.
  change (np_diff Float (a :: b :: r)) with (num_sub b a :: np_diff Float (b :: r)).
  unfold all_positive in *. cbn [forallb]. rewrite IH, num_sub_positive.
  reflexivity.
Qed.

(** ** The knots of an LSQ spline *)

Lemma len_app {A} (a b : list A) : len (a ++ b) = len a + len b.
Proof. unfold len. rewrite length_app. lia. Qed.

Lemma len_nonneg {A} (l : list A) : 0 <= len l.
Proof. unfold len. lia. Qed.

Lemma py_slice_middle {A} (a m b : list A) :
  py_slice (a ++ m ++ b) (Some (len a)) (Some (len a + len m)) = m.
Proof.
  unfold py_slice, adjust_index. rewrite !len_app.
  pose proof (len_nonneg a). pose proof (len_nonneg m). pose proof (len_nonneg b).
  destruct (len a <? 0) eqn:E1; [apply Z.ltb_lt in E1; lia|].
  destruct (len a + len m <? 0) eqn:E2; [apply Z.ltb_lt in E2; lia|].
  rewrite !Z.min_l by lia.
  replace (len a + len m - len a) with (len m) by lia.
  unfold len. rewrite !Nat2Z.id.
  rewrite skipn_app, skipn_all, Nat.sub_diag. cbn [skipn app].
  rewrite firstn_app, firstn_all, Nat.sub_diag. cbn [firstn]. apply app_nil_r.
Qed.

Lemma repeat_snoc {A} (v : A) (n : nat) : repeat v (S n) = repeat v n ++ [v].
Proof. induction n as [|n IH]; [reflexivity|]. cbn in *. now rewrite <- IH. Qed.

Lemma padded_knots_split (xb xe : num) (k : Z) (t : list num) :
  0 <= k ->
  padded_knots xb xe k t =
    repeat xb (Z.to_nat k) ++ (xb :: t ++ [xe]) ++ repeat xe (Z.to_nat k).
Proof.
  intros Hk. unfold padded_knots, py_repeat.
  replace (Z.to_nat (k + 1)) with (S (Z.to_nat k)) by lia.
  rewrite repeat_snoc. cbn [repeat app]. rewrite <- !app_assoc. cbn [app].
  reflexivity.
Qed.

Lemma len_padded_knots (xb xe : num) (k : Z) (t : list num) :
  0 <= k -> len (padded_knots xb xe k t) = len t + 2 * k + 2.
Proof.
  intros Hk. unfold padded_knots, py_repeat. rewrite !len_app. unfold len.
  rewrite !repeat_length. lia.
Qed.

Lemma len_repeat {A} (v : A) (k : Z) : 0 <= k -> len (repeat v (Z.to_nat k)) = k.
Proof. intros Hk. unfold len. rewrite repeat_length. lia. Qed.

(** [t[k:n-k]] of the padded vector: the interior knots with one boundary
    knot on each side. *)
Lemma padded_knots_inner (xb xe : num) (k : Z) (t : list num) :
  0 <= k ->
  let kn := padded_knots xb xe k t in
  py_slice kn (Some k) (Some (len kn - k)) = xb :: t ++ [xe].
Proof.
  intros Hk kn. subst kn. rewrite len_padded_knots by assumption.
  rewrite padded_knots_split by assumption.
  set (a := repeat xb (Z.to_nat k)). set (m := xb :: t ++ [xe]).
  set (b := repeat xe (Z.to_nat k)).
  assert (Ha : len a = k) by (subst a; now apply len_repeat).
  assert (Hm : len m = len t + 2).
  { subst m. change (xb :: t ++ [xe]) with ([xb] ++ t ++ [xe]).
    rewrite !len_app. change (len [xb]) with 1. change (len [xe]) with 1. lia. }
  replace (Some k) with (Some (len a)) by (now rewrite Ha).
  replace (Some (len t + 2 * k + 2 - k)) with (Some (len a + len m))
    by (f_equal; lia).
  apply py_slice_middle.
Qed.

(** The two slices the knot test subtracts. *)
Lemma padded_knots_upper (xb xe : num) (k : Z) (t : list num) :
  0 <= k ->
  let kn := padded_knots xb xe k t in
  py_slice kn (Some (k + 1)) (Some (len kn - k)) = t ++ [xe].
Proof.
  intros Hk kn. subst kn. rewrite len_padded_knots by assumption.
  rewrite padded_knots_split by assumption.
  change (xb :: t ++ [xe]) with ([xb] ++ (t ++ [xe])).
  rewrite <- (app_assoc [xb]). rewrite (app_assoc (repeat xb (Z.to_nat k)) [xb]).
  set (a := repeat xb (Z.to_nat k) ++ [xb]). set (m := t ++ [xe]).
  set (b := repeat xe (Z.to_nat k)).
  assert (Ha : len a = k + 1).
  { subst a. rewrite len_app, len_repeat by assumption. reflexivity. }
  assert (Hm : len m = len t + 1).
  { subst m. rewrite len_app. change (len [xe]) with 1. lia. }
  replace (Some (k + 1)) with (Some (len a)) by (now rewrite Ha).
  replace (Some (len t + 2 * k + 2 - k)) with (Some (len a + len m))
    by (f_equal; lia).
  apply py_slice_middle.
Qed.

Lemma padded_knots_lower (xb xe : num) (k : Z) (t : list num) :
  0 <= k ->
  let kn := padded_knots xb xe k t in
  py_slice kn (Some k) (Some (len kn - k - 1)) = xb :: t.
Proof.
  intros Hk kn. subst kn. rewrite len_padded_knots by assumption.
  rewrite padded_knots_split by assumption.
  change (xb :: t ++ [xe]) with ((xb :: t) ++ [xe]).
  rewrite <- (app_assoc (xb :: t)).
  set (a := repeat xb (Z.to_nat k)). set (m := xb :: t).
  set (b := [xe] ++ repeat xe (Z.to_nat k)).
  assert (Ha : len a = k) by (subst a; now apply len_repeat).
  assert (Hm : len m = len t + 1).
  { subst m. change (xb :: t) with ([xb] ++ t). rewrite len_app.
    change (len [xb]) with 1. lia. }
  replace (Some k) with (Some (len a)) by (now rewrite Ha).
  replace (Some (len t + 2 * k + 2 - k - 1)) with (Some (len a + len m))
    by (f_equal; lia).
  apply py_slice_middle.
Qed.

Lemma steps_increasing (xb xe : num) (t : list num) :
  all_positive (map (fun p => dtype_sub Float (fst p) (snd p))
                    (combine (t ++ [xe]) (xb :: t)))
  = increasing (xb :: t ++ [xe]).
Proof.
  revert xb. induction t as [|a t IH]; intros xb.
  - unfold all_positive. cbn [app combine map forallb fst snd increasing dtype_sub].
    now rewrite num_sub_positive.
  - change (increasing (xb :: (a :: t) ++ [xe]))
      with (num_ltb xb a && increasing (a :: t ++ [xe])).
    rewrite <- IH. unfold all_positive.
    cbn [app combine map forallb fst snd dtype_sub]. now rewrite num_sub_positive.
Qed.

(** On a floating-point knot array the knot test of
    [LSQUnivariateSpline.__init__] is the test that the boundaries and the
    interior knots form an increasing sequence. *)
Lemma knot_steps_padded (xb xe : num) (k : Z) (t : list num) :
  0 <= k ->
  exists steps,
    knot_steps Float (padded_knots xb xe k t) k = Some steps /\
    all_positive steps = increasing (xb :: t ++ [xe]).
Proof.
  intros Hk. unfold knot_steps.
  rewrite (padded_knots_upper xb xe t Hk), (padded_knots_lower xb xe t Hk).
  unfold np_sub1.
  replace (List.length (t ++ [xe]) =? List.length (xb :: t))%nat with true.
  - eexists. split; [reflexivity|]. apply steps_increasing.
  - symmetry. apply Nat.eqb_eq. rewrite length_app. cbn. lia.
Qed.

Lemma num_ltb_leb (a b : num) : num_ltb a b = true -> num_leb a b = true.
Proof. unfold num_leb. now intros ->. Qed.

Lemma num_leb_refl_l (a b : num) : num_ltb a b = true -> num_leb a a = true.
Proof.
  unfold num_leb. destruct a as [p| | |], b as [q| | |]; cbn; try discriminate;
    intros _; try reflexivity; rewrite (proj2 (Qeq_bool_iff p p) (Qeq_refl p));
    apply orb_true_r.
Qed.

Lemma num_leb_refl_r (a b : num) : num_ltb a b = true -> num_leb b b = true.
Proof.
  unfold num_leb. destruct a as [p| | |], b as [q| | |]; cbn; try discriminate;
    intros _; try reflexivity; rewrite (proj2 (Qeq_bool_iff q q) (Qeq_refl q));
    apply orb_true_r.
Qed.

Lemma increasing_nondecreasing (l : list num) :
  increasing l = true -> nondecreasing l = true.
Proof.
  induction l as [|a [|b r] IH]; try reflexivity.
  change (increasing (a :: b :: r)) with (num_ltb a b && increasing (b :: r)).
  change (nondecreasing (a :: b :: r)) with (num_leb a b && nondecreasing (b :: r)).
  intros H. apply andb_prop in H. destruct H as [H1 H2].
  rewrite (num_ltb_leb _ _ H1), (IH H2). reflexivity.
Qed.

Lemma nondecreasing_app (l1 l2 : list num) (e : num) :
  nondecreasing (l1 ++ [e]) = true -> nondecreasing (e :: l2) = true ->
  nondecreasing (l1 ++ e :: l2) = true.
Proof.
  induction l1 as [|a [|b r] IH]; intros H1 H2.
  - exact H2.
  - cbn [app] in *.
    change (nondecreasing [a; e]) with (num_leb a e && true) in H1.
    change (nondecreasing (a :: e :: l2)) with (num_leb a e && nondecreasing (e :: l2)).
    apply andb_prop in H1. destruct H1 as [H1 _]. now rewrite H1, H2.
  - change ((a :: b :: r) ++ [e]) with (a :: b :: (r ++ [e])) in H1.
    change (nondecreasing (a :: b :: r ++ [e]))
      with (num_leb a b && nondecreasing ((b :: r) ++ [e])) in H1.
    change ((a :: b :: r) ++ e :: l2) with (a :: b :: (r ++ e :: l2)).
    change (nondecreasing (a :: b :: r ++ e :: l2))
      with (num_leb a b && nondecreasing ((b :: r) ++ e :: l2)).
    apply andb_prop in H1. destruct H1 as [Hab H1].
    rewrite Hab, (IH H1 H2). reflexivity.
Qed.

Lemma nondecreasing_repeat (a : num) (n : nat) :
  num_leb a a = true -> nondecreasing (repeat a n) = true.
Proof.
  intros Ha. induction n as [|[|n] IH]; try reflexivity.
  change (repeat a (S (S n))) with (a :: a :: repeat a n).
  change (nondecreasing (a :: a :: repeat a n))
    with (num_leb a a && nondecreasing (repeat a (S n))).
  now rewrite Ha, IH.
Qed.

Lemma increasing_last_refl (l : list num) (a e : num) :
  increasing (a :: l ++ [e]) = true -> num_leb e e = true.
Proof.
  revert a. induction l as [|b l IH]; intros a H.
  - cbn [app] in H. change (increasing [a; e]) with (num_ltb a e && true) in H.
    apply andb_prop in H. destruct H as [H _]. now apply num_leb_refl_r with a.
  - change (increasing (a :: (b :: l) ++ [e]))
      with (num_ltb a b && increasing (b :: l ++ [e])) in H.
    apply andb_prop in H. destruct H as [_ H]. now apply IH with b.
Qed.

Lemma increasing_first_refl (l : list num) (a e : num) :
  increasing (a :: l ++ [e]) = true -> num_leb a a = true.
Proof.
  destruct l as [|b l]; intros H.
  - cbn [app] in H. change (increasing [a; e]) with (num_ltb a e && true) in H.
    apply andb_prop in H. destruct H as [H _]. now apply num_leb_refl_l with e.
  - change (increasing (a :: (b :: l) ++ [e]))
      with (num_ltb a b && increasing (b :: l ++ [e])) in H.
    apply andb_prop in H. destruct H as [H _]. now apply num_leb_refl_l with b.
Qed.

(** A knot vector that passes the knot test is non-decreasing. *)
Lemma padded_knots_nondecreasing (xb xe : num) (k : Z) (t : list num) :
  0 <= k -> increasing (xb :: t ++ [xe]) = true ->
  nondecreasing (padded_knots xb xe k t) = true.
Proof.
  intros Hk H. rewrite padded_knots_split by assumption.
  pose proof (increasing_first_refl _ _ _ H) as Hb.
  pose proof (increasing_last_refl _ _ _ H) as He.
  apply increasing_nondecreasing in H.
  set (n := Z.to_nat k).
  assert (E : (xb :: t ++ [xe]) ++ repeat xe n = xb :: t ++ xe :: repeat xe n).
  { cbn [app]. now rewrite <- app_assoc. }
  rewrite E.
  apply (nondecreasing_app (repeat xb n) (t ++ xe :: repeat xe n) xb).
  - rewrite <- repeat_snoc. now apply nondecreasing_repeat.
  - apply (nondecreasing_app (xb :: t) (repeat xe n) xe); [exact H|].
    change (xe :: repeat xe n) with (repeat xe (S n)).
    now apply nondecreasing_repeat.
Qed.

Lemma get_knots_run (o : uspline) (d : udata) :
  _data o = Some d ->
  run get_knots o =
    mk_outcome (inr (py_slice (d_t d) (Some (d_k d)) (Some (d_n d - d_k d)))) o [].
Proof. intros H. unfold get_knots. run_step. rewrite H. reflexivity. Qed.

Lemma get_coeffs_run (o : uspline) (d : udata) :
  _data o = Some d ->
  run get_coeffs o =
    mk_outcome (inr (py_slice (d_c d) None (Some (d_n d - d_k d - 1)))) o [].
Proof. intros H. unfold get_coeffs. run_step. rewrite H. reflexivity. Qed.

Lemma get_residual_run (o : uspline) (d : udata) :
  _data o = Some d -> run get_residual o = mk_outcome (inr (d_fp d)) o [].
Proof. intros H. unfold get_residual. run_step. rewrite H. reflexivity. Qed.

(** ** Extra properties of the univariate constructors *)

(** X1. [LSQUnivariateSpline.__init__] on a floating-point knot array,
    with a degree [k >= 0] and [check_finite] off: unless
    [xb < t[0] < ... < t[-1] < xe], where [xb] and [xe] are the entries of
    [bbox] or else the ends of [x], it raises ValueError ("Interior knots t
    must satisfy Schoenberg-Whitney conditions") before any library routine
    is called, and the object is left untouched.  (On an integer knot
    array the subtraction of the test wraps around and decreasing knots
    can pass it.) *)
Theorem lsq_knots_must_increase (lib : curfit_lib)
    (x y t : list num) (w : option (list num)) (bbox : option num * option num)
    (k : Z) (key : ext_key) (o : uspline) (xb xe : num) :
  0 <= k ->
  match fst bbox with Some b => Some b | None => py_index x 0 end = Some xb ->
  match snd bbox with Some b => Some b | None => py_index x (-1) end = Some xe ->
  increasing (xb :: t ++ [xe]) = false ->
  run (LSQUnivariateSpline__init__ lib Float x y t w bbox k key false) o =
    mk_outcome
      (inl (ValueError
              (Text "Interior knots t must satisfy Schoenberg-Whitney conditions")))
      o [].
Proof.
  intros Hk Hb He Hinc. unfold run. rewrite LSQUnivariateSpline__init__run.
  cbn [finite_check_error]. rewrite Hb, He. cbv zeta.
  destruct (knot_steps_padded xb xe t Hk) as [steps [Hs Hp]].
  rewrite Hs, Hp, Hinc. reflexivity.
Qed.

Lemma lsq_knots_must_increase_witness :
  run (LSQUnivariateSpline__init__ (scripted_curfit 0 0) Float (arange 0 6) (arange 0 6)
         [Fin 3; Fin 2] None (None, None) 3 (KInt 0) false)
      (new_uspline LSQUnivariateSpline) =
    mk_outcome
      (inl (ValueError
              (Text "Interior knots t must satisfy Schoenberg-Whitney conditions")))
      (new_uspline LSQUnivariateSpline) [].
Proof.
  apply (@lsq_knots_must_increase (scripted_curfit 0 0) (arange 0 6) (arange 0 6)
           [Fin 3; Fin 2] None (None, None) 3 (KInt 0)
           (new_uspline LSQUnivariateSpline) (Fin 0) (Fin 5)).
  - lia.
  - reflexivity.
  - reflexivity.
  - reflexivity.
Defined.

(** X2. When the fitting routine [fpcurfm1] hands back the knot vector it
    was given (with its length as [n] and the degree as [k]), as FITPACK
    does for fixed knots, a successful [LSQUnivariateSpline.__init__] on a
    floating-point knot array with [k >= 0] stores the caller's interior
    knots [t] between [k+1] copies of [xb] and [k+1] copies of [xe]; that
    vector is non-decreasing, in fact [xb < t[0] < ... < t[-1] < xe]; and
    [get_knots] returns [t] together with one boundary knot on each side,
    [[xb] + t + [xe]]. *)
Theorem lsq_stored_knots (lib : curfit_lib)
    (x y t : list num) (w : option (list num)) (bbox : option num * option num)
    (k : Z) (key : ext_key) (check_finite : bool) (o : uspline) :
  0 <= k ->
  (forall x y k t w xb xe,
      f_t (fpcurfm1 lib x y k t w xb xe) = t /\
      f_n (fpcurfm1 lib x y k t w xb xe) = len t /\
      f_k (fpcurfm1 lib x y k t w xb xe) = k) ->
  let r := run (LSQUnivariateSpline__init__ lib Float x y t w bbox k key check_finite)
               o in
  raised r = false ->
  exists xb xe d,
    match fst bbox with Some b => Some b | None => py_index x 0 end = Some xb /\
    match snd bbox with Some b => Some b | None => py_index x (-1) end = Some xe /\
    _data (self_after r) = Some d /\
    d_t d = py_repeat xb (k + 1) ++ t ++ py_repeat xe (k + 1) /\
    increasing (xb :: t ++ [xe]) = true /\
    nondecreasing (d_t d) = true /\
    result (run get_knots (self_after r)) = inr (xb :: t ++ [xe]).
Proof.
  intros Hk Hecho r Hr. subst r. unfold run in *.
  rewrite LSQUnivariateSpline__init__run in *.
  destruct (finite_check_error _ _ _ _ _ _); [discriminate|].
  destruct (match fst bbox with Some b => Some b | None => py_index x 0 end)
    as [xb|]; [|discriminate].
  destruct (match snd bbox with Some b => Some b | None => py_index x (-1) end)
    as [xe|]; [|discriminate].
  cbv zeta in *.
  destruct (knot_steps_padded xb xe t Hk) as [steps [Hs Hp]].
  rewrite Hs in *. rewrite Hp in *.
  destruct (increasing (xb :: t ++ [xe])) eqn:Hinc; [|discriminate].
  cbn [negb] in *.
  destruct (negb (fpchec lib x (padded_knots xb xe k t) k =? 0)); [discriminate|].
  unfold store_then_ext in *.
  destruct (dict_get ext_key_eqb _extrap_modes key) as [e|]; [|discriminate].
  cbn [self_after].
  remember (fpcurfm1 lib x y k (padded_knots xb xe k t) w xb xe) as f eqn:Ef.
  destruct (Hecho x y k (padded_knots xb xe k t) w xb xe) as [Ht [Hn Hk']].
  rewrite <- Ef in Ht, Hn, Hk'.
  assert (Hd : _data (set_ext e (after_reset_class (lsq_data f) (set__data (lsq_data f) o)))
               = Some (lsq_data f)).
  { cbn [_data set_ext]. now rewrite after_reset_class_data. }
  exists xb, xe, (lsq_data f). repeat split; try reflexivity.
  - exact Hd.
  - cbn [d_t lsq_data]. exact Ht.
  - exact Hinc.
  - cbn [d_t lsq_data]. rewrite Ht. now apply padded_knots_nondecreasing.
  - pose proof (get_knots_run _ Hd) as Hg. unfold run in Hg. rewrite Hg.
    cbn [result d_t d_k d_n lsq_data].
    rewrite Ht, Hn, Hk'. f_equal. now apply padded_knots_inner.
Qed.

Lemma lsq_stored_knots_witness :
  exists xb xe d,
    Some (Fin (-3)) = Some xb /\ Some (Fin 3) = Some xe /\
    _data (self_after
             (run (LSQUnivariateSpline__init__ (scripted_curfit 0 0) Float
                     (arange (-3) 7) (arange (-3) 7) [Fin (-1); Fin 0; Fin 1] None
                     (Some (Fin (-3)), Some (Fin 3)) 3 (KInt 0) false)
                  (new_uspline LSQUnivariateSpline))) = Some d /\
    d_t d = py_repeat xb (3 + 1) ++ [Fin (-1); Fin 0; Fin 1] ++ py_repeat xe (3 + 1) /\
    increasing (xb :: [Fin (-1); Fin 0; Fin 1] ++ [xe]) = true /\
    nondecreasing (d_t d) = true /\
    result (run get_knots
              (self_after
                 (run (LSQUnivariateSpline__init__ (scripted_curfit 0 0) Float
                         (arange (-3) 7) (arange (-3) 7) [Fin (-1); Fin 0; Fin 1] None
                         (Some (Fin (-3)), Some (Fin 3)) 3 (KInt 0) false)
                      (new_uspline LSQUnivariateSpline))))
    = inr (xb :: [Fin (-1); Fin 0; Fin 1] ++ [xe]).
Proof.
  apply (@lsq_stored_knots (scripted_curfit 0 0) (arange (-3) 7) (arange (-3) 7)
           [Fin (-1); Fin 0; Fin 1] None (Some (Fin (-3)), Some (Fin 3)) 3 (KInt 0)
           false (new_uspline LSQUnivariateSpline)).
  - lia.
  - intros. repeat split.
  - reflexivity.
Defined.

(** ** Extra properties: validation comes before the fit *)

(** X3. A constructor that returns or raises without having called a
    fitting routine has raised, and has left the object exactly as it was;
    for the three univariate constructors the converse also holds in this
    form: once a fitting routine was called, its result is stored on the
    object, whether or not the constructor then raises.  (The one run of
    [UnivariateSpline.__init__] that stores nothing after a call is the one
    numpy stops: the fit reports status 1 and the arrays cannot be
    resized, [m + k + 1] being negative.) *)
Theorem no_fit_means_untouched (lib : curfit_lib) (slib : surfit_lib) :
  (forall x y w bbox k s key check_finite o,
      let r := run (UnivariateSpline__init__ lib x y w bbox k s key check_finite) o in
      let data0 := fpcurf0 lib x y k w (fst bbox) (snd bbox) s in
      if (solver_calls (trace r) =? 0)%nat
      then raised r = true /\ self_after r = o
      else if (f_ier data0 =? 1) && (len (f_x data0) + f_k data0 + 1 <? 0)
      then result r = inl negative_size_error /\ _data (self_after r) = _data o
      else has_fit (self_after r) = true) /\
  (forall x y w bbox k key check_finite o,
      let r := run (InterpolatedUnivariateSpline__init__ lib x y w bbox k key
                      check_finite) o in
      if (solver_calls (trace r) =? 0)%nat
      then raised r = true /\ self_after r = o
      else has_fit (self_after r) = true) /\
  (forall dt x y t w bbox k key check_finite o,
      let r := run (LSQUnivariateSpline__init__ lib dt x y t w bbox k key
                      check_finite) o in
      if (solver_calls (trace r) =? 0)%nat
      then raised r = true /\ self_after r = o
      else has_fit (self_after r) = true) /\
  (forall x y z tx ty w bbox kx ky eps o,
      let r := run (LSQBivariateSpline__init__ slib x y z tx ty w bbox kx ky eps) o in
      if (solver_calls (trace r) =? 0)%nat
      then raised r = true /\ self_after r = o else raised r = false) /\
  (forall dx dy x y z bbox kx ky s o,
      let r := run (RectBivariateSpline__init__ slib dx dy x y z bbox kx ky s) o in
      if (solver_calls (trace r) =? 0)%nat
      then raised r = true /\ self_after r = o else True) /\
  (forall theta phi r0 tt tp w eps o,
      let r := run (LSQSphereBivariateSpline__init__ slib theta phi r0 tt tp w eps) o in
      if (solver_calls (trace r) =? 0)%nat
      then raised r = true /\ self_after r = o else True) /\
  (forall du dv u v r0 s pc pv pe pf o,
      let r := run (RectSphereBivariateSpline__init__ slib du dv u v r0 s pc pv pe pf)
                   o in
      if (solver_calls (trace r) =? 0)%nat
      then raised r = true /\ self_after r = o else True).
Proof.
  repeat apply conj.
  - intros x y w bbox k s key check_finite o. cbv zeta. unfold run.
    rewrite UnivariateSpline__init__run.
    destruct (finite_check_fails check_finite x y); [split; reflexivity|].
    destruct (dict_get ext_key_eqb _extrap_modes key); [|split; reflexivity].
    cbv zeta. unfold settled.
    fold (max_nest (fpcurf0 lib x y k w (fst bbox) (snd bbox) s)).
    destruct (f_ier _ =? 1); cbn [andb].
    + destruct (resized_args _ _) as [args|] eqn:Er; cbn [trace self_after result].
      * assert (Hn : (max_nest (fpcurf0 lib x y k w (fst bbox) (snd bbox) s) <? 0) = false).
        { destruct (max_nest _ <? 0) eqn:E; [|reflexivity].
          apply Z.ltb_lt in E.
          rewrite (proj2 (resized_args_none _ _) E) in Er. discriminate Er. }
        rewrite Hn. rewrite !solver_calls_app.
        cbn [solver_calls filter is_solver_call is_solver List.length Nat.add Nat.eqb].
        unfold has_fit. now rewrite after_reset_class_data.
      * apply resized_args_none in Er. apply Z.ltb_lt in Er. rewrite Er.
        split; reflexivity.
    + cbn [trace self_after result]. rewrite !solver_calls_app.
      cbn [solver_calls filter is_solver_call is_solver List.length Nat.add Nat.eqb].
      unfold has_fit. now rewrite after_reset_class_data.
  - intros x y w bbox k key check_finite o. cbv zeta. unfold run.
    rewrite InterpolatedUnivariateSpline__init__run.
    destruct (finite_check_error _ _ _ _ _ _); [split; reflexivity|].
    cbv zeta. unfold store_then_ext.
    destruct (dict_get ext_key_eqb _extrap_modes key); cbn [trace self_after];
      rewrite !solver_calls_app;
      cbn [solver_calls filter is_solver_call is_solver List.length Nat.add Nat.eqb];
      unfold has_fit; cbn [_data set_ext]; now rewrite after_reset_class_data.
  - intros dt x y t w bbox k key check_finite o. cbv zeta. unfold run.
    rewrite LSQUnivariateSpline__init__run.
    destruct (finite_check_error _ _ _ _ _ _); [split; reflexivity|].
    destruct (match fst bbox with Some _ => _ | None => _ end); [|split; reflexivity].
    destruct (match snd bbox with Some _ => _ | None => _ end); [|split; reflexivity].
    cbv zeta. destruct (knot_steps _ _ _); [|split; reflexivity].
    destruct (negb (all_positive _)); [split; reflexivity|].
    destruct (negb (fpchec _ _ _ _ =? 0)); [split; reflexivity|].
    unfold store_then_ext.
    destruct (dict_get ext_key_eqb _extrap_modes key); cbn [trace self_after];
      rewrite !solver_calls_app;
      cbn [solver_calls filter is_solver_call is_solver List.length Nat.add Nat.eqb];
      unfold has_fit; cbn [_data set_ext]; now rewrite after_reset_class_data.
  - intros x y z tx ty w bbox kx ky eps o. cbv zeta. unfold run.
    rewrite LSQBivariateSpline__init__run.
    destruct (lsq_setup kx ky tx ty) as [e|[tx1 ty1]]; [split; reflexivity|].
    cbv zeta. cbn [trace]. rewrite !solver_calls_app.
    cbn [solver_calls filter is_solver_call is_solver List.length Nat.add Nat.eqb].
    reflexivity.
  - intros dx dy x y z bbox kx ky s o. cbv zeta. unfold run.
    rewrite RectBivariateSpline__init__run.
    destruct (rect_validation dx dy x y z); [split; reflexivity|].
    cbv zeta. destruct (normal_return _); exact I.
  - intros theta phi r0 tt tp w eps o. cbv zeta. unfold run.
    rewrite LSQSphereBivariateSpline__init__run.
    destruct (sphere_setup tt tp) as [e|[tt_ tp_]]; [split; reflexivity|].
    cbv zeta. destruct (l_ier _ <? -2); [exact I|].
    destruct (normal_return _); exact I.
  - intros du dv u v r0 s pc pv pe pf o. cbv zeta. unfold run.
    rewrite RectSphereBivariateSpline__init__run.
    destruct (rect_sphere_validation du dv u v r0 pc pf); [split; reflexivity|].
    cbv zeta. destruct (normal_return _); exact I.
Qed.

(** X4. On floating-point coordinate arrays
    [RectBivariateSpline.__init__] and [RectSphereBivariateSpline.__init__]
    accept only strictly increasing coordinates: when the first coordinate
    array is not strictly increasing they raise TypeError naming it, and
    when it is but the second is not they raise TypeError naming the
    second; in both cases nothing has been called and the object is
    untouched.  (On integer arrays [np.diff] wraps around and the test
    says less; unsigned arrays are dealt with further down.) *)
Theorem rect_coordinates_must_increase (slib : surfit_lib) :
  (forall x y z bbox kx ky s o,
      let r := run (RectBivariateSpline__init__ slib Float Float x y z bbox kx ky s) o in
      if increasing x then
        if increasing y then True
        else r = mk_outcome (inl (TypeError (Text "y must be strictly increasing"))) o []
      else r = mk_outcome (inl (TypeError (Text "x must be strictly increasing"))) o []) /\
  (forall u v r0 s pc pv pe pf o,
      let r := run (RectSphereBivariateSpline__init__ slib Float Float u v r0 s pc pv pe
                      pf) o in
      if increasing u then
        if increasing v then True
        else r = mk_outcome (inl (TypeError (Text "v must be strictly increasing"))) o []
      else r = mk_outcome (inl (TypeError (Text "u must be strictly increasing"))) o []).
Proof.
  split.
  - intros x y z bbox kx ky s o. cbv zeta. unfold run.
    rewrite RectBivariateSpline__init__run. unfold rect_validation.
    rewrite !all_positive_diff.
    destruct (increasing x); [|reflexivity].
    destruct (increasing y); [exact I|reflexivity].
  - intros u v r0 s pc pv pe pf o. cbv zeta. unfold run.
    rewrite RectSphereBivariateSpline__init__run. unfold rect_sphere_validation.
    rewrite !all_positive_diff.
    destruct (increasing u); [|reflexivity].
    destruct (increasing v); [exact I|reflexivity].
Qed.

(** ** Extra properties of evaluation *)

(** X5. On arrays that hold no NaN, [SphereBivariateSpline.__call__]
    raises ValueError("requested theta out of bounds.") exactly when some
    [theta] lies outside [[0, pi]]; otherwise it raises
    ValueError("requested phi out of bounds.") exactly when some [phi] lies
    outside [[0, 2*pi]]; in both cases no evaluator has been called and the
    object is untouched.  When every value is in range (in particular when
    both arrays are empty) it behaves as [_BivariateSplineBase.__call__]. *)
Theorem sphere_bounds_checked (slib : surfit_lib)
    (theta phi : ndarray) (dtheta dphi : Z) (grid : bool) (o : bspline) :
  array_ok theta = true -> array_ok phi = true ->
  no_nan (data theta) = true -> no_nan (data phi) = true ->
  run (SphereBivariateSpline__call__ slib theta phi dtheta dphi grid) o =
    if existsb (outside np_pi) (data theta)
    then mk_outcome (inl (ValueError (Text "requested theta out of bounds."))) o []
    else if existsb (outside (2 * np_pi)%Q) (data phi)
    then mk_outcome (inl (ValueError (Text "requested phi out of bounds."))) o []
    else run (_BivariateSplineBase__call__ slib theta phi None dtheta dphi grid) o.
Proof.
  intros Ht Hp Hnt Hnp. unfold SphereBivariateSpline__call__, run, bind.
  rewrite (@out_of_bounds_run bspline theta np_pi o [] Ht Hnt). cbn [result self_after trace].
  destruct (existsb (outside np_pi) (data theta)); [reflexivity|].
  rewrite (@out_of_bounds_run bspline phi (2 * np_pi)%Q o [] Hp Hnp). cbn [result self_after trace].
  destruct (existsb (outside (2 * np_pi)%Q) (data phi)); reflexivity.
Qed.

Lemma sphere_bounds_checked_witness :
  run (SphereBivariateSpline__call__ (scripted_surfit 0 0)
         (array1 [Fin 1; Fin 4]) (array1 [Fin 0]) 0 0 true) sample_surface =
    if existsb (outside np_pi) (data (array1 [Fin 1; Fin 4]))
    then mk_outcome (inl (ValueError (Text "requested theta out of bounds.")))
                    sample_surface []
    else if existsb (outside (2 * np_pi)%Q) (data (array1 [Fin 0]))
    then mk_outcome (inl (ValueError (Text "requested phi out of bounds.")))
                    sample_surface []
    else run (_BivariateSplineBase__call__ (scripted_surfit 0 0)
                (array1 [Fin 1; Fin 4]) (array1 [Fin 0]) None 0 0 true) sample_surface.
Proof.
  apply (@sphere_bounds_checked (scripted_surfit 0 0) (array1 [Fin 1; Fin 4])
           (array1 [Fin 0]) 0 0 true sample_surface); reflexivity.
Defined.

Lemma fold_min_nan (r : list num) :
  fold_left (fun acc b => if num_ltb acc b || num_isnan acc then acc else b) r NaN = NaN.
Proof. induction r as [|b r IH]; [reflexivity|]. cbn. exact IH. Qed.

Lemma fold_max_nan (r : list num) :
  fold_left (fun acc b => if num_geb acc b || num_isnan acc then acc else b) r NaN = NaN.
Proof.
  induction r as [|b r IH]; [reflexivity|].
  cbn [fold_left num_isnan]. rewrite orb_true_r. exact IH.
Qed.

Lemma num_ltb_nan_r (a : num) : num_ltb a NaN = false.
Proof. now destruct a. Qed.

Lemma num_geb_nan_r (a : num) : num_geb a NaN = false.
Proof. now destruct a. Qed.

Lemma fold_min_In_nan (r : list num) (a : num) :
  In NaN (a :: r) ->
  fold_left (fun acc b => if num_ltb acc b || num_isnan acc then acc else b) r a = NaN.
Proof.
  revert a. induction r as [|b r IH]; intros a H.
  - destruct H as [H|[]]. now subst.
  - cbn [fold_left]. destruct H as [H|H].
    + subst a. cbn. apply fold_min_nan.
    + apply IH. destruct H as [H|H].
      * subst b. rewrite num_ltb_nan_r. cbn [orb].
        destruct (num_isnan a) eqn:E; [destruct a; try discriminate|]; now left.
      * now right.
Qed.

Lemma fold_max_In_nan (r : list num) (a : num) :
  In NaN (a :: r) ->
  fold_left (fun acc b => if num_geb acc b || num_isnan acc then acc else b) r a = NaN.
Proof.
  revert a. induction r as [|b r IH]; intros a H.
  - destruct H as [H|[]]. now subst.
  - cbn [fold_left]. destruct H as [H|H].
    + subst a. cbn [num_isnan]. rewrite orb_true_r. apply fold_max_nan.
    + apply IH. destruct H as [H|H].
      * subst b. rewrite num_geb_nan_r. cbn [orb].
        destruct (num_isnan a) eqn:E; [destruct a; try discriminate|]; now left.
      * now right.
Qed.

Lemma out_of_bounds_nan (O : Type) (a : ndarray) (bound : Q) (o : O) tr :
  In NaN (data a) -> out_of_bounds a bound o tr = mk_outcome (inr false) o tr.
Proof.
  intros H. unfold out_of_bounds. destruct (0 <? size a)%nat; [|reflexivity].
  destruct (data a) as [|v r]; [destruct H|].
  cbn [np_min np_max]. run_step.
  rewrite (fold_min_In_nan H). cbn [num_ltb]. run_step.
  rewrite (fold_max_In_nan H). reflexivity.
Qed.

(** X6. A NaN switches the bounds check of
    [SphereBivariateSpline.__call__] off: [min] and [max] of an array that
    holds a NaN are NaN, and NaN compares false with every bound, so when
    [theta] and [phi] each hold a NaN no out-of-bounds error is raised,
    whatever the other values are, and the call goes on as
    [_BivariateSplineBase.__call__]. *)
Theorem sphere_bounds_nan (slib : surfit_lib)
    (theta phi : ndarray) (dtheta dphi : Z) (grid : bool) (o : bspline) :
  In NaN (data theta) -> In NaN (data phi) ->
  run (SphereBivariateSpline__call__ slib theta phi dtheta dphi grid) o =
    run (_BivariateSplineBase__call__ slib theta phi None dtheta dphi grid) o.
Proof.
  intros Ht Hp. unfold SphereBivariateSpline__call__, run, bind.
  rewrite (@out_of_bounds_nan bspline theta np_pi o [] Ht). cbn [result self_after trace].
  rewrite (@out_of_bounds_nan bspline phi (2 * np_pi)%Q o [] Hp). reflexivity.
Qed.

Lemma sphere_bounds_nan_witness :
  run (SphereBivariateSpline__call__ (scripted_surfit 0 0)
         (array1 [NaN; Fin 4]) (array1 [Fin 100; NaN]) 0 0 true) sample_surface =
    run (_BivariateSplineBase__call__ (scripted_surfit 0 0)
           (array1 [NaN; Fin 4]) (array1 [Fin 100; NaN]) None 0 0 true) sample_surface.
Proof.
  apply (@sphere_bounds_nan (scripted_surfit 0 0) (array1 [NaN; Fin 4])
           (array1 [Fin 100; NaN]) 0 0 true sample_surface).
  - left. reflexivity.
  - right. left. reflexivity.
Defined.

(** X7. [UnivariateSpline.__call__] on an empty [x] returns the empty
    array at once: no evaluator is called, the object is untouched, and the
    [ext] argument is not even looked up, so an invalid one goes
    unnoticed. *)
Theorem univariate_call_empty (lib : curfit_lib)
    (x : ndarray) (nu : Z) (e : option ext_key) (o : uspline) :
  size x = 0%nat ->
  run (UnivariateSpline__call__ lib x nu e) o = mk_outcome (inr (array1 [])) o [].
Proof.
  intros H. unfold UnivariateSpline__call__. rewrite H. reflexivity.
Qed.

Lemma univariate_call_empty_witness :
  run (UnivariateSpline__call__ (scripted_curfit 0 0) (mk_ndarray [2%nat; 0%nat] []) 1
         (Some (KStr "bogus")))
      blank_spline
  = mk_outcome (inr (array1 [])) blank_spline [].
Proof.
  apply (@univariate_call_empty (scripted_curfit 0 0) (mk_ndarray [2%nat; 0%nat] []) 1
           (Some (KStr "bogus")) blank_spline).
  reflexivity.
Defined.

Lemma size_np_zeros (s : shape_t) : size (np_zeros s) = shape_size s.
Proof. reflexivity. Qed.

(** X8. [_BivariateSplineBase.__call__] on a fitted spline, with [x] or
    [y] empty: no evaluator is called and the object is untouched.  In grid
    mode the result is the zero array of shape [(x.size, y.size)]; in
    pointwise mode it is the zero array of the common shape when the two
    shapes are equal or broadcast, and numpy's shape mismatch error when
    they do not.  A returned array is empty. *)
Theorem bivariate_call_empty (slib : surfit_lib)
    (x y : ndarray) (mth : option string) (dx dy : Z) (grid : bool)
    (f : option num) (t : tck3) (deg : Z * Z) :
  size x = 0%nat \/ size y = 0%nat ->
  let o := mk_bspline f (Some t) (Some deg) in
  let r := run (_BivariateSplineBase__call__ slib x y mth dx dy grid) o in
  self_after r = o /\
  filter is_evaluator_call (trace r) = [] /\
  result r =
    (if grid then inr (np_zeros [size x; size y])
     else match (if shape_eqb (shape x) (shape y) then Some (shape x)
                 else broadcast_shapes (shape x) (shape y)) with
          | Some sh => inr (np_zeros sh)
          | None => inl broadcast_error
          end) /\
  match result r with
  | inr z => size z = 0%nat
  | inl _ => True
  end.
Proof.
  intros Hz o r. subst o r.
  assert (E : (size x =? 0)%nat || (size y =? 0)%nat = true).
  { destruct Hz as [H|H]; rewrite H; cbn; [reflexivity|apply orb_true_r]. }
  unfold _BivariateSplineBase__call__. destruct deg as [kx ky]. destruct grid.
  - destruct mth; run_step; rewrite E; repeat split; cbn [result];
      rewrite size_np_zeros, !shape_size_cons; destruct Hz as [H|H]; rewrite H; lia.
  - destruct (shape_eqb (shape x) (shape y)) eqn:Es.
    + assert (Hs : shape_size (shape x) = 0%nat).
      { apply shape_eqb_eq in Es. destruct Hz as [H|H]; [exact H|].
        rewrite Es. exact H. }
      destruct mth; run_step; rewrite !size_ravel, E; repeat split; exact Hs.
    + unfold broadcast_arrays.
      destruct (broadcast_shapes (shape x) (shape y)) as [sh|] eqn:Eb.
      * assert (Hsh : shape_size sh = 0%nat)
          by (apply (broadcast_shapes_empty _ _ Eb); exact Hz).
        assert (Hx : (size (ravel (broadcast_to x sh)) =? 0)%nat = true).
        { rewrite size_ravel. unfold size, broadcast_to. cbn [shape].
          now apply Nat.eqb_eq. }
        destruct mth; run_step; rewrite Hx; cbn [orb]; repeat split; exact Hsh.
      * destruct mth; run_step; repeat split.
Qed.

Lemma bivariate_call_empty_witness :
  let o := mk_bspline (Some zero) (Some ([], [], [])) (Some (3, 3)) in
  let r := run (_BivariateSplineBase__call__ (scripted_surfit 0 0)
                  (array1 []) (mk_ndarray [1%nat; 1%nat] [Fin 2]) None 0 0 false) o in
  self_after r = o /\
  filter is_evaluator_call (trace r) = [] /\
  result r =
    (if false then inr (np_zeros [size (array1 []); size (mk_ndarray [1%nat; 1%nat] [Fin 2])])
     else match (if shape_eqb (shape (array1 [])) (shape (mk_ndarray [1%nat; 1%nat] [Fin 2]))
                 then Some (shape (array1 []))
                 else broadcast_shapes (shape (array1 []))
                                       (shape (mk_ndarray [1%nat; 1%nat] [Fin 2]))) with
          | Some sh => inr (np_zeros sh)
          | None => inl broadcast_error
          end) /\
  match result r with
  | inr z => size z = 0%nat
  | inl _ => True
  end.
Proof.
  apply (@bivariate_call_empty (scripted_surfit 0 0) (array1 [])
           (mk_ndarray [1%nat; 1%nat] [Fin 2]) None 0 0 false (Some zero)
           ([], [], []) (3, 3)).
  left. reflexivity.
Defined.

(** X9. [derivative] and [antiderivative] leave the spline as it is and
    return a new object built from the knots, coefficients and degree that
    [splder], respectively [splantider], computed from [_eval_args]: its
    class is UnivariateSpline whatever the class of the spline, it inherits
    the extrapolation mode, and its [get_knots] strips the new degree from
    each end of the new knots. *)
Theorem derivative_is_a_plain_spline (lib : curfit_lib)
    (n : Z) (cls : pyclass) (sc : option pyclass) (d : option udata)
    (args : tck_t) (e : Z) :
  let o := mk_uspline cls sc d (Some args) (Some e) in
  let spline_from (tck0 : tck_t) (p : uspline) :=
    let '(t, c, k) := tck0 in
    __class__ p = UnivariateSpline /\ ext p = Some e /\ _eval_args p = Some tck0 /\
    result (run get_knots p) = inr (py_slice t (Some k) (Some (len t - k))) /\
    result (run get_coeffs p) = inr (py_slice c None (Some (len t - k - 1))) in
  (let r := run (derivative lib n) o in
   self_after r = o /\ trace r = [Call r_splder] /\
   exists p, result r = inr p /\ spline_from (splder lib args n) p) /\
  (let r := run (antiderivative lib n) o in
   self_after r = o /\ trace r = [Call r_splantider] /\
   exists p, result r = inr p /\ spline_from (splantider lib args n) p).
Proof.
  cbv zeta. split.
  - unfold derivative. run_step. repeat split.
    eexists. split; [reflexivity|].
    destruct (splder lib args n) as [[t c] k]. repeat split.
  - unfold antiderivative. run_step. repeat split.
    eexists. split; [reflexivity|].
    destruct (splantider lib args n) as [[t c] k]. repeat split.
Qed.

(** X10. [derivatives(x)] calls [spalde] once on [_eval_args] and leaves
    the spline as it is; it returns the derivatives [spalde] computed when
    the error code is 0 and raises ValueError carrying the code
    otherwise. *)
Theorem derivatives_result (lib : curfit_lib)
    (x : num) (cls : pyclass) (sc : option pyclass) (d : option udata)
    (args : tck_t) (e : option Z) :
  let o := mk_uspline cls sc d (Some args) e in
  let r := run (derivatives lib x) o in
  self_after r = o /\ trace r = [Call r_spalde] /\
  result r =
    (if snd (spalde lib args x) =? 0 then inr (fst (spalde lib args x))
     else inl (ValueError (Format "Error code returned by spalde: %s"
                                  [AInt (snd (spalde lib args x))]))).
Proof.
  cbv zeta. unfold derivatives. run_step.
  destruct (spalde lib args x) as [dv ier]. cbn [fst snd]. run_step.
  destruct (ier =? 0); repeat split.
Qed.

(** ** Extra properties of the refit with enlarged arrays *)

Lemma length_concat_repeat {A} (a : list A) (m : nat) :
  List.length (concat (repeat a m)) = (m * List.length a)%nat.
Proof.
  induction m as [|m IH]; [reflexivity|].
  cbn [repeat concat]. rewrite length_app, IH. lia.
Qed.

Lemma np_resize_length {A} (z : A) (a l : list A) (n : Z) :
  np_resize z a n = Some l -> List.length l = Z.to_nat n.
Proof.
  unfold np_resize. destruct (n <? 0); [discriminate|].
  intros H. injection H as <-.
  destruct a as [|v a]; [apply repeat_length|].
  rewrite length_firstn, length_concat_repeat. cbn [List.length]. nia.
Qed.

Lemma np_resize_prefix {A} (z : A) (a l : list A) (n : Z) :
  np_resize z a n = Some l ->
  (List.length a <= Z.to_nat n)%nat ->
  firstn (List.length a) l = a.
Proof.
  unfold np_resize. destruct (n <? 0); [discriminate|].
  intros E H. injection E as <-. destruct a as [|v a]; [reflexivity|].
  destruct (Z.to_nat n) as [|m] eqn:E; [cbn in H; lia|].
  cbn [repeat concat].
  rewrite (firstn_app (S m)).
  rewrite (@firstn_all2 _ (S m) (v :: a) H).
  rewrite firstn_app, firstn_all, Nat.sub_diag. cbn [firstn]. apply app_nil_r.
Qed.

(** X11. [_reset_nest] with no [nest] given takes [nest = m + k + 1], [m]
    being the number of data points.  When that is negative, [np.resize]
    raises ValueError and nothing is called.  Otherwise it refits once,
    with [fpcurf1], after enlarging the four work arrays (knots,
    coefficients, [fpint], [nrdata]) to [nest] entries; an array that was
    not longer than [nest] keeps its content as a prefix.  Everything else
    in the tuple, the knot count [n] included, is passed on as it was. *)
Theorem reset_nest_enlarges (lib : curfit_lib) (data : fitdata) (o : uspline)
    (tr : list event) :
  let nest := len (f_x data) + f_k data + 1 in
  if nest <? 0
  then _reset_nest lib data None o tr = mk_outcome (inl negative_size_error) o tr
  else
    exists args,
      _reset_nest lib data None o tr =
        mk_outcome (inr (fpcurf1 lib args)) o (tr ++ [Call r_fpcurf1]) /\
      List.length (d_t args) = Z.to_nat nest /\
      List.length (d_c args) = Z.to_nat nest /\
      option_map (@List.length num) (d_fpint args) = Some (Z.to_nat nest) /\
      option_map (@List.length Z) (d_nrdata args) = Some (Z.to_nat nest) /\
      (len (f_t data) <= nest -> firstn (List.length (f_t data)) (d_t args) = f_t data) /\
      (len (f_c data) <= nest -> firstn (List.length (f_c data)) (d_c args) = f_c data) /\
      d_x args = Some (f_x data) /\ d_y args = Some (f_y data) /\
      d_w args = Some (f_w data) /\ d_xb args = Some (f_xb data) /\
      d_xe args = Some (f_xe data) /\ d_k args = f_k data /\
      d_s args = Some (f_s data) /\ d_n args = f_n data /\
      d_fp args = Some (f_fp data) /\ d_ier args = Some (f_ier data).
Proof.
  cbv zeta. rewrite _reset_nest_run. unfold max_nest, resized_args.
  destruct (len (f_x data) + f_k data + 1 <? 0) eqn:En.
  - unfold np_resize. rewrite En. reflexivity.
  - destruct (np_resize zero (f_t data) _) as [t|] eqn:Et;
      [|unfold np_resize in Et; rewrite En in Et; discriminate Et].
    destruct (np_resize zero (f_c data) _) as [c|] eqn:Ec;
      [|unfold np_resize in Ec; rewrite En in Ec; discriminate Ec].
    destruct (np_resize zero (f_fpint data) _) as [fpint|] eqn:Ef;
      [|unfold np_resize in Ef; rewrite En in Ef; discriminate Ef].
    destruct (np_resize 0 (f_nrdata data) _) as [nrdata|] eqn:Er;
      [|unfold np_resize in Er; rewrite En in Er; discriminate Er].
    eexists. split; [reflexivity|].
    cbn [d_t d_c d_fpint d_nrdata d_x d_y d_w d_xb d_xe d_k d_s d_n d_fp d_ier
         option_map].
    rewrite (np_resize_length _ _ _ Et), (np_resize_length _ _ _ Ec),
      (np_resize_length _ _ _ Ef), (np_resize_length _ _ _ Er).
    repeat split.
    + intros H. apply (np_resize_prefix _ _ _ Et). unfold len in *. lia.
    + intros H. apply (np_resize_prefix _ _ _ Ec). unfold len in *. lia.
Qed.

(** ** Extra properties of the knot arrays of the least-squares surfaces *)

Lemma firstn_repeat {A} (v : A) (i n : nat) :
  (i <= n)%nat -> firstn i (repeat v n) = repeat v i.
Proof.
  revert n. induction i as [|i IH]; intros n H; [reflexivity|].
  destruct n as [|n]; [lia|]. cbn. f_equal. apply IH. lia.
Qed.

Lemma skipn_repeat {A} (v : A) (i n : nat) :
  skipn i (repeat v n) = repeat v (n - i).
Proof.
  revert n. induction i as [|i IH]; intros n.
  - now rewrite Nat.sub_0_r.
  - destruct n as [|n]; [reflexivity|]. cbn. apply IH.
Qed.

(** Writing [v] into the middle of an array of [p + |v| + q] zeros. *)
Lemma assign_into_zeros (p q : nat) (lo hi : option Z) (v : list num) :
  let n := (p + List.length v + q)%nat in
  match lo with Some i => adjust_index (Z.of_nat n) i | None => 0 end = Z.of_nat p ->
  match hi with Some j => adjust_index (Z.of_nat n) j | None => Z.of_nat n end
    = Z.of_nat (p + List.length v) ->
  np_assign_slice (repeat zero n) lo hi v = Some (repeat zero p ++ v ++ repeat zero q).
Proof.
  intros n Hlo Hhi. unfold np_assign_slice, len. rewrite repeat_length.
  fold n. rewrite Hlo, Hhi.
  replace (Z.to_nat (Z.of_nat (p + List.length v) - Z.of_nat p)) with (List.length v)
    by lia.
  rewrite Nat.eqb_refl, Nat2Z.id.
  rewrite firstn_repeat by (subst n; lia).
  rewrite skipn_repeat. subst n.
  replace (p + List.length v + q - (p + List.length v))%nat with q by lia.
  reflexivity.
Qed.

Lemma fill_tail (a : list num) (c : num) (q : nat) :
  (S q <= List.length a)%nat ->
  np_fill_slice a (Some (- Z.of_nat (S q))) None c =
    firstn (List.length a - S q) a ++ repeat c (S q).
Proof.
  intros H. unfold np_fill_slice, adjust_index, len.
  replace (- Z.of_nat (S q) <? 0) with true by (symmetry; apply Z.ltb_lt; lia).
  rewrite Z.max_r by lia.
  replace (Z.to_nat (- Z.of_nat (S q) + Z.of_nat (List.length a)))
    with (List.length a - S q)%nat by lia.
  replace (Z.to_nat (Z.of_nat (List.length a)
                     - (- Z.of_nat (S q) + Z.of_nat (List.length a))))
    with (S q) by lia.
  replace (List.length a - S q + S q)%nat with (List.length a) by lia.
  rewrite skipn_all. now rewrite app_nil_r.
Qed.

Lemma sphere_knot_array (v : list num) (c : num) :
  exists a,
    np_assign_slice (repeat zero (Z.to_nat (8 + len v))) (Some 4) (Some (-4)) v = Some a /\
    np_fill_slice a (Some (-4)) None c = repeat zero 4 ++ v ++ repeat c 4.
Proof.
  exists (repeat zero 4 ++ v ++ repeat zero 4). split.
  - replace (Z.to_nat (8 + len v)) with (4 + List.length v + 4)%nat
      by (unfold len; lia).
    apply assign_into_zeros; unfold adjust_index.
    + replace (4 <? 0) with false by reflexivity. lia.
    + replace (-4 <? 0) with true by reflexivity. lia.
  - change (Some (-4)) with (Some (- Z.of_nat 4)).
    rewrite fill_tail by (rewrite !length_app, !repeat_length; lia).
    rewrite !length_app, !repeat_length.
    replace (4 + (List.length v + 4) - 4)%nat with (List.length (repeat zero 4 ++ v))
      by (rewrite length_app, repeat_length; lia).
    rewrite app_assoc, firstn_app, firstn_all, Nat.sub_diag. cbn [firstn].
    rewrite app_nil_r, <- app_assoc. reflexivity.
Qed.

Lemma sphere_setup_value (tt tp : list num) :
  sphere_setup tt tp =
    inr (repeat zero 4 ++ tt ++ repeat (Fin np_pi) 4,
         repeat zero 4 ++ tp ++ repeat (Fin (2 * np_pi)%Q) 4).
Proof.
  unfold sphere_setup. cbv zeta.
  pose proof (len_nonneg tt). pose proof (len_nonneg tp).
  replace (8 + len tt <? 0) with false by (symmetry; apply Z.ltb_ge; lia).
  replace (8 + len tp <? 0) with false by (symmetry; apply Z.ltb_ge; lia).
  destruct (sphere_knot_array tt (Fin np_pi)) as [a [Ha Hfa]].
  destruct (sphere_knot_array tp (Fin (2 * np_pi)%Q)) as [b [Hb Hfb]].
  rewrite Ha, Hb, Hfa, Hfb. reflexivity.
Qed.

(** X12. [LSQSphereBivariateSpline.__init__] never raises before its fit.
    It calls [spherfit_lsq] once, with knot arrays laid out as four zeros,
    the caller's interior knots, and four copies of [pi] (for [tt]) or of
    [2*pi] (for [tp]).  On a status below -2 or one of 0, -1, -2 it stores
    what the routine returned, with degrees (3, 3); on any other status it
    raises and stores nothing. *)
Theorem lsq_sphere_knots (slib : surfit_lib)
    (theta phi r0 tt tp : list num) (w : option (list num)) (eps : num)
    (o : bspline) :
  let tt_ := repeat zero 4 ++ tt ++ repeat (Fin np_pi) 4 in
  let tp_ := repeat zero 4 ++ tp ++ repeat (Fin (2 * np_pi)%Q) 4 in
  let f := spherfit_lsq slib theta phi r0 tt_ tp_ w eps in
  let r := run (LSQSphereBivariateSpline__init__ slib theta phi r0 tt tp w eps) o in
  filter is_solver_call (trace r) = [Call r_spherfit_lsq] /\
  if (l_ier f <? -2) || normal_return (l_ier f)
  then result r = inr Datatypes.tt /\
       self_after r = stored (l_fp f) (l_tx f, l_ty f, l_c f) (3, 3) o
  else raised r = true /\ self_after r = o.
Proof.
  cbv zeta. unfold run. rewrite LSQSphereBivariateSpline__init__run.
  rewrite sphere_setup_value. cbv zeta.
  destruct (l_ier _ <? -2); cbn [orb]; [repeat split|].
  destruct (normal_return _); repeat split.
Qed.

Lemma surface_knot_array (k : Z) (v : list num) :
  0 <= k ->
  let n := 2 * k + 2 + len v in
  np_assign_slice (repeat zero (Z.to_nat n)) (Some (k + 1)) (Some (n - k - 1)) v
  = Some (repeat zero (Z.to_nat (k + 1)) ++ v ++ repeat zero (Z.to_nat (k + 1))).
Proof.
  intros Hk n. subst n. pose proof (len_nonneg v) as Hv.
  replace (Z.to_nat (2 * k + 2 + len v))
    with (Z.to_nat (k + 1) + List.length v + Z.to_nat (k + 1))%nat
    by (unfold len; lia).
  apply assign_into_zeros; unfold adjust_index, len in *.
  - replace (k + 1 <? 0) with false by (symmetry; apply Z.ltb_ge; lia). lia.
  - replace (2 * k + 2 + Z.of_nat (List.length v) - k - 1 <? 0) with false
      by (symmetry; apply Z.ltb_ge; lia).
    lia.
Qed.

(** X13. [LSQBivariateSpline.__init__] with degrees [kx, ky >= 0] raises
    nothing before its fit: the first thing it does that can be observed
    is the call of [surfit_lsq], with knot arrays laid out as [k+1] zeros,
    the caller's interior knots and [k+1] zeros (the routine fills in the
    boundary knots), and with [lwrk2 = 1].  When the status is above 10 it
    calls the routine a second time, on the knots the first call returned
    and with [lwrk2] set to that status; there is no other call.  When the
    constructor returns, the object holds what the last call returned,
    with degrees [(kx, ky)]. *)
Theorem lsq_surface_knots (slib : surfit_lib)
    (x y z tx ty : list num) (w : option (list num)) (bbox : bbox4) (kx ky : Z)
    (eps : option num) (o : bspline) :
  0 <= kx -> 0 <= ky ->
  let r := run (LSQBivariateSpline__init__ slib x y z tx ty w bbox kx ky eps) o in
  let tx1 := repeat zero (Z.to_nat (kx + 1)) ++ tx ++ repeat zero (Z.to_nat (kx + 1)) in
  let ty1 := repeat zero (Z.to_nat (ky + 1)) ++ ty ++ repeat zero (Z.to_nat (ky + 1)) in
  let f0 := surfit_lsq slib x y z tx1 ty1 w bbox kx ky eps 1 in
  let f := if l_ier f0 >? 10
           then surfit_lsq slib x y z (l_tx f0) (l_ty f0) w bbox kx ky eps (l_ier f0)
           else f0 in
  hd_error (trace r) = Some (Call r_surfit_lsq) /\
  solver_events (trace r) =
    (if l_ier f0 >? 10 then [Call r_surfit_lsq; Call r_surfit_lsq]
     else [Call r_surfit_lsq]) /\
  (raised r = false ->
   self_after r = stored (l_fp f) (l_tx f, l_ty f, l_c f) (kx, ky) o).
Proof.
  intros Hx Hy. cbv zeta. unfold run.
  rewrite LSQBivariateSpline__init__run.
  unfold lsq_setup. cbv zeta.
  pose proof (len_nonneg tx). pose proof (len_nonneg ty).
  replace (2 * kx + 2 + len tx <? 0) with false by (symmetry; apply Z.ltb_ge; lia).
  replace (2 * ky + 2 + len ty <? 0) with false by (symmetry; apply Z.ltb_ge; lia).
  rewrite (surface_knot_array tx Hx), (surface_knot_array ty Hy).
  cbn [self_after trace]. split; [reflexivity|]. split; [|reflexivity].
  rewrite !solver_events_app, solver_events_lsq_surface_warnings, app_nil_r.
  unfold rerun_calls. destruct (l_ier _ >? 10); reflexivity.
Qed.

Lemma lsq_surface_knots_witness :
  let lib := scripted_surfit 11 0 in
  let r := run (LSQBivariateSpline__init__ lib
                  (arange 0 6) (arange 0 6) (arange 0 6) [Fin 2] [Fin 3] None
                  (None, None, None, None) 1 1 None) new_bspline in
  let tx1 := repeat zero (Z.to_nat (1 + 1)) ++ [Fin 2] ++ repeat zero (Z.to_nat (1 + 1)) in
  let ty1 := repeat zero (Z.to_nat (1 + 1)) ++ [Fin 3] ++ repeat zero (Z.to_nat (1 + 1)) in
  let f0 := surfit_lsq lib (arange 0 6) (arange 0 6) (arange 0 6) tx1 ty1 None
              (None, None, None, None) 1 1 None 1 in
  let f := if l_ier f0 >? 10
           then surfit_lsq lib (arange 0 6) (arange 0 6) (arange 0 6) (l_tx f0) (l_ty f0)
                  None (None, None, None, None) 1 1 None (l_ier f0)
           else f0 in
  hd_error (trace r) = Some (Call r_surfit_lsq) /\
  solver_events (trace r) =
    (if l_ier f0 >? 10 then [Call r_surfit_lsq; Call r_surfit_lsq]
     else [Call r_surfit_lsq]) /\
  (raised r = false ->
   self_after r = stored (l_fp f) (l_tx f, l_ty f, l_c f) (1, 1) new_bspline).
Proof.
  apply (@lsq_surface_knots (scripted_surfit 11 0) (arange 0 6) (arange 0 6)
           (arange 0 6) [Fin 2] [Fin 3] None (None, None, None, None) 1 1 None
           new_bspline); lia.
Defined.

(** ** Extra properties of the tables *)

Lemma dict_get_set_other {V} (d : list (Z * V)) (k k' : Z) (v : V) :
  k' <> k ->
  dict_get Z.eqb (dict_set Z.eqb d k v) k' = dict_get Z.eqb d k'.
Proof.
  intros Hne. induction d as [|[a b] r IH].
  - cbn. destruct (k =? k') eqn:E; [apply Z.eqb_eq in E; congruence|reflexivity].
  - cbn [dict_set]. destruct (a =? k) eqn:E.
    + apply Z.eqb_eq in E. subst a. cbn [dict_get].
      destruct (dict_get Z.eqb r k'); [reflexivity|].
      destruct (k =? k') eqn:E'; [apply Z.eqb_eq in E'; congruence|reflexivity].
    + cbn [dict_get]. rewrite IH. reflexivity.
Qed.

(** X14. The diagnostics of the sphere classes are those of the surface
    classes except where the module overrides them: [_spherefit_messages]
    differs from [_surfit_messages] at the statuses 10 and -3 only, and
    [_spfit_messages] at 10 only; so a status of 1 to 5 is reported with
    the same text by all the bivariate classes, and a status outside the
    table as 'ier=<status>'. *)
Theorem sphere_tables_share_messages :
  (forall k, k <> 10 -> k <> -3 ->
             dict_get Z.eqb _spherefit_messages k = dict_get Z.eqb _surfit_messages k) /\
  (forall k, k <> 10 ->
             dict_get Z.eqb _spfit_messages k = dict_get Z.eqb _surfit_messages k) /\
  dict_get Z.eqb _spherefit_messages 10 <> dict_get Z.eqb _surfit_messages 10 /\
  dict_get Z.eqb _spherefit_messages (-3) <> dict_get Z.eqb _surfit_messages (-3) /\
  dict_get Z.eqb _spfit_messages 10 <> dict_get Z.eqb _surfit_messages 10 /\
  dict_get Z.eqb _spfit_messages (-3) = dict_get Z.eqb _surfit_messages (-3) /\
  (forall k, (1 <=? k) && (k <=? 5) = true ->
             status_message _spherefit_messages (Some k) =
               status_message _surfit_messages (Some k) /\
             status_message _spfit_messages (Some k) =
               status_message _surfit_messages (Some k) /\
             exists s, status_message _surfit_messages (Some k) = Text s) /\
  (forall k, dict_get Z.eqb _surfit_messages k = None ->
             status_message _surfit_messages (Some k) = Format "ier=%s" [AInt k]).
Proof.
  assert (H1 : forall k, k <> 10 -> k <> -3 ->
             dict_get Z.eqb _spherefit_messages k = dict_get Z.eqb _surfit_messages k).
  { intros k Ha Hb. unfold _spherefit_messages.
    now rewrite !dict_get_set_other by assumption. }
  assert (H2 : forall k, k <> 10 ->
             dict_get Z.eqb _spfit_messages k = dict_get Z.eqb _surfit_messages k).
  { intros k Ha. unfold _spfit_messages. now rewrite dict_get_set_other by assumption. }
  repeat apply conj; try assumption.
  - vm_compute. discriminate.
  - vm_compute. discriminate.
  - vm_compute. discriminate.
  - apply H2. lia.
  - intros k Hk. apply andb_prop in Hk. destruct Hk as [Hl Hu].
    apply Z.leb_le in Hl. apply Z.leb_le in Hu.
    unfold status_message. rewrite H1, H2 by lia.
    repeat split.
    assert (Hk : k = 1 \/ k = 2 \/ k = 3 \/ k = 4 \/ k = 5) by lia.
    destruct Hk as [-> | [-> | [-> | [-> | ->]]]]; eexists; reflexivity.
  - intros k Hk. unfold status_message. now rewrite Hk.
Qed.

(** ** Extra properties of a fitted object *)

Lemma extrap_mode_range (key : ext_key) (v : Z) :
  dict_get ext_key_eqb _extrap_modes key = Some v -> 0 <= v <= 3.
Proof.
  intros E. pose proof (dict_get_In _ _ E) as Hin. cbn in Hin.
  repeat (destruct Hin as [Hin|Hin]; [inversion Hin; lia|]). destruct Hin.
Qed.

(** X15. A constructor of the univariate classes that returns has set
    [ext] to the table's code for its [ext] argument, one of 0, 1, 2, 3.
    [InterpolatedUnivariateSpline.__init__] and
    [LSQUnivariateSpline.__init__] set [ext] last: when they raise, [ext]
    is as it was.  [UnivariateSpline.__init__] sets it before fitting: when
    it raises in its finiteness check or in the lookup, nothing was called
    and [ext] is as it was, and when it raises after that, [ext] already
    holds the code. *)
Theorem ext_is_a_mode (lib : curfit_lib) :
  let lookup := dict_get ext_key_eqb _extrap_modes in
  (forall x y w bbox k s key check_finite o,
      let r := run (UnivariateSpline__init__ lib x y w bbox k s key check_finite) o in
      match result r with
      | inr _ => exists e, ext (self_after r) = Some e /\ lookup key = Some e /\
                           0 <= e <= 3
      | inl _ => (trace r = [] /\ ext (self_after r) = ext o) \/
                 (hd_error (trace r) = Some (Call r_fpcurf0) /\
                  ext (self_after r) = lookup key)
      end) /\
  (forall x y w bbox k key check_finite o,
      let r := run (InterpolatedUnivariateSpline__init__ lib x y w bbox k key
                      check_finite) o in
      match result r with
      | inr _ => exists e, ext (self_after r) = Some e /\ lookup key = Some e /\
                           0 <= e <= 3
      | inl _ => ext (self_after r) = ext o
      end) /\
  (forall dt x y t w bbox k key check_finite o,
      let r := run (LSQUnivariateSpline__init__ lib dt x y t w bbox k key
                      check_finite) o in
      match result r with
      | inr _ => exists e, ext (self_after r) = Some e /\ lookup key = Some e /\
                           0 <= e <= 3
      | inl _ => ext (self_after r) = ext o
      end).
Proof.
  cbv zeta. repeat apply conj.
  - intros x y w bbox k s key check_finite o. unfold run.
    rewrite UnivariateSpline__init__run.
    destruct (finite_check_fails check_finite x y); [left; split; reflexivity|].
    destruct (dict_get ext_key_eqb _extrap_modes key) as [e|] eqn:E;
      [|left; split; reflexivity].
    cbv zeta. destruct (settled lib _); cbn [result self_after trace].
    + right. split; reflexivity.
    + exists e. rewrite after_reset_class_ext. cbn [ext set__data set_ext].
      repeat split; now apply extrap_mode_range with key.
  - intros x y w bbox k key check_finite o. unfold run.
    rewrite InterpolatedUnivariateSpline__init__run.
    destruct (finite_check_error _ _ _ _ _ _); [reflexivity|].
    cbv zeta. unfold store_then_ext.
    destruct (dict_get ext_key_eqb _extrap_modes key) as [e|] eqn:E;
      cbn [result self_after].
    + exists e. cbn [ext set_ext]. repeat split; now apply extrap_mode_range with key.
    + now rewrite after_reset_class_ext.
  - intros dt x y t w bbox k key check_finite o. unfold run.
    rewrite LSQUnivariateSpline__init__run.
    destruct (finite_check_error _ _ _ _ _ _); [reflexivity|].
    destruct (match fst bbox with Some _ => _ | None => _ end); [|reflexivity].
    destruct (match snd bbox with Some _ => _ | None => _ end); [|reflexivity].
    cbv zeta. destruct (knot_steps _ _ _); [|reflexivity].
    destruct (negb (all_positive _)); [reflexivity|].
    destruct (negb (fpchec _ _ _ _ =? 0)); [reflexivity|].
    unfold store_then_ext.
    destruct (dict_get ext_key_eqb _extrap_modes key) as [e|] eqn:E;
      cbn [result self_after].
    + exists e. cbn [ext set_ext]. repeat split; now apply extrap_mode_range with key.
    + now rewrite after_reset_class_ext.
Qed.

(** X16. After a [UnivariateSpline.__init__] that did not raise, the
    object answers from the fit the constructor kept (the refit by
    [fpcurf1] when the first status was 1): [get_residual] returns its
    [fp], [get_knots] its [t[k:n-k]], [get_coeffs] its [c[:n-k-1]], and an
    evaluation of a non-empty [x] without [ext] hands [splev] the first
    [n] knots and coefficients, the degree, and the extrapolation mode
    given to the constructor. *)
Theorem fitted_spline_answers (lib : curfit_lib)
    (x y : list num) (w : option (list num)) (bbox : option num * option num)
    (k : Z) (s : option num) (key : ext_key) (check_finite : bool) (cls : pyclass) :
  let r := run (UnivariateSpline__init__ lib x y w bbox k s key check_finite)
               (new_uspline cls) in
  raised r = false ->
  let o := self_after r in
  exists f,
    settled lib (fpcurf0 lib x y k w (fst bbox) (snd bbox) s) = inr f /\
    result (run get_residual o) = inr (Some (f_fp f)) /\
    result (run get_knots o) =
      inr (py_slice (f_t f) (Some (f_k f)) (Some (f_n f - f_k f))) /\
    result (run get_coeffs o) = inr (py_slice (f_c f) None (Some (f_n f - f_k f - 1))) /\
    exists e,
      dict_get ext_key_eqb _extrap_modes key = Some e /\
      forall xs nu,
        (size xs =? 0)%nat = false ->
        result (run (UnivariateSpline__call__ lib xs nu None) o) =
          splev lib xs (py_slice (f_t f) None (Some (f_n f)),
                        py_slice (f_c f) None (Some (f_n f)), f_k f) nu e.
Proof.
  intros r Hr o. subst r o. unfold run in Hr |- *.
  rewrite UnivariateSpline__init__run in *.
  destruct (finite_check_fails check_finite x y); [discriminate|].
  destruct (dict_get ext_key_eqb _extrap_modes key) as [e|]; [|discriminate].
  cbv zeta in *.
  destruct (settled lib (fpcurf0 lib x y k w (fst bbox) (snd bbox) s)) as [err|f];
    [discriminate|].
  exists f. split; [reflexivity|]. cbn [self_after].
  set (o := after_reset_class (udata_of f) (set__data (udata_of f) (set_ext e (new_uspline cls)))).
  assert (Hd : _data o = Some (udata_of f)).
  { subst o. now rewrite after_reset_class_data. }
  assert (He : ext o = Some e).
  { subst o. now rewrite after_reset_class_ext. }
  assert (Ha : _eval_args o =
               Some (py_slice (f_t f) None (Some (f_n f)),
                     py_slice (f_c f) None (Some (f_n f)), f_k f)).
  { subst o. unfold after_reset_class, tagged_opt, tagged.
    destruct (tag_for _); cbn; [|reflexivity].
    destruct (known_class cls); reflexivity. }
  pose proof (get_residual_run _ Hd) as H1. unfold run in H1. rewrite H1.
  pose proof (get_knots_run _ Hd) as H2. unfold run in H2. rewrite H2.
  pose proof (get_coeffs_run _ Hd) as H3. unfold run in H3. rewrite H3.
  repeat split.
  exists e. split; [reflexivity|].
  intros xs nu Hxs. unfold UnivariateSpline__call__. rewrite Hxs.
  run_step. rewrite He. run_step. rewrite Ha. run_step.
  destruct (splev lib xs _ nu e); reflexivity.
Qed.

Lemma fitted_spline_answers_witness :
  let lib := scripted_curfit 1 0 in
  let x := arange 0 6 in
  let r := run (UnivariateSpline__init__ lib x x None (None, None) 3 None (KStr "const") false)
               (new_uspline UnivariateSpline) in
  let o := self_after r in
  exists f,
    settled lib (fpcurf0 lib x x 3 None (fst (@None num, @None num))
                         (snd (@None num, @None num)) None) = inr f /\
    result (run get_residual o) = inr (Some (f_fp f)) /\
    result (run get_knots o) =
      inr (py_slice (f_t f) (Some (f_k f)) (Some (f_n f - f_k f))) /\
    result (run get_coeffs o) = inr (py_slice (f_c f) None (Some (f_n f - f_k f - 1))) /\
    exists e,
      dict_get ext_key_eqb _extrap_modes (KStr "const") = Some e /\
      forall xs nu,
        (size xs =? 0)%nat = false ->
        result (run (UnivariateSpline__call__ lib xs nu None) o) =
          splev lib xs (py_slice (f_t f) None (Some (f_n f)),
                        py_slice (f_c f) None (Some (f_n f)), f_k f) nu e.
Proof.
  apply (@fitted_spline_answers (scripted_curfit 1 0) (arange 0 6) (arange 0 6) None
           (None, None) 3 None (KStr "const") false UnivariateSpline).
  reflexivity.
Defined.

(** X17. After a [SmoothBivariateSpline.__init__] that did not raise, the
    object answers from the fit the constructor kept, whatever its status:
    the first call of [surfit_smth], or, when its status was above 10, the
    second call, made with [lwrk2] set to that status.  [get_residual]
    returns its [fp], [get_knots] the pair [(tx[:nx], ty[:ny])],
    [get_coeffs] its [c[:(nx-kx-1)*(ny-ky-1)]], and [integral] hands
    [dblint] those arrays with the degrees [(kx, ky)]. *)
Theorem smooth_surface_answers (slib : surfit_lib)
    (x y z : list num) (w : option (list num)) (bbox : bbox4) (kx ky : Z)
    (s eps : option num) (o0 : bspline) :
  let r := run (SmoothBivariateSpline__init__ slib x y z w bbox kx ky s eps) o0 in
  raised r = false ->
  let f0 := fst (surfit_smth slib x y z w bbox kx ky s eps 1) in
  let f := if s_ier f0 >? 10
           then fst (surfit_smth slib x y z w bbox kx ky s eps (s_ier f0))
           else f0 in
  let tx := py_slice (s_tx f) None (Some (s_nx f)) in
  let ty := py_slice (s_ty f) None (Some (s_ny f)) in
  let c := py_slice (s_c f) None (Some ((s_nx f - kx - 1) * (s_ny f - ky - 1))) in
  let o := self_after r in
  result (run bivariate_get_residual o) = inr (s_fp f) /\
  result (run bivariate_get_knots o) = inr (tx, ty) /\
  result (run bivariate_get_coeffs o) = inr c /\
  forall xa xb ya yb,
    result (run (bivariate_integral slib xa xb ya yb) o) =
      inr (dblint slib (tx, ty, c) kx ky xa xb ya yb).
Proof.
  intros r _. subst r. cbv zeta. unfold run. rewrite SmoothBivariateSpline__init__run.
  cbv zeta. cbn [result self_after]. repeat split.
Qed.

Lemma smooth_surface_answers_witness :
  let slib := scripted_surfit 11 3 in
  let x := arange 0 6 in
  let bbox : bbox4 := (None, None, None, None) in
  let r := run (SmoothBivariateSpline__init__ slib x x x None bbox 1 1 None None)
               new_bspline in
  let f0 := fst (surfit_smth slib x x x None bbox 1 1 None None 1) in
  let f := if s_ier f0 >? 10
           then fst (surfit_smth slib x x x None bbox 1 1 None None (s_ier f0))
           else f0 in
  let tx := py_slice (s_tx f) None (Some (s_nx f)) in
  let ty := py_slice (s_ty f) None (Some (s_ny f)) in
  let c := py_slice (s_c f) None (Some ((s_nx f - 1 - 1) * (s_ny f - 1 - 1))) in
  let o := self_after r in
  result (run bivariate_get_residual o) = inr (s_fp f) /\
  result (run bivariate_get_knots o) = inr (tx, ty) /\
  result (run bivariate_get_coeffs o) = inr c /\
  forall xa xb ya yb,
    result (run (bivariate_integral slib xa xb ya yb) o) =
      inr (dblint slib (tx, ty, c) 1 1 xa xb ya yb).
Proof.
  apply (@smooth_surface_answers (scripted_surfit 11 3) (arange 0 6) (arange 0 6)
           (arange 0 6) None (None, None, None, None) 1 1 None None new_bspline).
  reflexivity.
Defined.

(** ** Extra properties of argument checking *)

(** X18. With [check_finite] on, [UnivariateSpline.__init__] raises
    ValueError exactly when [x] or [y] holds a NaN or an infinity, and
    otherwise goes on as with [check_finite] off; it never looks at [w].
    The two subclasses also test [w], without allowing for [w = None]: with
    [check_finite] on and no weights given they never fit, raising
    ValueError when [x] or [y] is not finite and numpy's TypeError for
    [np.isfinite(None)] when both are. *)
Theorem check_finite_behaviour (lib : curfit_lib) :
  (forall x y w bbox k s key o,
      run (UnivariateSpline__init__ lib x y w bbox k s key true) o =
        if all_finite x && all_finite y
        then run (UnivariateSpline__init__ lib x y w bbox k s key false) o
        else mk_outcome
               (inl (ValueError (Text "x and y array must not contain NaNs or infs.")))
               o []) /\
  (forall x y bbox k key o,
      run (InterpolatedUnivariateSpline__init__ lib x y None bbox k key true) o =
        mk_outcome
          (inl (if all_finite x && all_finite y then isfinite_type_error
                else ValueError (Text "Input must not contain NaNs or infs.")))
          o []) /\
  (forall dt x y t bbox k key o,
      run (LSQUnivariateSpline__init__ lib dt x y t None bbox k key true) o =
        mk_outcome
          (inl (if all_finite x && all_finite y then isfinite_type_error
                else ValueError (Text "Input(s) must not contain NaNs or infs.")))
          o []) /\
  (forall x y w bbox k key o,
      run (InterpolatedUnivariateSpline__init__ lib x y (Some w) bbox k key true) o =
        if all_finite x && all_finite y && all_finite w
        then run (InterpolatedUnivariateSpline__init__ lib x y (Some w) bbox k key false) o
        else mk_outcome
               (inl (ValueError (Text "Input must not contain NaNs or infs."))) o []).
Proof.
  repeat apply conj.
  - intros x y w bbox k s key o. unfold run.
    rewrite !UnivariateSpline__init__run. unfold finite_check_fails. cbn [andb].
    destruct (all_finite x), (all_finite y); reflexivity.
  - intros x y bbox k key o. unfold run.
    rewrite InterpolatedUnivariateSpline__init__run. unfold finite_check_error.
    destruct (all_finite x), (all_finite y); reflexivity.
  - intros dt x y t bbox k key o. unfold run.
    rewrite LSQUnivariateSpline__init__run. unfold finite_check_error.
    destruct (all_finite x), (all_finite y); reflexivity.
  - intros x y w bbox k key o. unfold run.
    rewrite !InterpolatedUnivariateSpline__init__run. unfold finite_check_error.
    destruct (all_finite x), (all_finite y), (all_finite w); reflexivity.
Qed.

(** X19. Empty data is rejected by whatever fails first.
    [RectBivariateSpline.__init__] with an empty [x] (and a floating-point
    [y]) passes the monotonicity test of [x] and then, unless [y] fails its
    own, dies in [x.min()] with numpy's ValueError for the reduction of an
    empty array, not with one of its own TypeErrors.  [LSQUnivariateSpline.__init__]
    with an empty [x] and an end of [bbox] left at [None] raises IndexError
    from [x[0]] or [x[-1]].  In each case nothing was called and the
    object is untouched. *)
Theorem empty_data_rejected (lib : curfit_lib) (slib : surfit_lib) :
  (forall dx y z bbox kx ky s o,
      run (RectBivariateSpline__init__ slib dx Float [] y z bbox kx ky s) o =
        mk_outcome
          (inl (if increasing y then reduction_error
                else TypeError (Text "y must be strictly increasing")))
          o []) /\
  (forall dt y t w xe k key o,
      run (LSQUnivariateSpline__init__ lib dt [] y t w (None, xe) k key false) o =
        mk_outcome (inl IndexError) o []) /\
  (forall dt y t w xb k key o,
      run (LSQUnivariateSpline__init__ lib dt [] y t w (Some xb, None) k key false) o =
        mk_outcome (inl IndexError) o []).
Proof.
  repeat apply conj.
  - intros dx y z bbox kx ky s o. unfold run.
    rewrite RectBivariateSpline__init__run. unfold rect_validation.
    rewrite all_positive_diff. cbn [np_diff all_positive forallb negb].
    destruct (increasing y); reflexivity.
  - intros dt y t w xe k key o. unfold run.
    rewrite LSQUnivariateSpline__init__run. reflexivity.
  - intros dt y t w xb k key o. unfold run.
    rewrite LSQUnivariateSpline__init__run. reflexivity.
Qed.

(** X20. For an object whose class is not one of the three univariate
    classes, [_reset_class] never changes the class, yet it still records
    the class the status asks for in [_spline_class]:
    InterpolatedUnivariateSpline for -1, LSQUnivariateSpline for -2 and 1,
    and no change for any other status. *)
Theorem unknown_subclass_records_class (name : string) (sc : option pyclass)
    (d : udata) (ea : option tck_t) (e : option Z) :
  let o := mk_uspline (Subclass name) sc (Some d) ea e in
  let r := run _reset_class o in
  __class__ (self_after r) = Subclass name /\
  _spline_class (self_after r) =
    match d_ier d with
    | Some (-1) => Some InterpolatedUnivariateSpline
    | Some (-2) | Some 1 => Some LSQUnivariateSpline
    | _ => sc
    end.
Proof.
  cbv zeta. unfold run. rewrite _reset_class_run with (d := d) by reflexivity.
  cbn [self_after]. unfold after_reset_class, tag_for.
  destruct (d_ier d) as [[|[?|?|]|[?|[?|?|]|]]|]; cbn; split; reflexivity.
Qed.

(** ** The ends of an increasing array *)

Lemma num_ltb_trans (a b c : num) :
  num_ltb a b = true -> num_ltb b c = true -> num_ltb a c = true.
Proof.
  destruct a as [p| | |], b as [q| | |], c as [r| | |]; cbn [num_ltb];
    try discriminate; try reflexivity.
  apply Qltb_trans.
Qed.

Lemma num_ltb_not_nan (a b : num) :
  num_ltb a b = true -> num_isnan a = false /\ num_isnan b = false.
Proof. destruct a, b; cbn; try discriminate; now split. Qed.

Lemma num_ltb_not_geb (a b : num) : num_ltb a b = true -> num_geb a b = false.
Proof.
  unfold num_geb, num_gtb.
  destruct a as [p| | |], b as [q| | |]; cbn [num_ltb num_eqb orb];
    try discriminate; try reflexivity.
  intros H. apply Qltb_lt in H.
  assert (Hq : Qltb q p = false) by (apply Qltb_ge; now apply Qlt_le_weak).
  rewrite Hq. cbn [orb].
  destruct (Qeq_bool p q) eqn:E; [|reflexivity].
  apply Qeq_bool_iff in E. rewrite E in H. now apply Qlt_irrefl in H.
Qed.

Lemma num_eqb_refl (a : num) : num_eqb a a = negb (num_isnan a).
Proof.
  destruct a as [p| | |]; cbn; try reflexivity.
  apply Qeq_bool_iff. apply Qeq_refl.
Qed.

Lemma increasing_cons (a b : num) (r : list num) :
  increasing (a :: b :: r) = num_ltb a b && increasing (b :: r).
Proof. reflexivity. Qed.

Lemma increasing_skip (a b : num) (r : list num) :
  increasing (a :: b :: r) = true -> increasing (a :: r) = true.
Proof.
  rewrite increasing_cons. intros H. apply andb_prop in H. destruct H as [Hab Hr].
  destruct r as [|c r]; [reflexivity|].
  rewrite increasing_cons in Hr |- *. apply andb_prop in Hr. destruct Hr as [Hbc Hr].
  rewrite (num_ltb_trans _ _ _ Hab Hbc). destruct r as [|d r]; [reflexivity|].
  rewrite increasing_cons in Hr. apply andb_prop in Hr. destruct Hr as [Hcd Hr].
  cbn [andb]. rewrite increasing_cons. now rewrite Hcd, Hr.
Qed.

(** The minimum of an increasing array is its first element. *)
Lemma np_min_increasing (a : num) (r : list num) :
  increasing (a :: r) = true -> np_min (a :: r) = Some a.
Proof.
  unfold np_min. intros H. f_equal.
  induction r as [|b r IH]; [reflexivity|].
  cbn [fold_left]. pose proof H as H'. rewrite increasing_cons in H'.
  apply andb_prop in H'. destruct H' as [Hab _]. rewrite Hab. cbn [orb].
  apply IH. now apply increasing_skip with b.
Qed.

Lemma last_cons (A : Type) (b a : A) (r : list A) : last (b :: r) a = last r b.
Proof.
  revert a b. induction r as [|c r IH]; intros a b; [reflexivity|].
  change (last (b :: c :: r) a) with (last (c :: r) a). rewrite IH.
  symmetry. apply IH.
Qed.

(** The maximum of an increasing array is its last element. *)
Lemma np_max_increasing (a : num) (r : list num) :
  increasing (a :: r) = true -> np_max (a :: r) = Some (last r a).
Proof.
  unfold np_max. intros H. f_equal. revert a H.
  induction r as [|b r IH]; intros a H; [reflexivity|].
  cbn [fold_left]. rewrite increasing_cons in H.
  apply andb_prop in H. destruct H as [Hab Hr].
  rewrite (num_ltb_not_geb _ _ Hab). destruct (num_ltb_not_nan _ _ Hab) as [-> _].
  cbn [orb]. rewrite (IH b Hr). symmetry. apply last_cons.
Qed.

Lemma increasing_last_not_nan (a b : num) (r : list num) :
  increasing (a :: b :: r) = true -> num_isnan (last (b :: r) a) = false.
Proof.
  revert a b. induction r as [|c r IH]; intros a b H.
  - rewrite increasing_cons in H. apply andb_prop in H. destruct H as [Hab _].
    now destruct (num_ltb_not_nan _ _ Hab).
  - rewrite increasing_cons in H. apply andb_prop in H. destruct H as [_ Hr].
    change (last (b :: c :: r) a) with (last (c :: r) a).
    rewrite last_cons. rewrite <- (last_cons c b r). now apply IH.
Qed.

Lemma nth_error_last (A : Type) (a : A) (r : list A) :
  nth_error (a :: r) (List.length r) = Some (last r a).
Proof.
  revert a. induction r as [|b r IH]; intros a; [reflexivity|].
  cbn [List.length nth_error]. rewrite IH. f_equal. symmetry.
  apply last_cons.
Qed.

Lemma py_index_first (A : Type) (a : A) (r : list A) : py_index (a :: r) 0 = Some a.
Proof.
  unfold py_index, len. cbn [List.length].
  replace (0 <? 0) with false by reflexivity.
  replace (0 <=? 0) with true by reflexivity.
  replace (0 <? Z.of_nat (S (List.length r))) with true
    by (symmetry; apply Z.ltb_lt; lia).
  reflexivity.
Qed.

Lemma py_index_last (A : Type) (a : A) (r : list A) :
  py_index (a :: r) (-1) = Some (last r a).
Proof.
  unfold py_index, len. cbn [List.length].
  replace (-1 <? 0) with true by reflexivity.
  replace (0 <=? -1 + Z.of_nat (S (List.length r))) with true
    by (symmetry; apply Z.leb_le; lia).
  replace (-1 + Z.of_nat (S (List.length r)) <? Z.of_nat (S (List.length r))) with true
    by (symmetry; apply Z.ltb_lt; lia).
  cbn [andb].
  replace (Z.to_nat (-1 + Z.of_nat (S (List.length r)))) with (List.length r) by lia.
  apply nth_error_last.
Qed.

(** On an increasing array the test [(x.min() == x[0]) and (x.max() == x[-1])]
    fails only for a single NaN. *)
Lemma ends_are_extrema_increasing (x : list num) :
  increasing x = true ->
  ends_are_extrema_value x =
    match x with
    | [] => inl reduction_error
    | [a] => inr (negb (num_isnan a))
    | _ => inr true
    end.
Proof.
  intros H. destruct x as [|a r]; [reflexivity|].
  unfold ends_are_extrema_value.
  rewrite (np_min_increasing _ _ H), (np_max_increasing _ _ H).
  rewrite py_index_first, py_index_last.
  destruct r as [|b r].
  - cbn [last]. rewrite num_eqb_refl. now destruct (num_isnan a).
  - rewrite !num_eqb_refl.
    pose proof H as H'. rewrite increasing_cons in H'.
    apply andb_prop in H'. destruct H' as [Hab _].
    destruct (num_ltb_not_nan _ _ Hab) as [-> _]. cbn [negb].
    now rewrite (increasing_last_not_nan _ _ _ H).
Qed.

(** A TypeError of [RectBivariateSpline.__init__] comes from its own
    checks, never from the fit. *)
Lemma rect_type_error (slib : surfit_lib) dx dy x y z bbox kx ky s o (m : message) :
  result (run (RectBivariateSpline__init__ slib dx dy x y z bbox kx ky s) o) =
    inl (TypeError m) <->
  rect_validation dx dy x y z = Some (TypeError m).
Proof.
  unfold run. rewrite RectBivariateSpline__init__run.
  destruct (rect_validation dx dy x y z) as [e|]; cbn [result].
  - split; intros H; injection H as ->; reflexivity.
  - cbv zeta. destruct (normal_return _); cbn [result]; split; intros H; discriminate H.
Qed.

(** X21. On floating-point coordinate arrays the two "strictly
    ascending" errors of [RectBivariateSpline.__init__] are raised for one
    input only: an array made of a single NaN.  The constructor raises
    TypeError("x must be strictly ascending") exactly when [x] is [[nan]]
    and [y] is strictly increasing, and
    TypeError("y must be strictly ascending") exactly when [y] is [[nan]]
    and [x] is a non-empty strictly increasing array other than [[nan]].
    For every other input the test that the ends of an array are its
    extrema cannot fail, the test before it having established that.  (On
    integer arrays a decreasing array can pass the first test by
    wrap-around and is then caught by this one.) *)
Theorem ascending_check_only_nan (slib : surfit_lib) x y z bbox kx ky s o :
  let r := result (run (RectBivariateSpline__init__ slib Float Float x y z bbox kx ky
                          s) o) in
  (r = inl (TypeError (Text "x must be strictly ascending")) <->
     x = [NaN] /\ increasing y = true) /\
  (r = inl (TypeError (Text "y must be strictly ascending")) <->
     y = [NaN] /\ increasing x = true /\ x <> [] /\ x <> [NaN]).
Proof.
  cbv zeta. rewrite !rect_type_error.
  unfold rect_validation. rewrite !all_positive_diff.
  destruct (increasing x) eqn:Hx; cbn [negb].
  2: { split; (split; [intros H; discriminate H|]).
       - intros (-> & _). discriminate Hx.
       - intros (_ & H & _). discriminate H. }
  rewrite (ends_are_extrema_increasing _ Hx).
  destruct (increasing y) eqn:Hy; cbn [negb].
  2: { split; (split; [intros H; discriminate H|]).
       - intros (_ & H). discriminate H.
       - intros (-> & _). discriminate Hy. }
  rewrite (ends_are_extrema_increasing _ Hy).
  assert (Hshape : forall m : string,
    (m = "x must be strictly ascending" \/ m = "y must be strictly ascending") ->
    match nth_error (shape z) 0 with
    | None => Some IndexError
    | Some z0 =>
        if negb (List.length x =? z0)%nat
        then Some (TypeError
               (Text "x dimension of z must have same number of elements as x"))
        else match nth_error (shape z) 1 with
             | None => Some IndexError
             | Some z1 =>
                 if negb (List.length y =? z1)%nat
                 then Some (TypeError
                        (Text "y dimension of z must have same number of elements as y"))
                 else None
             end
    end <> Some (TypeError (Text m))).
  { intros m Hm.
    destruct (nth_error (shape z) 0) as [z0|]; [|discriminate].
    destruct (negb (List.length x =? z0)%nat);
      [destruct Hm as [-> | ->]; discriminate|].
    destruct (nth_error (shape z) 1) as [z1|]; [|discriminate].
    destruct (negb (List.length y =? z1)%nat);
      [destruct Hm as [-> | ->]; discriminate|discriminate]. }
  pose proof (Hshape _ (or_introl eq_refl)) as Sx.
  pose proof (Hshape _ (or_intror eq_refl)) as Sy. clear Hshape.
  assert (Ny : forall a : num, num_isnan a = true -> [a] = [NaN])
    by (intros [| | |]; cbn; congruence).
  destruct x as [|a [|b x']].
  - split; (split; [intros H; discriminate H|]).
    + intros (H & _); discriminate H.
    + intros (_ & _ & H & _). now contradiction H.
  - destruct (num_isnan a) eqn:Ha; cbn [negb].
    + rewrite (Ny _ Ha). split; split; try (split; reflexivity).
      * intros H; discriminate H.
      * intros (_ & _ & _ & H). now contradiction H.
    + assert (Hne : [a] <> [NaN]) by (intros H; injection H as ->; discriminate Ha).
      split; [split; [|intros (H & _); now contradiction Hne]|].
      * destruct y as [|c [|d y']]; [| destruct (num_isnan c) |]; cbn [negb];
          intros H; try discriminate H; now contradiction Sx.
      * destruct y as [|c [|d y']]; [| destruct (num_isnan c) eqn:Hc |]; cbn [negb].
        -- split; [intros H; discriminate H|intros (H & _); discriminate H].
        -- rewrite (Ny _ Hc). split; [intros _|reflexivity].
           repeat split; [discriminate|exact Hne].
        -- split; [intros H; now contradiction Sy|].
           intros (H & _). injection H as ->. discriminate Hc.
        -- split; [intros H; now contradiction Sy|intros (H & _); discriminate H].
  - split; [split; [|intros (H & _); discriminate H]|].
    + destruct y as [|c [|d y']]; [| destruct (num_isnan c) |]; cbn [negb];
        intros H; try discriminate H; now contradiction Sx.
    + destruct y as [|c [|d y']]; [| destruct (num_isnan c) eqn:Hc |]; cbn [negb].
      * split; [intros H; discriminate H|intros (H & _); discriminate H].
      * rewrite (Ny _ Hc). split; [intros _|reflexivity].
        repeat split; discriminate.
      * split; [intros H; now contradiction Sy|].
        intros (H & _). injection H as ->. discriminate Hc.
      * split; [intros H; now contradiction Sy|intros (H & _); discriminate H].
Qed.

(** ** Extra properties: the monotonicity test on unsigned arrays *)

Lemma Qfloor_sub (a b : Z) : Qfloor (inject_Z b - inject_Z a) = b - a.
Proof.
  unfold Qfloor, Qminus, Qplus, Qopp, inject_Z. cbn [Qnum Qden].
  change (Z.pos (1 * 1)) with 1. rewrite Z.div_1_r. lia.
Qed.

Lemma num_gtb_of_Z (v : Z) : num_gtb (num_of_Z v) zero = (0 <? v).
Proof.
  unfold num_gtb, num_of_Z, zero, num_ltb, Qltb, Qcompare, inject_Z. cbn [Qnum Qden].
  change (0 * 1) with 0. rewrite Z.mul_1_r. reflexivity.
Qed.

(** The difference of two values of an unsigned type is positive unless
    they are equal. *)
Lemma unsigned_step_positive (w : positive) (a b : Z) :
  0 <= a < 2 ^ Z.pos w -> 0 <= b < 2 ^ Z.pos w ->
  num_gtb (dtype_sub (Unsigned w) (num_of_Z b) (num_of_Z a)) zero = negb (a =? b).
Proof.
  intros Ha Hb. unfold dtype_sub, num_of_Z at 1 2. rewrite Qfloor_sub.
  rewrite num_gtb_of_Z. unfold wrap.
  set (m := 2 ^ Z.pos w) in *.
  destruct (Z.eqb_spec a b) as [->|Hne]; cbn [negb].
  - rewrite Z.sub_diag, Z.mod_0_l by lia. reflexivity.
  - apply Z.ltb_lt. destruct (Z_lt_le_dec a b) as [Hlt|Hge].
    + rewrite Z.mod_small by lia. lia.
    + rewrite <- (Z_mod_plus_full (b - a) 1 m). rewrite Z.mod_small by lia. lia.
Qed.

Lemma all_positive_unsigned_diff (w : positive) (zs : list Z) :
  fits_unsigned w zs = true ->
  all_positive (np_diff (Unsigned w) (ints zs)) = no_repeat zs.
Proof.
  unfold fits_unsigned, ints.
  induction zs as [|a [|b r] IH]; intros H; try reflexivity.
  cbn [forallb] in H. apply andb_prop in H. destruct H as [Ha H].
  pose proof H as Hbr. cbn [forallb] in H. apply andb_prop in H. destruct H as [Hb _].
  apply andb_prop in Ha. destruct Ha as [Ha1 Ha2].
  apply andb_prop in Hb. destruct Hb as [Hb1 Hb2].
  apply Z.leb_le in Ha1, Hb1. apply Z.ltb_lt in Ha2, Hb2.
  change (no_repeat (a :: b :: r)) with (negb (a =? b) && no_repeat (b :: r)).
  rewrite <- (IH Hbr).
  change (np_diff (Unsigned w) (map num_of_Z (a :: b :: r)))
    with (dtype_sub (Unsigned w) (num_of_Z b) (num_of_Z a)
            :: np_diff (Unsigned w) (map num_of_Z (b :: r))).
  unfold all_positive. cbn [forallb].
  rewrite unsigned_step_positive by lia. reflexivity.
Qed.

(** X22. On arrays of an unsigned integer type [np.diff] wraps around, so
    the test [np.all(np.diff(u) > 0)] only says that no element equals the
    next one.  [RectBivariateSpline.__init__] and
    [RectSphereBivariateSpline.__init__] therefore raise their "must be
    strictly increasing" TypeError on such arrays exactly when two
    neighbours are equal, first for the first array and then for the
    second.  A decreasing array passes: [RectBivariateSpline.__init__] then
    goes on to its "strictly ascending" test, and
    [RectSphereBivariateSpline.__init__], which has no such test, calls the
    fitting routine as soon as the shape of [r] fits (here with
    [pole_continuity=True]). *)
Theorem unsigned_diff_test (slib : surfit_lib) (w : positive) (us vs : list Z) :
  fits_unsigned w us = true -> fits_unsigned w vs = true ->
  all_positive (np_diff (Unsigned w) (ints us)) = no_repeat us /\
  (forall z bbox kx ky s o,
      let r := run (RectBivariateSpline__init__ slib (Unsigned w) (Unsigned w)
                      (ints us) (ints vs) z bbox kx ky s) o in
      if no_repeat us then
        if no_repeat vs then
          match ends_are_extrema_value (ints us) with
          | inr true => True
          | inr false =>
              r = mk_outcome (inl (TypeError (Text "x must be strictly ascending"))) o []
          | inl e => r = mk_outcome (inl e) o []
          end
        else r = mk_outcome (inl (TypeError (Text "y must be strictly increasing"))) o []
      else r = mk_outcome (inl (TypeError (Text "x must be strictly increasing"))) o []) /\
  (forall r0 s pv pe pf o,
      let r := run (RectSphereBivariateSpline__init__ slib (Unsigned w) (Unsigned w)
                      (ints us) (ints vs) r0 s (FlagBool true) pv pe pf) o in
      if no_repeat us then
        if no_repeat vs then
          if shape_eqb (shape r0) [List.length us; List.length vs]
          then trace r = [Call r_regrid_smth_spher]
          else True
        else r = mk_outcome (inl (TypeError (Text "v must be strictly increasing"))) o []
      else r = mk_outcome (inl (TypeError (Text "u must be strictly increasing"))) o []).
Proof.
  intros Hu Hv. cbv zeta. split; [now apply all_positive_unsigned_diff|]. split.
  - intros z bbox kx ky s o. unfold run.
    rewrite RectBivariateSpline__init__run. unfold rect_validation.
    rewrite !all_positive_unsigned_diff by assumption.
    destruct (no_repeat us); [|reflexivity].
    destruct (no_repeat vs); [|reflexivity]. cbn [negb].
    destruct (ends_are_extrema_value (ints us)) as [e|[|]]; [reflexivity|exact I|reflexivity].
  - intros r0 s pv pe pf o. unfold run.
    rewrite RectSphereBivariateSpline__init__run. unfold rect_sphere_validation.
    rewrite !all_positive_unsigned_diff by assumption.
    destruct (no_repeat us); [|reflexivity].
    destruct (no_repeat vs); [|reflexivity]. cbn [negb].
    destruct (shape_eqb (shape r0) [List.length us; List.length vs]) eqn:Es; [|exact I].
    apply shape_eqb_eq in Es. rewrite Es. cbn [nth_error].
    unfold ints. rewrite !length_map, !Nat.eqb_refl. cbn [negb flag_pair fst snd andb].
    cbv zeta. destruct (normal_return _); reflexivity.
Qed.

Lemma unsigned_diff_test_witness :
  let slib := scripted_surfit 0 0 in
  all_positive (np_diff (Unsigned 8) (ints [5; 3])) = no_repeat [5; 3] /\
  (forall z bbox kx ky s o,
      let r := run (RectBivariateSpline__init__ slib (Unsigned 8) (Unsigned 8)
                      (ints [5; 3]) (ints [0; 1]) z bbox kx ky s) o in
      if no_repeat [5; 3] then
        if no_repeat [0; 1] then
          match ends_are_extrema_value (ints [5; 3]) with
          | inr true => True
          | inr false =>
              r = mk_outcome (inl (TypeError (Text "x must be strictly ascending"))) o []
          | inl e => r = mk_outcome (inl e) o []
          end
        else r = mk_outcome (inl (TypeError (Text "y must be strictly increasing"))) o []
      else r = mk_outcome (inl (TypeError (Text "x must be strictly increasing"))) o []) /\
  (forall r0 s pv pe pf o,
      let r := run (RectSphereBivariateSpline__init__ slib (Unsigned 8) (Unsigned 8)
                      (ints [5; 3]) (ints [0; 1]) r0 s (FlagBool true) pv pe pf) o in
      if no_repeat [5; 3] then
        if no_repeat [0; 1] then
          if shape_eqb (shape r0) [List.length [5; 3]; List.length [0; 1]]
          then trace r = [Call r_regrid_smth_spher]
          else True
        else r = mk_outcome (inl (TypeError (Text "v must be strictly increasing"))) o []
      else r = mk_outcome (inl (TypeError (Text "u must be strictly increasing"))) o []).
Proof.
  apply (@unsigned_diff_test (scripted_surfit 0 0) 8 [5; 3] [0; 1]); reflexivity.
Defined.

(** ** The bounds check of the sphere splines *)

Lemma no_nan_false_In (l : list num) : no_nan l = false -> In NaN l.
Proof.
  unfold no_nan. induction l as [|a l IH]; cbn [forallb]; [discriminate|].
  destruct a; cbn [num_isnan negb andb]; intros H;
    first [right; now apply IH | now left].
Qed.

(** What the bounds check of one array answers. *)
Lemma out_of_bounds_value (O : Type) (a : ndarray) (bound : Q) (o : O) tr :
  array_ok a = true ->
  out_of_bounds a bound o tr =
    mk_outcome (inr (no_nan (data a) && existsb (outside bound) (data a))) o tr.
Proof.
  intros Hok. destruct (no_nan (data a)) eqn:En; cbn [andb].
  - now apply out_of_bounds_run.
  - apply out_of_bounds_nan. now apply no_nan_false_In.
Qed.

(** C10, as stated, fails twice.  A [theta] that holds a NaN beside the
    out-of-range value 4 raises nothing: the evaluator is called.  And an
    evaluation with an empty [theta] does raise the out-of-bounds error
    when [phi] is out of range. *)
Lemma C10_counterexample :
  let theta := array1 [NaN; Fin 4] in
  let r := run (SphereBivariateSpline__call__ (scripted_surfit 0 0) theta
                  (array1 [Fin 0]) 0 0 true) sample_surface in
  let q := run (SphereBivariateSpline__call__ (scripted_surfit 0 0) (array1 [])
                  (array1 [Fin 100]) 0 0 true) sample_surface in
  (existsb (outside np_pi) (data theta) = true /\
   raised r = false /\ trace r = [Call r_bispev]) /\
  (size (array1 []) = 0%nat /\
   result q = inl (ValueError (Text "requested phi out of bounds."))).
Proof. vm_compute. repeat split. Qed.

(** C10, amended.  [SphereBivariateSpline.__call__] checks [theta], then
    [phi], before it delegates.  An array is rejected, with ValueError
    ("requested theta out of bounds." or "requested phi out of bounds."),
    exactly when it holds no NaN and one of its values lies outside
    [[0, pi]] for [theta], [[0, 2*pi]] for [phi]; nothing has then been
    called and the object is untouched.  An array that holds a NaN passes,
    whatever its other values; so does an empty array, and the check of the
    other array is made all the same.  When both arrays pass, the call is
    that of [_BivariateSplineBase.__call__]. *)
Theorem C10_sphere_bounds (slib : surfit_lib)
    (theta phi : ndarray) (dtheta dphi : Z) (grid : bool) (o : bspline) :
  array_ok theta = true -> array_ok phi = true ->
  let rejected bound (a : ndarray) :=
    no_nan (data a) && existsb (outside bound) (data a) in
  run (SphereBivariateSpline__call__ slib theta phi dtheta dphi grid) o =
    (if rejected np_pi theta
     then mk_outcome (inl (ValueError (Text "requested theta out of bounds."))) o []
     else if rejected (2 * np_pi)%Q phi
     then mk_outcome (inl (ValueError (Text "requested phi out of bounds."))) o []
     else run (_BivariateSplineBase__call__ slib theta phi None dtheta dphi grid) o) /\
  (size theta = 0%nat -> rejected np_pi theta = false) /\
  (size phi = 0%nat -> rejected (2 * np_pi)%Q phi = false).
Proof.
  intros Ht Hp. cbv zeta. split; [|split].
  - unfold SphereBivariateSpline__call__, run, bind.
    rewrite (@out_of_bounds_value bspline theta np_pi o [] Ht).
    cbn [result self_after trace].
    destruct (no_nan (data theta) && existsb (outside np_pi) (data theta));
      [reflexivity|].
    rewrite (@out_of_bounds_value bspline phi (2 * np_pi)%Q o [] Hp).
    cbn [result self_after trace].
    destruct (no_nan (data phi) && existsb (outside (2 * np_pi)%Q) (data phi));
      reflexivity.
  - intros Hs. unfold array_ok in Ht. rewrite Hs in Ht. apply Nat.eqb_eq in Ht.
    destruct (data theta); [reflexivity|discriminate].
  - intros Hs. unfold array_ok in Hp. rewrite Hs in Hp. apply Nat.eqb_eq in Hp.
    destruct (data phi); [reflexivity|discriminate].
Qed.

Lemma C10_sphere_bounds_witness :
  let slib := scripted_surfit 0 0 in
  let theta := array1 [Fin 1; Fin 4] in
  let phi := array1 [NaN; Fin 100] in
  let rejected bound (a : ndarray) :=
    no_nan (data a) && existsb (outside bound) (data a) in
  run (SphereBivariateSpline__call__ slib theta phi 0 0 true) sample_surface =
    (if rejected np_pi theta
     then mk_outcome (inl (ValueError (Text "requested theta out of bounds.")))
                     sample_surface []
     else if rejected (2 * np_pi)%Q phi
     then mk_outcome (inl (ValueError (Text "requested phi out of bounds.")))
                     sample_surface []
     else run (_BivariateSplineBase__call__ slib theta phi None 0 0 true)
              sample_surface) /\
  (size theta = 0%nat -> rejected np_pi theta = false) /\
  (size phi = 0%nat -> rejected (2 * np_pi)%Q phi = false).
Proof.
  apply (@C10_sphere_bounds (scripted_surfit 0 0) (array1 [Fin 1; Fin 4])
           (array1 [NaN; Fin 100]) 0 0 true sample_surface); reflexivity.
Defined.

(** ** The stored knots and coefficients *)

Lemma len_py_slice_prefix {A} (l : list A) (m : Z) :
  0 <= m <= len l -> len (py_slice l None (Some m)) = m.
Proof.
  intros H. rewrite py_slice_prefix by lia. unfold len in *.
  rewrite length_firstn. lia.
Qed.

(** C5, as stated, fails: on an LSQ spline of degree 1 through six points,
    with the one interior knot 5/2, the stored knot vector is
    [0, 0, 5/2, 5, 5] and [get_knots] returns [0, 5/2, 5], the interior
    knot together with a boundary knot on each side. *)
Lemma C5_counterexample :
  option_map d_t (_data sample_lsq_spline)
    = Some [Fin 0; Fin 0; Fin (5 # 2); Fin 5; Fin 5] /\
  option_map d_k (_data sample_lsq_spline) = Some 1 /\
  result (run get_knots sample_lsq_spline) = inr [Fin 0; Fin (5 # 2); Fin 5].
Proof. vm_compute. repeat split. Qed.

(** C5, amended.  When the fitting routine [fpcurfm1] hands back the knot
    vector it was given (with its length as [n] and the degree as [k]), a
    successful [LSQUnivariateSpline.__init__] on floating-point knots, with
    [k >= 0], stores a knot sequence that is non-decreasing and made of
    [k+1] copies of [xb], the caller's interior knots, and [k+1] copies of
    [xe].  [get_knots] returns [t[k:n-k]]: the interior knots together
    with one boundary knot on each side, not the interior knots alone.
    [get_coeffs] returns [c[:n-k-1]], which has [n-k-1] entries whenever
    the coefficient array holds that many.  [SmoothBivariateSpline] stores
    [tx[:nx]], [ty[:ny]] and [c[:(nx-kx-1)*(ny-ky-1)]] of the fit it
    keeps. *)
Theorem C5_knots_and_coefficients (lib : curfit_lib) (slib : surfit_lib)
    (x y t : list num) (w : option (list num)) (bbox : option num * option num)
    (k : Z) (key : ext_key) (check_finite : bool) (o : uspline) :
  0 <= k ->
  (forall x y k t w xb xe,
      f_t (fpcurfm1 lib x y k t w xb xe) = t /\
      f_n (fpcurfm1 lib x y k t w xb xe) = len t /\
      f_k (fpcurfm1 lib x y k t w xb xe) = k) ->
  let r := run (LSQUnivariateSpline__init__ lib Float x y t w bbox k key check_finite)
               o in
  raised r = false ->
  (exists xb xe d,
      match fst bbox with Some b => Some b | None => py_index x 0 end = Some xb /\
      match snd bbox with Some b => Some b | None => py_index x (-1) end = Some xe /\
      _data (self_after r) = Some d /\
      d_k d = k /\ d_n d = len (d_t d) /\
      d_t d = py_repeat xb (k + 1) ++ t ++ py_repeat xe (k + 1) /\
      nondecreasing (d_t d) = true /\
      result (run get_knots (self_after r)) = inr (xb :: t ++ [xe]) /\
      result (run get_coeffs (self_after r)) =
        inr (py_slice (d_c d) None (Some (d_n d - k - 1))) /\
      (d_n d - k - 1 <= len (d_c d) ->
       len (py_slice (d_c d) None (Some (d_n d - k - 1))) = d_n d - k - 1)) /\
  (forall cls sc d ea e,
      let o' := mk_uspline cls sc (Some d) ea e in
      result (run get_knots o') =
        inr (py_slice (d_t d) (Some (d_k d)) (Some (d_n d - d_k d))) /\
      result (run get_coeffs o') =
        inr (py_slice (d_c d) None (Some (d_n d - d_k d - 1)))) /\
  (forall x y z w bbox kx ky s eps o',
      let q := run (SmoothBivariateSpline__init__ slib x y z w bbox kx ky s eps) o' in
      let f0 := fst (surfit_smth slib x y z w bbox kx ky s eps 1) in
      let f := if s_ier f0 >? 10
               then fst (surfit_smth slib x y z w bbox kx ky s eps (s_ier f0))
               else f0 in
      tck (self_after q) =
        Some (py_slice (s_tx f) None (Some (s_nx f)),
              py_slice (s_ty f) None (Some (s_ny f)),
              py_slice (s_c f) None (Some ((s_nx f - kx - 1) * (s_ny f - ky - 1))))).
Proof.
  intros Hk Hecho r Hr. split; [|split].
  - subst r. unfold run in *.
    rewrite LSQUnivariateSpline__init__run in *.
    destruct (finite_check_error _ _ _ _ _ _); [discriminate|].
    destruct (match fst bbox with Some b => Some b | None => py_index x 0 end)
      as [xb|]; [|discriminate].
    destruct (match snd bbox with Some b => Some b | None => py_index x (-1) end)
      as [xe|]; [|discriminate].
    cbv zeta in *.
    destruct (knot_steps_padded xb xe t Hk) as [steps [Hs Hp]].
    rewrite Hs in *. rewrite Hp in *.
    destruct (increasing (xb :: t ++ [xe])) eqn:Hinc; [|discriminate].
    cbn [negb] in *.
    destruct (negb (fpchec lib x (padded_knots xb xe k t) k =? 0)); [discriminate|].
    unfold store_then_ext in *.
    destruct (dict_get ext_key_eqb _extrap_modes key) as [e|]; [|discriminate].
    cbn [self_after].
    remember (fpcurfm1 lib x y k (padded_knots xb xe k t) w xb xe) as f eqn:Ef.
    destruct (Hecho x y k (padded_knots xb xe k t) w xb xe) as [Ht [Hn Hk']].
    rewrite <- Ef in Ht, Hn, Hk'.
    assert (Hd : _data (set_ext e (after_reset_class (lsq_data f)
                                     (set__data (lsq_data f) o)))
                 = Some (lsq_data f)).
    { cbn [_data set_ext]. now rewrite after_reset_class_data. }
    exists xb, xe, (lsq_data f).
    pose proof (get_knots_run _ Hd) as Hg. unfold run in Hg. rewrite Hg.
    pose proof (get_coeffs_run _ Hd) as Hc. unfold run in Hc. rewrite Hc.
    cbn [result d_t d_k d_n d_c lsq_data]. rewrite Ht, Hn, Hk'.
    repeat split.
    + exact Hd.
    + now apply padded_knots_nondecreasing.
    + f_equal. now apply padded_knots_inner.
    + intros Hlen. apply len_py_slice_prefix. split; [|exact Hlen].
      rewrite len_padded_knots by exact Hk. pose proof (len_nonneg t). lia.
  - intros cls sc d ea e o'. subst o'. split.
    + rewrite (@get_knots_run (mk_uspline cls sc (Some d) ea e) d eq_refl).
      reflexivity.
    + rewrite (@get_coeffs_run (mk_uspline cls sc (Some d) ea e) d eq_refl).
      reflexivity.
  - intros x0 y0 z w0 bbox0 kx ky s eps o'. cbv zeta. unfold run.
    rewrite SmoothBivariateSpline__init__run. reflexivity.
Qed.

Lemma C5_knots_and_coefficients_witness :
  let lib := scripted_curfit 0 0 in
  let t := [Fin (-1); Fin 0; Fin 1] in
  let bbox := (Some (Fin (-3)), Some (Fin 3)) in
  let r := run (LSQUnivariateSpline__init__ lib Float (arange (-3) 7) (arange (-3) 7) t
                  None bbox 3 (KInt 0) false)
               (new_uspline LSQUnivariateSpline) in
  exists xb xe d,
    Some (Fin (-3)) = Some xb /\ Some (Fin 3) = Some xe /\
    _data (self_after r) = Some d /\
    d_k d = 3 /\ d_n d = len (d_t d) /\
    d_t d = py_repeat xb (3 + 1) ++ t ++ py_repeat xe (3 + 1) /\
    nondecreasing (d_t d) = true /\
    result (run get_knots (self_after r)) = inr (xb :: t ++ [xe]) /\
    result (run get_coeffs (self_after r)) =
      inr (py_slice (d_c d) None (Some (d_n d - 3 - 1))) /\
    (d_n d - 3 - 1 <= len (d_c d) ->
     len (py_slice (d_c d) None (Some (d_n d - 3 - 1))) = d_n d - 3 - 1).
Proof.
  apply (@C5_knots_and_coefficients (scripted_curfit 0 0) (scripted_surfit 0 0)
           (arange (-3) 7) (arange (-3) 7) [Fin (-1); Fin 0; Fin 1] None
           (Some (Fin (-3)), Some (Fin 3)) 3 (KInt 0) false
           (new_uspline LSQUnivariateSpline)).
  - lia.
  - intros. repeat split.
  - reflexivity.
Defined.
